(** * video-merger: the media-combination core and the file janitor

    A shallow embedding of [src/video_processor.py] (class [VideoProcessor]:
    [check_ffmpeg], [get_audio_duration], [get_image_dimensions],
    [create_video], [cleanup_file]) and of [src/app.py] (the checks on file
    names and sizes and the routes [/upload], [/download_page],
    [/download], [/cleanup] and [/generate_from_urls]).

    - [Module Py] models the Python values that reach the code: strings,
      ints, IEEE binary64 floats with [float()], [int()] and [str()], the
      JSON values built by [json.loads], and exceptions.  The interpreter's
      dynamic checks are explicit: an operation that Python refuses raises
      the corresponding exception.
    - [Module OS] models the host: a table of files with their [stat], a
      clock, [posixpath], and a [Host] record for what the program does not
      determine (what running a command does, what [os.makedirs] does).
      Effects are threaded by a state, error and trace monad [M]; the trace
      records the calls by which the program acts on its host.
    - [Module VideoProcessor], [Module App], [Module FileJanitor] and
      [Module Web] are the program.  The routes run in a monad [W] over the
      host's world, the session and the identifiers still to be drawn;
      what Flask, Werkzeug and Requests decide is a [Site] record.
    - [Module Spec] is the vocabulary of the specification, [Module
      Fixtures] and [Module WebFixtures] scripted hosts and sample worlds,
      and the rest of the file the properties.

    Not modelled: logging (no result depends on it), the text of the
    captured standard output, which is kept as [json.loads] reads it, and
    the bytes of uploaded and fetched files, of which only the length is
    kept. *)

From Stdlib Require Import ZArith List String Ascii Bool Lia.
From Stdlib Require Import SpecFloat DecimalString.
Import ListNotations.

Set Warnings "-register-all".

Local Open Scope string_scope.
Local Open Scope Z_scope.

(* ================================================================== *)
(** * Python run-time model *)
(* ================================================================== *)

Module Py.

(** ** Exceptions *)

(** The exception classes the modelled operations can raise.  All of them
    derive from [Exception]. *)
Inductive exn_class : Type :=
| CalledProcessError | JSONDecodeError
| FileNotFoundError | IsADirectoryError | NotADirectoryError
| FileExistsError | PermissionError | OSError
| TypeError | KeyError | ValueError | AttributeError | OverflowError.

Definition exn_class_eqb (a b : exn_class) : bool :=
  match a, b with
  | CalledProcessError, CalledProcessError | JSONDecodeError, JSONDecodeError
  | FileNotFoundError, FileNotFoundError | IsADirectoryError, IsADirectoryError
  | NotADirectoryError, NotADirectoryError | FileExistsError, FileExistsError
  | PermissionError, PermissionError | OSError, OSError
  | TypeError, TypeError | KeyError, KeyError | ValueError, ValueError
  | AttributeError, AttributeError | OverflowError, OverflowError => true
  | _, _ => false
  end.

(** An exception object: its class and [str(e)]. *)
Record exn : Type := Exn { exn_cls : exn_class; exn_str : string }.

Inductive Result (A : Type) : Type :=
| Ok (a : A)
| Raise (e : exn).
Arguments Ok {A} a.
Arguments Raise {A} e.

Definition rbind {A B} (r : Result A) (k : A -> Result B) : Result B :=
  match r with Ok a => k a | Raise e => Raise e end.

Notation "x <~ r ;; k" := (rbind r (fun x => k))
  (at level 61, r at next level, right associativity).

(** [a and b] on two conditions, [b] evaluated only when [a] holds. *)
Definition and_then (a b : Result bool) : Result bool :=
  c <~ a ;; if c then b else Ok false.

(** ** Characters and strings

    A [str] is a Rocq string; each character stands for one code point
    below 256. *)

Definition code (c : ascii) : Z := Z.of_nat (nat_of_ascii c).

Definition is_digit (c : ascii) : bool := (48 <=? code c) && (code c <=? 57).
Definition digit_val (c : ascii) : Z := code c - 48.

Definition is_ascii_char (c : ascii) : bool := code c <? 128.

(** The blanks that [float] and [int] strip.  On a pure-ASCII string these
    are tab, LF, VT, FF, CR and space; when the string holds a non-ASCII
    character the interpreter first maps every Unicode blank to a space,
    which adds 0x1c-0x1f, 0x85 and 0xa0. *)
Definition is_space (unicode : bool) (c : ascii) : bool :=
  let n := code c in
  ((9 <=? n) && (n <=? 13)) || (n =? 32)
  || (unicode && (((28 <=? n) && (n <=? 31)) || (n =? 133) || (n =? 160))).

Definition chars (s : string) : list ascii := list_ascii_of_string s.

Fixpoint lstrip (sp : ascii -> bool) (s : list ascii) : list ascii :=
  match s with
  | c :: t => if sp c then lstrip sp t else s
  | [] => []
  end.

Definition strip (s : list ascii) : list ascii :=
  let sp := is_space (negb (forallb is_ascii_char s)) in
  rev (lstrip sp (rev (lstrip sp s))).

Definition lower (c : ascii) : ascii :=
  let n := code c in
  if (65 <=? n) && (n <=? 90) then ascii_of_nat (Z.to_nat (n + 32)) else c.

(** Underscores in numeric literals: each must stand between two digits.
    Returns the text without them. *)
Fixpoint drop_underscores (prev : option ascii) (s : list ascii)
  : option (list ascii) :=
  match s with
  | [] =>
      match prev with
      | Some "_"%char => None
      | _ => Some []
      end
  | c :: t =>
      if Ascii.eqb c "_" then
        match prev with
        | Some p => if is_digit p then drop_underscores (Some c) t else None
        | None => None
        end
      else
        match prev with
        | Some "_"%char =>
            if is_digit c
            then option_map (cons c) (drop_underscores (Some c) t)
            else None
        | _ => option_map (cons c) (drop_underscores (Some c) t)
        end
  end.

(** Reads a maximal run of decimal digits: value so far, number of digits
    read, remaining text. *)
Fixpoint take_digits (s : list ascii) (acc : Z) (n : Z) : Z * Z * list ascii :=
  match s with
  | c :: t => if is_digit c then take_digits t (10 * acc + digit_val c) (n + 1)
              else (acc, n, s)
  | [] => (acc, n, [])
  end.

Definition take_sign (s : list ascii) : bool * list ascii :=
  match s with
  | "-"%char :: t => (true, t)
  | "+"%char :: t => (false, t)
  | _ => (false, s)
  end.

(** ** Floats: IEEE 754 binary64 *)

Definition prec : Z := 53.
Definition emax : Z := 1024.

Definition float : Type := spec_float.

Definition float_lt (x y : float) : bool := SFltb x y.
Definition float_sub (x y : float) : float := SFsub prec emax x y.

(** Nearest binary64 (ties to even) of [(-1)^neg * m * 2^e], [m >= 0]. *)
Definition round_binary (neg : bool) (m e : Z) : float :=
  match m with
  | Zpos p => binary_round prec emax neg p e
  | _ => S754_zero neg
  end.

(** Nearest binary64 of [(-1)^neg * m * 10^dexp], [m >= 0].  The two early
    exits only avoid building huge powers: above 10^310 every value rounds
    to infinity, below 10^-326 to zero. *)
Definition float_of_decimal (neg : bool) (m dexp : Z) : float :=
  if m <=? 0 then S754_zero neg else
  let L := Z.log2 m in
  if 310 <=? (3 * L) / 10 + dexp then S754_infinity neg
  else if (L + 1) / 3 + 1 + dexp <=? -326 then S754_zero neg
  else if 0 <=? dexp then round_binary neg (m * 10 ^ dexp) 0
  else
    let k := - dexp in
    let s := 1100 + 4 * k in
    let n := m * 2 ^ s in
    let d := 10 ^ k in
    let sticky := if n mod d =? 0 then 0 else 1 in
    round_binary neg (2 * (n / d) + sticky) (- s - 1).

(** [float(int)] *)
Definition float_of_Z (z : Z) : Result float :=
  match round_binary (z <? 0) (Z.abs z) 0 with
  | S754_infinity _ =>
      Raise (Exn OverflowError "int too large to convert to float")
  | f => Ok f
  end.

Definition lowered (s : list ascii) : string :=
  string_of_list_ascii (map lower s).

(** The digits, fraction and exponent of a float literal (sign already
    read); the whole text must be consumed. *)
Definition parse_decimal (s : list ascii) : option (Z * Z) :=
  let '(ip, ni, r1) := take_digits s 0 0 in
  let '(m, nf, r2) :=
    match r1 with
    | "."%char :: t => take_digits t ip 0
    | _ => (ip, 0, r1)
    end in
  if ni + nf =? 0 then None else
  match r2 with
  | [] => Some (m, - nf)
  | c :: t =>
      if Ascii.eqb (lower c) "e" then
        let '(eneg, t') := take_sign t in
        let '(ev, ne, r3) := take_digits t' 0 0 in
        match r3 with
        | [] => if ne =? 0 then None
                else Some (m, (if eneg then - ev else ev) - nf)
        | _ => None
        end
      else None
  end.

(** [float(str)]: [None] stands for [ValueError]. *)
Definition float_of_str (s : string) : option float :=
  match drop_underscores None (strip (chars s)) with
  | None => None
  | Some t =>
      let '(neg, body) := take_sign t in
      let word := lowered body in
      if String.eqb word "inf" || String.eqb word "infinity"
      then Some (S754_infinity neg)
      else if String.eqb word "nan" then Some S754_nan
      else option_map (fun '(m, dexp) => float_of_decimal neg m dexp)
                      (parse_decimal body)
  end.

(** [int(str)], base 10: [None] stands for [ValueError]. *)
Definition int_of_str (s : string) : option Z :=
  match drop_underscores None (strip (chars s)) with
  | None => None
  | Some t =>
      let '(neg, body) := take_sign t in
      let '(v, n, r) := take_digits body 0 0 in
      match r with
      | [] => if n =? 0 then None else Some (if neg then - v else v)
      | _ => None
      end
  end.

(** [int(float)]: truncation towards zero. *)
Definition int_of_float (f : float) : Result Z :=
  match f with
  | S754_zero _ => Ok 0
  | S754_finite s m e =>
      let a := if 0 <=? e then Zpos m * 2 ^ e else Zpos m / 2 ^ (- e) in
      Ok (if s then - a else a)
  | S754_infinity _ =>
      Raise (Exn OverflowError "cannot convert float infinity to integer")
  | S754_nan => Raise (Exn ValueError "cannot convert float NaN to integer")
  end.

(** [str(int)] *)
Definition str_of_Z (z : Z) : string := NilZero.string_of_int (Z.to_int z).

(** ** [str(float)]: the shortest decimal that reads back as the same float *)

Definition float_eqb (x y : float) : bool :=
  match x, y with
  | S754_zero a, S754_zero b => Bool.eqb a b
  | S754_infinity a, S754_infinity b => Bool.eqb a b
  | S754_nan, S754_nan => true
  | S754_finite a m e, S754_finite b n k =>
      Bool.eqb a b && Pos.eqb m n && Z.eqb e k
  | _, _ => false
  end.

(** [10^j <= num / den] *)
Definition pow10_le (j num den : Z) : bool :=
  if 0 <=? j then 10 ^ j * den <=? num else den <=? num * 10 ^ (- j).

Fixpoint climb (fuel : nat) (j num den : Z) : Z :=
  match fuel with
  | O => j
  | S fuel' => if pow10_le (j + 1) num den then climb fuel' (j + 1) num den
               else j
  end.

(** The decimal point position [k]: [10^(k-1) <= num/den < 10^k]. *)
Definition decpt_of (num den : Z) : Z :=
  let j0 := ((Z.log2 num - Z.log2 den - 1) * 30103) / 100000 - 1 in
  climb 8 j0 num den + 1.

(** The [n]-digit decimal nearest to [num/den] that reads back as [f], if
    one of the two neighbours does: digits and decimal exponent. *)
Definition shortest_at (f : float) (num den k n : Z) : option (Z * Z) :=
  let dexp := k - n in
  let N := if 0 <=? dexp then num else num * 10 ^ (- dexp) in
  let D := if 0 <=? dexp then den * 10 ^ dexp else den in
  let lo := N / D in
  let r := N mod D in
  let ok d := float_eqb (float_of_decimal false d dexp) f in
  if r =? 0 then (if ok lo then Some (lo, dexp) else None)
  else
    let hi := lo + 1 in
    let lo_first := (2 * r <? D) || ((2 * r =? D) && Z.even lo) in
    let a := if lo_first then lo else hi in
    let b := if lo_first then hi else lo in
    if ok a then Some (a, dexp)
    else if ok b then Some (b, dexp)
    else None.

Fixpoint shortest_from (fuel : nat) (f : float) (num den k n : Z)
  : Z * Z :=
  match fuel with
  | O => ((if 0 <=? k - n then num / (den * 10 ^ (k - n))
           else (num * 10 ^ (n - k)) / den), k - n)
  | S fuel' =>
      match shortest_at f num den k n with
      | Some r => r
      | None => shortest_from fuel' f num den k (n + 1)
      end
  end.

Fixpoint strip_zeros (fuel : nat) (d dexp : Z) : Z * Z :=
  match fuel with
  | O => (d, dexp)
  | S fuel' => if (d mod 10 =? 0) && negb (d =? 0)
               then strip_zeros fuel' (d / 10) (dexp + 1)
               else (d, dexp)
  end.

Fixpoint zeros (n : nat) : string :=
  match n with O => "" | S n' => "0" ++ zeros n' end.

(** Layout of the digits [ds] with the decimal point after [decpt] of
    them, as [repr] prints a float. *)
Definition format_repr (ds : string) (decpt : Z) : string :=
  let n := Z.of_nat (String.length ds) in
  if (decpt <=? -4) || (16 <? decpt) then
    let x := decpt - 1 in
    let mant := match ds with
                | String c EmptyString => String c EmptyString
                | String c rest => String c ("." ++ rest)
                | EmptyString => EmptyString
                end in
    let xs := str_of_Z (Z.abs x) in
    mant ++ "e" ++ (if x <? 0 then "-" else "+")
         ++ (if Z.abs x <? 10 then "0" else "") ++ xs
  else if decpt <=? 0 then "0." ++ zeros (Z.to_nat (- decpt)) ++ ds
  else if decpt <? n then
    substring 0 (Z.to_nat decpt) ds ++ "."
      ++ substring (Z.to_nat decpt) (Z.to_nat (n - decpt)) ds
  else ds ++ zeros (Z.to_nat (decpt - n)) ++ ".0".

(** [str(float)] *)
Definition str_of_float (f : float) : string :=
  match f with
  | S754_nan => "nan"
  | S754_infinity s => if s then "-inf" else "inf"
  | S754_zero s => if s then "-0.0" else "0.0"
  | S754_finite s m e =>
      match binary_round prec emax false m e with
      | S754_finite _ m' e' =>
          let num := if 0 <=? e' then Zpos m' * 2 ^ e' else Zpos m' in
          let den := if 0 <=? e' then 1 else 2 ^ (- e') in
          let k := decpt_of num den in
          let '(d0, x0) :=
            shortest_from 17 (S754_finite false m' e') num den k 1 in
          let '(d, x) := strip_zeros 20 d0 x0 in
          let ds := str_of_Z d in
          (if s then "-" else "")
            ++ format_repr ds (x + Z.of_nat (String.length ds))
      | S754_infinity _ => if s then "-inf" else "inf"
      | _ => if s then "-0.0" else "0.0"
      end
  end.

(** ** [repr(str)] *)

Definition hex_digit (n : Z) : ascii :=
  ascii_of_nat (Z.to_nat (if n <? 10 then 48 + n else 87 + n)).

Definition printable (c : ascii) : bool :=
  let n := code c in
  (32 <=? n) && negb (n =? 127)
  && negb ((128 <=? n) && (n <=? 160)) && negb (n =? 173).

Definition backslash : ascii := "092"%char.
Definition dquote : ascii := "034"%char.
Definition squote : ascii := "039"%char.

Definition escape_char (quote c : ascii) : string :=
  if Ascii.eqb c backslash then String backslash (String backslash "")
  else if Ascii.eqb c quote then String backslash (String quote "")
  else if code c =? 10 then String backslash "n"
  else if code c =? 13 then String backslash "r"
  else if code c =? 9 then String backslash "t"
  else if printable c then String c ""
  else String backslash
         (String "x" (String (hex_digit (code c / 16))
                        (String (hex_digit (code c mod 16)) ""))).

Definition has_char (c : ascii) (s : string) : bool :=
  existsb (Ascii.eqb c) (chars s).

Definition repr_str (s : string) : string :=
  let quote : ascii :=
    if has_char squote s && negb (has_char dquote s) then dquote else squote in
  String quote
    (concat "" (map (escape_char quote) (chars s)) ++ String quote "").

(** [repr] of a list of strings, as in the text of [CalledProcessError]. *)
Definition repr_str_list (l : list string) : string :=
  "[" ++ concat ", " (map repr_str l) ++ "]".

(** ** JSON values, as [json.loads] builds them *)

Inductive json : Type :=
| JNull
| JBool (b : bool)
| JInt (z : Z)
| JFloat (f : float)
| JStr (s : string)
| JArr (items : list json)
| JObj (fields : list (string * json)).

Definition type_name (v : json) : string :=
  match v with
  | JNull => "NoneType" | JBool _ => "bool" | JInt _ => "int"
  | JFloat _ => "float" | JStr _ => "str" | JArr _ => "list"
  | JObj _ => "dict"
  end.

Fixpoint assoc {A} (k : string) (l : list (string * A)) : option A :=
  match l with
  | [] => None
  | (k', v) :: t => if String.eqb k k' then Some v else assoc k t
  end.

(** [s.startswith(p)] *)
Fixpoint starts_with (p s : string) : bool :=
  match p, s with
  | EmptyString, _ => true
  | String a p', String b s' => Ascii.eqb a b && starts_with p' s'
  | String _ _, EmptyString => false
  end.

(** [needle in hay] on two strings. *)
Fixpoint contains (needle hay : string) : bool :=
  starts_with needle hay
  || match hay with
     | EmptyString => false
     | String _ t => contains needle t
     end.

(** [v == s] for a string [s] *)
Definition eq_str (v : json) (s : string) : bool :=
  match v with
  | JStr t => String.eqb t s
  | _ => false
  end.

Definition type_error (msg : string) : exn := Exn TypeError msg.

(** [k in v] *)
Definition py_in (k : string) (v : json) : Result bool :=
  match v with
  | JObj fields => Ok (match assoc k fields with Some _ => true | None => false end)
  | JArr items => Ok (existsb (fun x => eq_str x k) items)
  | JStr s => Ok (contains k s)
  | _ => Raise (type_error ("argument of type '" ++ type_name v
                              ++ "' is not iterable"))
  end.

(** [v[k]] *)
Definition py_getitem (v : json) (k : string) : Result json :=
  match v with
  | JObj fields =>
      match assoc k fields with
      | Some x => Ok x
      | None => Raise (Exn KeyError (repr_str k))
      end
  | JArr _ =>
      Raise (type_error "list indices must be integers or slices, not str")
  | JStr _ => Raise (type_error "string indices must be integers, not 'str'")
  | _ => Raise (type_error ("'" ++ type_name v
                              ++ "' object is not subscriptable"))
  end.

(** [len(v)] *)
Definition py_len (v : json) : Result Z :=
  match v with
  | JObj fields => Ok (Z.of_nat (List.length fields))
  | JArr items => Ok (Z.of_nat (List.length items))
  | JStr s => Ok (Z.of_nat (String.length s))
  | _ => Raise (type_error ("object of type '" ++ type_name v
                              ++ "' has no len()"))
  end.

(** The values [for x in v] runs through. *)
Definition py_iter (v : json) : Result (list json) :=
  match v with
  | JArr items => Ok items
  | JObj fields => Ok (map (fun kv => JStr (fst kv)) fields)
  | JStr s => Ok (map (fun c => JStr (String c "")) (chars s))
  | _ => Raise (type_error ("'" ++ type_name v ++ "' object is not iterable"))
  end.

(** [v.get(k, default)] *)
Definition py_get (v : json) (k : string) (default : json) : Result json :=
  match v with
  | JObj fields =>
      Ok (match assoc k fields with Some x => x | None => default end)
  | _ => Raise (Exn AttributeError
                  ("'" ++ type_name v ++ "' object has no attribute 'get'"))
  end.

(** [float(v)] *)
Definition py_float (v : json) : Result float :=
  match v with
  | JFloat f => Ok f
  | JInt z => float_of_Z z
  | JBool b => float_of_Z (if b then 1 else 0)
  | JStr s =>
      match float_of_str s with
      | Some f => Ok f
      | None => Raise (Exn ValueError
                         ("could not convert string to float: " ++ repr_str s))
      end
  | _ => Raise (type_error
                  ("float() argument must be a string or a real number, not '"
                     ++ type_name v ++ "'"))
  end.

(** [int(v)] *)
Definition py_int (v : json) : Result Z :=
  match v with
  | JInt z => Ok z
  | JBool b => Ok (if b then 1 else 0)
  | JFloat f => int_of_float f
  | JStr s =>
      match int_of_str s with
      | Some z => Ok z
      | None => Raise (Exn ValueError
                         ("invalid literal for int() with base 10: "
                            ++ repr_str s))
      end
  | _ => Raise (type_error
                  ("int() argument must be a string, a bytes-like object "
                     ++ "or a real number, not '" ++ type_name v ++ "'"))
  end.

End Py.

(* ================================================================== *)
(** * Operating system model *)
(* ================================================================== *)

Module OS.
Import Py.

(** ** Paths ([posixpath]) *)

Definition is_slash (c : ascii) : bool := Ascii.eqb c "/".

Fixpoint drop_until_slash (r : list ascii) : list ascii :=
  match r with
  | [] => []
  | c :: t => if is_slash c then r else drop_until_slash t
  end.

(** [os.path.dirname] *)
Definition dirname (p : string) : string :=
  let head := drop_until_slash (rev (chars p)) in
  if forallb is_slash head then string_of_list_ascii (rev head)
  else string_of_list_ascii (rev (lstrip is_slash head)).

Definition ends_with_slash (p : string) : bool :=
  match rev (chars p) with
  | c :: _ => is_slash c
  | [] => false
  end.

(** [os.path.join] of two components *)
Definition path_join (a b : string) : string :=
  if starts_with "/" b then b
  else if String.eqb a "" || ends_with_slash a then a ++ b
  else a ++ "/" ++ b.

(** ** Files *)

Record stat : Type := {
  st_isdir : bool;
  st_size : Z;
  st_ctime : float
}.

(** The file table maps a path, as the program spells it, to its [stat];
    the order of the table is the order in which a directory lists its
    entries. *)
Record World : Type := {
  files : list (string * stat);
  clock : float
}.

Definition lookup (p : string) (w : World) : option stat := assoc p (files w).

Definition no_such_file (p : string) : exn :=
  Exn FileNotFoundError ("[Errno 2] No such file or directory: " ++ repr_str p).

(** [os.path.exists] *)
Definition path_exists (p : string) (w : World) : bool :=
  match lookup p w with Some _ => true | None => false end.

(** [os.path.getsize] *)
Definition path_getsize (p : string) (w : World) : Result Z :=
  match lookup p w with
  | Some st => Ok (st_size st)
  | None => Raise (no_such_file p)
  end.

(** [os.path.getctime] *)
Definition path_getctime (p : string) (w : World) : Result float :=
  match lookup p w with
  | Some st => Ok (st_ctime st)
  | None => Raise (no_such_file p)
  end.

Fixpoint strip_prefix (p s : string) : option string :=
  match p, s with
  | EmptyString, _ => Some s
  | String a p', String b s' =>
      if Ascii.eqb a b then strip_prefix p' s' else None
  | String _ _, EmptyString => None
  end.

(** The name under which [path] is listed in directory [dir], when it is
    one of its direct entries. *)
Definition child_name (dir path : string) : option string :=
  match strip_prefix (path_join dir "") path with
  | Some n => if String.eqb n "" || has_char "/" n then None else Some n
  | None => None
  end.

Fixpoint children (dir : string) (l : list (string * stat)) : list string :=
  match l with
  | [] => []
  | (k, _) :: t =>
      match child_name dir k with
      | Some n => n :: children dir t
      | None => children dir t
      end
  end.

(** [os.listdir] *)
Definition listdir (dir : string) (w : World) : Result (list string) :=
  match lookup dir w with
  | None => Raise (no_such_file dir)
  | Some st =>
      if st_isdir st then Ok (children dir (files w))
      else Raise (Exn NotADirectoryError
                    ("[Errno 20] Not a directory: " ++ repr_str dir))
  end.

Definition unlink (p : string) (l : list (string * stat))
  : list (string * stat) :=
  filter (fun kv => negb (String.eqb (fst kv) p)) l.

(** [os.remove]: only a regular file can be removed. *)
Definition remove (p : string) (w : World) : Result unit * World :=
  match lookup p w with
  | None => (Raise (no_such_file p), w)
  | Some st =>
      if st_isdir st
      then (Raise (Exn IsADirectoryError
                     ("[Errno 21] Is a directory: " ++ repr_str p)), w)
      else (Ok tt, {| files := unlink p (files w); clock := clock w |})
  end.

(** ** Processes *)

(** What [subprocess.run(..., capture_output=True, text=True)] returns.
    The captured standard output is kept as [json.loads] reads it: [None]
    when it is not a JSON document. *)
Record CompletedProcess : Type := {
  returncode : Z;
  stdout_json : option json;
  stderr : string
}.

(** The part of the host the program does not determine: what running a
    command does and returns, and what [os.makedirs(path, exist_ok=True)]
    does.  Either may change the world and either may raise. *)
Record Host : Type := {
  host_run : list string -> World -> Result CompletedProcess * World;
  host_makedirs : string -> World -> Result unit * World
}.

(** ** Effects *)

(** The calls by which the program acts on its host, in program order. *)
Inductive event : Type :=
| Spawn (cmd : list string) (outcome : Result CompletedProcess)
| MakeDirs (path : string)
| Remove (path : string).

Definition M (A : Type) : Type := World -> Result A * World * list event.

Definition ret {A} (a : A) : M A := fun w => (Ok a, w, []).

Definition bind {A B} (m : M A) (k : A -> M B) : M B :=
  fun w =>
    match m w with
    | (Ok a, w1, t1) => let '(r, w2, t2) := k a w1 in (r, w2, (t1 ++ t2)%list)
    | (Raise e, w1, t1) => (Raise e, w1, t1)
    end.

Definition lift {A} (r : Result A) : M A := fun w => (r, w, []).

Definition read {A} (f : World -> A) : M A := fun w => (Ok (f w), w, []).

Definition read_result {A} (f : World -> Result A) : M A :=
  fun w => (f w, w, []).

Definition act (ev : event) (f : World -> Result unit * World) : M unit :=
  fun w => let '(r, w') := f w in (r, w', [ev]).

Notation "x <- m ;; k" := (bind m (fun x => k))
  (at level 61, m at next level, right associativity).
Notation "m ;;; k" := (bind m (fun _ => k))
  (at level 61, right associativity).

(** [try: body except C1: h1 except C2: h2 ...]: the first clause whose
    class test accepts the exception handles it. *)
Definition handlers (A : Type) : Type := list ((exn -> bool) * (exn -> M A)).

Fixpoint select {A} (hs : handlers A) (e : exn) : option (M A) :=
  match hs with
  | [] => None
  | (test, h) :: rest => if test e then Some (h e) else select rest e
  end.

Definition try_except {A} (body : M A) (hs : handlers A) : M A :=
  fun w =>
    match body w with
    | (Ok a, w1, t1) => (Ok a, w1, t1)
    | (Raise e, w1, t1) =>
        match select hs e with
        | Some h => let '(r, w2, t2) := h w1 in (r, w2, (t1 ++ t2)%list)
        | None => (Raise e, w1, t1)
        end
    end.

Definition is_a (c : exn_class) (e : exn) : bool := exn_class_eqb (exn_cls e) c.

(** [except Exception]: every modelled class derives from it. *)
Definition is_Exception (e : exn) : bool := true.

Fixpoint for_each {A} (xs : list A) (body : A -> M unit) : M unit :=
  match xs with
  | [] => ret tt
  | x :: rest => body x ;;; for_each rest body
  end.

Section WithHost.
Variable host : Host.

(** [subprocess.run(cmd, capture_output=True, text=True, check=check)] *)
Definition subprocess_run (check : bool) (cmd : list string)
  : M CompletedProcess :=
  fun w =>
    let '(r, w') := host_run host cmd w in
    match r with
    | Ok cp =>
        if check && negb (returncode cp =? 0)
        then (Raise (Exn CalledProcessError
                       ("Command '" ++ repr_str_list cmd
                          ++ "' returned non-zero exit status "
                          ++ str_of_Z (returncode cp) ++ ".")),
              w', [Spawn cmd r])
        else (Ok cp, w', [Spawn cmd r])
    | Raise e => (Raise e, w', [Spawn cmd r])
    end.

(** [os.makedirs(path, exist_ok=True)] *)
Definition os_makedirs (path : string) : M unit :=
  act (MakeDirs path) (host_makedirs host path).

End WithHost.

(** [os.remove(path)] *)
Definition os_remove (path : string) : M unit := act (Remove path) (remove path).

(** [json.loads(result.stdout)] *)
Definition json_loads (result : CompletedProcess) : Result json :=
  match stdout_json result with
  | Some v => Ok v
  | None => Raise (Exn JSONDecodeError "Expecting value")
  end.

(** [time.time()] *)
Definition time_time : M float := read clock.

End OS.

(* ================================================================== *)
(** * [video_processor.py]: class [VideoProcessor] *)
(* ================================================================== *)

Module VideoProcessor.
Import Py OS.

(** ** The search through the probe data (pure part of the two probes) *)

(** [get_audio_duration], the loop over [probe_data['streams']]: the first
    stream that has a ['duration'] decides. *)
Fixpoint scan_durations (streams : list json) : Result (option float) :=
  match streams with
  | [] => Ok None
  | stream :: rest =>
      has <~ py_in "duration" stream ;;
      if has then
        d <~ py_getitem stream "duration" ;;
        duration <~ py_float d ;;
        Ok (Some duration)
      else scan_durations rest
  end.

(** [get_audio_duration], from [json.loads] to the final [return None]. *)
Definition find_duration (probe_data : json) : Result (option float) :=
  in_format <~ and_then (py_in "format" probe_data)
                 (fmt <~ py_getitem probe_data "format" ;;
                  py_in "duration" fmt) ;;
  if in_format then
    fmt <~ py_getitem probe_data "format" ;;
    d <~ py_getitem fmt "duration" ;;
    duration <~ py_float d ;;
    Ok (Some duration)
  else
    in_streams <~ and_then (py_in "streams" probe_data)
                    (streams <~ py_getitem probe_data "streams" ;;
                     n <~ py_len streams ;;
                     Ok (0 <? n)) ;;
    if in_streams then
      streams <~ py_getitem probe_data "streams" ;;
      items <~ py_iter streams ;;
      scan_durations items
    else Ok None.

(** [get_image_dimensions], the loop over [probe_data['streams']]. *)
Fixpoint scan_dimensions (streams : list json)
  : Result (option Z * option Z) :=
  match streams with
  | [] => Ok (None, None)
  | stream :: rest =>
      codec_type <~ py_get stream "codec_type" JNull ;;
      if eq_str codec_type "video" then
        w <~ py_get stream "width" (JInt 0) ;;
        width <~ py_int w ;;
        h <~ py_get stream "height" (JInt 0) ;;
        height <~ py_int h ;;
        if (0 <? width) && (0 <? height) then Ok (Some width, Some height)
        else scan_dimensions rest
      else scan_dimensions rest
  end.

(** [get_image_dimensions], from [json.loads] to the final
    [return None, None]. *)
Definition find_dimensions (probe_data : json)
  : Result (option Z * option Z) :=
  has <~ py_in "streams" probe_data ;;
  if has then
    streams <~ py_getitem probe_data "streams" ;;
    items <~ py_iter streams ;;
    scan_dimensions items
  else Ok (None, None).

(** ** [create_video]: constants and pure steps *)

Definition default_video_codec : string := "libx264".
Definition default_audio_codec : string := "aac".

(** The fallback of lines 124-126. *)
Definition default_dimensions : Z * Z := (1280, 720).

(** Lines 130-131: make both dimensions even. *)
Definition normalize (width height : Z) : Z * Z :=
  (width - width mod 2, height - height mod 2).

(** The transcode command of lines 139-153. *)
Definition ffmpeg_cmd (image_path audio_path output_path : string)
  (video_codec audio_codec : string) (width height : Z) (duration : float)
  : list string :=
  [ "ffmpeg"; "-y"; "-loop"; "1";
    "-i"; image_path;
    "-i"; audio_path;
    "-c:v"; video_codec;
    "-c:a"; audio_codec;
    "-pix_fmt"; "yuv420p";
    "-r"; "25";
    "-vf"; "scale=" ++ str_of_Z width ++ ":" ++ str_of_Z height;
    "-t"; str_of_float duration;
    "-shortest";
    output_path ].

Definition ffmpeg_version_cmd : list string := ["ffmpeg"; "-version"].

Definition ffprobe_audio_cmd (audio_path : string) : list string :=
  ["ffprobe"; "-v"; "quiet"; "-print_format"; "json";
   "-show_format"; "-show_streams"; audio_path].

Definition ffprobe_image_cmd (image_path : string) : list string :=
  ["ffprobe"; "-v"; "quiet"; "-print_format"; "json";
   "-show_streams"; image_path].

(** The result messages of [create_video]. *)
Definition msg_tool_missing : string := "FFmpeg is not installed or not available".
Definition msg_image_not_found (p : string) : string := "Image file not found: " ++ p.
Definition msg_audio_not_found (p : string) : string := "Audio file not found: " ++ p.
Definition msg_probe_failed : string := "Could not determine audio duration".
Definition msg_output_missing : string := "Output file was not created or is empty".
Definition msg_success : string := "Video created successfully".

Definition msg_ffmpeg_failed (result : CompletedProcess) : string :=
  let error_msg := "FFmpeg failed with return code "
                     ++ str_of_Z (returncode result) in
  if String.eqb (stderr result) "" then error_msg
  else error_msg ++ ": " ++ stderr result.

Section WithHost.
Variable host : Host.

(** ** [check_ffmpeg] *)
Definition check_ffmpeg : M bool :=
  try_except
    (subprocess_run host true ffmpeg_version_cmd ;;;
     ret true)
    [ (fun e => is_a CalledProcessError e || is_a FileNotFoundError e,
       fun _ => ret false) ].

(** ** [get_audio_duration] *)
Definition get_audio_duration (audio_path : string) : M (option float) :=
  try_except
    (result <- subprocess_run host true (ffprobe_audio_cmd audio_path) ;;
     probe_data <- lift (json_loads result) ;;
     lift (find_duration probe_data))
    [ (is_a CalledProcessError, fun _ => ret None);
      (is_a JSONDecodeError, fun _ => ret None);
      (is_Exception, fun _ => ret None) ].

(** ** [get_image_dimensions] *)
Definition get_image_dimensions (image_path : string)
  : M (option Z * option Z) :=
  try_except
    (result <- subprocess_run host true (ffprobe_image_cmd image_path) ;;
     probe_data <- lift (json_loads result) ;;
     lift (find_dimensions probe_data))
    [ (is_a CalledProcessError, fun _ => ret (None, None));
      (is_a JSONDecodeError, fun _ => ret (None, None));
      (is_Exception, fun _ => ret (None, None)) ].

(** ** [create_video] *)

(** Lines 166-171: the check of the output file. *)
Definition verify_output (output_path : string) : M (bool * string) :=
  present <- read (path_exists output_path) ;;
  nonempty <- (if present
               then size <- read_result (path_getsize output_path) ;;
                    ret (0 <? size)
               else ret false) ;;
  if nonempty then ret (true, msg_success)
  else ret (false, msg_output_missing).

Definition create_video (image_path audio_path output_path : string)
  (video_codec audio_codec : string) : M (bool * string) :=
  try_except
    (available <- check_ffmpeg ;;
     if negb available then ret (false, msg_tool_missing) else
     image_there <- read (path_exists image_path) ;;
     if negb image_there then ret (false, msg_image_not_found image_path) else
     audio_there <- read (path_exists audio_path) ;;
     if negb audio_there then ret (false, msg_audio_not_found audio_path) else
     duration <- get_audio_duration audio_path ;;
     match duration with
     | None => ret (false, msg_probe_failed)
     | Some duration =>
         dims <- get_image_dimensions image_path ;;
         let '(width, height) :=
           match dims with
           | (Some width, Some height) => (width, height)
           | _ => default_dimensions
           end in
         let '(width, height) := normalize width height in
         os_makedirs host (dirname output_path) ;;;
         let cmd := ffmpeg_cmd image_path audio_path output_path
                      video_codec audio_codec width height duration in
         result <- subprocess_run host false cmd ;;
         if negb (returncode result =? 0)
         then ret (false, msg_ffmpeg_failed result)
         else verify_output output_path
     end)
    [ (is_a CalledProcessError,
       fun e => ret (false, "FFmpeg process error: " ++ exn_str e));
      (is_Exception,
       fun e => ret (false, "Unexpected error: " ++ exn_str e)) ].

End WithHost.

End VideoProcessor.

(* ================================================================== *)
(** * [app.py]: the [/cleanup] route *)
(* ================================================================== *)

Module App.
Import Py OS.

Definition UPLOAD_FOLDER : string := "uploads".
Definition OUTPUT_FOLDER : string := "output".

(** [cleanup_threshold = 3600  # 1 hour] *)
Definition cleanup_threshold : Z := 3600.

(** [current_time - cleanup_threshold]: a float minus an int. *)
Definition float_sub_int (x : float) (z : Z) : Result float :=
  y <~ float_of_Z z ;; Ok (float_sub x y).

(** The body of either loop of [cleanup_files]. *)
Definition sweep_entry (folder : string) (current_time : float)
  (filename : string) : M unit :=
  if String.eqb filename ".gitkeep" then ret tt
  else
    let file_path := path_join folder filename in
    ctime <- read_result (path_getctime file_path) ;;
    limit <- lift (float_sub_int current_time cleanup_threshold) ;;
    if float_lt ctime limit then os_remove file_path else ret tt.

(** The JSON answer of the route: its ['status'] and ['message']. *)
Definition cleanup_files : M (string * string) :=
  try_except
    (current_time <- time_time ;;
     uploads <- read_result (listdir UPLOAD_FOLDER) ;;
     for_each uploads (sweep_entry UPLOAD_FOLDER current_time) ;;;
     outputs <- read_result (listdir OUTPUT_FOLDER) ;;
     for_each outputs (sweep_entry OUTPUT_FOLDER current_time) ;;;
     ret ("success", "Cleanup completed"))
    [ (is_Exception, fun e => ret ("error", exn_str e)) ].

End App.

(* ================================================================== *)
(** * Specification vocabulary *)
(* ================================================================== *)

Module Spec.
Import Py OS VideoProcessor.

(** ** Composition results *)

(** The failure reasons of the specification's [CompositionResult]. *)
Inductive failure : Type :=
| ToolMissing | InputNotFound | ProbeFailed
| ToolExecutionFailed | OutputMissingOrEmpty.

(** The reason a failure message of [create_video] stands for; [None] for
    the two messages of its exception handlers. *)
Definition kind_of (message : string) : option failure :=
  if String.eqb message msg_tool_missing then Some ToolMissing
  else if starts_with "Image file not found: " message
          || starts_with "Audio file not found: " message then Some InputNotFound
  else if String.eqb message msg_probe_failed then Some ProbeFailed
  else if starts_with "FFmpeg failed with return code " message
       then Some ToolExecutionFailed
  else if String.eqb message msg_output_missing then Some OutputMissingOrEmpty
  else None.

(** ** Traces *)

Definition is_version_check (args : list string) : bool :=
  match args with
  | [flag] => String.eqb flag "-version"
  | _ => false
  end.

(** A command line of the transcode tool other than its version check. *)
Definition is_transcode (cmd : list string) : bool :=
  match cmd with
  | tool :: args => String.eqb tool "ffmpeg" && negb (is_version_check args)
  | [] => false
  end.

Definition is_probe (cmd : list string) : bool :=
  match cmd with
  | tool :: _ => String.eqb tool "ffprobe"
  | [] => false
  end.

Definition invokes_transcode (ev : event) : bool :=
  match ev with Spawn cmd _ => is_transcode cmd | _ => false end.

Definition invokes_probe (ev : event) : bool :=
  match ev with Spawn cmd _ => is_probe cmd | _ => false end.

Definition creates_directory (ev : event) : bool :=
  match ev with MakeDirs _ => true | _ => false end.

(** The transcode tool ran to completion with exit code zero. *)
Definition transcode_exit_zero (ev : event) : bool :=
  match ev with
  | Spawn cmd (Ok result) => is_transcode cmd && (returncode result =? 0)
  | _ => false
  end.

(** The output artifact is there and not empty. *)
Definition output_nonempty (output_path : string) (w : World) : bool :=
  match lookup output_path w with
  | Some st => 0 <? st_size st
  | None => false
  end.

(** A host whose version check and probes only observe the world. *)
Definition observers_only (host : Host) : Prop :=
  forall cmd w, is_transcode cmd = false -> snd (host_run host cmd w) = w.

(** ** What the program makes of a run of a tool *)

(** [check_ffmpeg], given the run of the version check. *)
Definition available (r : Result CompletedProcess) : Result bool :=
  match r with
  | Ok result => Ok (returncode result =? 0)
  | Raise e =>
      if is_a CalledProcessError e || is_a FileNotFoundError e
      then Ok false else Raise e
  end.

(** What the run of the probe tool printed, when it ran, exited with zero
    and printed JSON. *)
Definition probe_output (r : Result CompletedProcess) : option json :=
  match r with
  | Ok result => if returncode result =? 0 then stdout_json result else None
  | Raise _ => None
  end.

(** [get_audio_duration], given the run of the probe. *)
Definition probed_duration (r : Result CompletedProcess) : option float :=
  match probe_output r with
  | Some probe_data =>
      match find_duration probe_data with
      | Ok d => d
      | Raise _ => None
      end
  | None => None
  end.

(** [get_image_dimensions], given the run of the probe. *)
Definition probed_dimensions (r : Result CompletedProcess)
  : option Z * option Z :=
  match probe_output r with
  | Some probe_data =>
      match find_dimensions probe_data with
      | Ok d => d
      | Raise _ => (None, None)
      end
  | None => (None, None)
  end.

(** The dimensions [create_video] scales to, given the probe's answer. *)
Definition scaled_dimensions (dims : option Z * option Z) : Z * Z :=
  match dims with
  | (Some width, Some height) => normalize width height
  | _ => normalize (fst default_dimensions) (snd default_dimensions)
  end.

(** The message of the two exception handlers of [create_video]. *)
Definition handler_message (e : exn) : string :=
  if is_a CalledProcessError e then "FFmpeg process error: " ++ exn_str e
  else "Unexpected error: " ++ exn_str e.

(** ** Probe output *)

Definition field (key : string) (v : json) : option json :=
  match v with
  | JObj fields => assoc key fields
  | _ => None
  end.

(** The format-level duration field. *)
Definition format_duration (probe_data : json) : option json :=
  match field "format" probe_data with
  | Some fmt => field "duration" fmt
  | None => None
  end.

Fixpoint first_duration (streams : list json) : option json :=
  match streams with
  | [] => None
  | stream :: rest =>
      match field "duration" stream with
      | Some d => Some d
      | None => first_duration rest
      end
  end.

(** The first stream-level duration field. *)
Definition stream_duration (probe_data : json) : option json :=
  match field "streams" probe_data with
  | Some (JArr streams) => first_duration streams
  | _ => None
  end.

(** The duration field the probe locates: format first, then streams. *)
Definition located_duration (probe_data : json) : option json :=
  match format_duration probe_data with
  | Some d => Some d
  | None => stream_duration probe_data
  end.

Definition is_object (v : json) : bool :=
  match v with JObj _ => true | _ => false end.

(** Probe output of the tool's shape, as far as the duration search looks:
    an object whose ["format"], when present, is an object and whose
    ["streams"], when present, is a list of objects. *)
Definition duration_shaped (probe_data : json) : bool :=
  is_object probe_data
  && match field "format" probe_data with
     | Some fmt => is_object fmt
     | None => true
     end
  && match field "streams" probe_data with
     | Some (JArr streams) => forallb is_object streams
     | Some _ => false
     | None => true
     end.

Definition to_option {A} (r : Result A) : option A :=
  match r with Ok a => Some a | Raise _ => None end.

(** [probeAudioDuration] in the specification's words, with the conversion
    of the located field made explicit. *)
Definition probeAudioDuration (r : Result CompletedProcess) : option float :=
  match probe_output r with
  | Some probe_data =>
      match located_duration probe_data with
      | Some d => to_option (py_float d)
      | None => None
      end
  | None => None
  end.

Definition positive (f : float) : bool := float_lt (S754_zero false) f.

(** ** Image streams *)

Definition is_video (stream : json) : bool :=
  match field "codec_type" stream with
  | Some v => eq_str v "video"
  | None => false
  end.

(** The integer a stream reports under [key]; 0 when it reports none. *)
Definition reported (key : string) (stream : json) : Z :=
  match field key stream with
  | Some (JInt z) => z
  | _ => 0
  end.

Definition stream_dimensions (stream : json) : Z * Z :=
  (reported "width" stream, reported "height" stream).

Definition positive_dimensions (stream : json) : bool :=
  (0 <? reported "width" stream) && (0 <? reported "height" stream).

Definition streams_of (probe_data : json) : list json :=
  match field "streams" probe_data with
  | Some (JArr streams) => streams
  | _ => []
  end.

Definition is_int_or_absent (key : string) (stream : json) : bool :=
  match field key stream with
  | Some (JInt _) | None => true
  | Some _ => false
  end.

(** A stream object that reports its dimensions, if at all, as integers. *)
Definition shaped_stream (s : json) : bool :=
  is_object s && is_int_or_absent "width" s && is_int_or_absent "height" s.

(** Probe output of the tool's shape, as far as the dimension search looks:
    an object whose ["streams"], when present, is a list of objects that
    report ["width"] and ["height"] as integers. *)
Definition dimensions_shaped (probe_data : json) : bool :=
  is_object probe_data
  && match field "streams" probe_data with
     | Some (JArr streams) => forallb shaped_stream streams
     | Some _ => false
     | None => true
     end.

(** The dimensions of the first video stream, as the specification words
    [probeImageDimensions]. *)
Definition first_video_dimensions (probe_data : json) : option (Z * Z) :=
  option_map stream_dimensions (find is_video (streams_of probe_data)).

(** The dimensions of the first video stream that reports a positive width
    and a positive height. *)
Definition first_positive_video_dimensions (probe_data : json)
  : option (Z * Z) :=
  option_map stream_dimensions
    (find (fun s => is_video s && positive_dimensions s)
          (streams_of probe_data)).

Definition dims_result (d : option (Z * Z)) : option Z * option Z :=
  match d with
  | Some (w, h) => (Some w, Some h)
  | None => (None, None)
  end.

(** ** Sweeping *)

(** [path] is a direct entry of one of the two swept folders, other than
    the placeholder. *)
Definition swept_name (folder path : string) : bool :=
  match child_name folder path with
  | Some n => negb (String.eqb n ".gitkeep")
  | None => false
  end.

Definition in_swept_folder (path : string) : bool :=
  swept_name App.UPLOAD_FOLDER path || swept_name App.OUTPUT_FOLDER path.

(** [now - 3600], as a float. *)
Definition retention_limit (now : float) : float :=
  float_sub now (round_binary false App.cleanup_threshold 0).

(** The entry was created before [now - 3600]. *)
Definition stale (now : float) (st : stat) : bool :=
  float_lt (st_ctime st) (retention_limit now).

(** ** Four properties as the specification words them

    The program departs from each of these; they are stated here to be
    refuted on a concrete run. *)

(** The audio probe always returns, and returns absent exactly when the
    tool exits non-zero, its output is malformed, or no duration field is
    located anywhere. *)
Definition audio_absent_exactly_when (host : Host) (audio_path : string)
  (w : World) : Prop :=
  let r := fst (host_run host (ffprobe_audio_cmd audio_path) w) in
  let answer := fst (fst (get_audio_duration host audio_path w)) in
  (exists d, answer = Ok d)
  /\ (answer = Ok None <->
      (exists result, r = Ok result /\ returncode result <> 0)
      \/ (exists result, r = Ok result /\ stdout_json result = None)
      \/ (exists result probe_data,
             r = Ok result /\ stdout_json result = Some probe_data
             /\ located_duration probe_data = None)).

(** Every present audio duration is above zero. *)
Definition present_duration_positive (host : Host) (audio_path : string)
  (w : World) : Prop :=
  forall d,
    fst (fst (get_audio_duration host audio_path w)) = Ok (Some d) ->
    positive d = true.

(** The image probe returns the dimensions of the first video stream, and
    absent when no stream reports a positive width and height. *)
Definition image_first_video_stream (host : Host) (image_path : string)
  (w : World) : Prop :=
  forall probe_data,
    probe_output (fst (host_run host (ffprobe_image_cmd image_path) w))
      = Some probe_data ->
    fst (fst (get_image_dimensions host image_path w))
    = Ok (if existsb positive_dimensions (streams_of probe_data)
          then dims_result (first_video_dimensions probe_data)
          else (None, None)).

(** The sweep deletes exactly the entries, placeholders apart, that are
    older than the retention limit. *)
Definition sweep_deletes_exactly_stale (w : World) : Prop :=
  let w' := snd (fst (App.cleanup_files w)) in
  forall q st,
    lookup q w = Some st ->
    in_swept_folder q = true ->
    (lookup q w' = None <-> stale (clock w) st = true).

End Spec.

(* ================================================================== *)
(** * Test doubles *)
(* ================================================================== *)

Module Fixtures.
Import Py OS VideoProcessor Spec.

(** A whole number of seconds, as a float. *)
Definition seconds (z : Z) : float := round_binary false z 0.

Definition regular (size : Z) (ctime : Z) : stat :=
  {| st_isdir := false; st_size := size; st_ctime := seconds ctime |}.

Definition directory (ctime : Z) : stat :=
  {| st_isdir := true; st_size := 4096; st_ctime := seconds ctime |}.

(** A run that exits with zero and prints the JSON document [v]. *)
Definition prints (v : json) : Result CompletedProcess :=
  Ok {| returncode := 0; stdout_json := Some v; stderr := "" |}.

(** A run that exits with [code] and prints no JSON. *)
Definition exits (code : Z) (err : string) : Result CompletedProcess :=
  Ok {| returncode := code; stdout_json := None; stderr := err |}.

Definition not_installed (tool : string) : exn :=
  Exn FileNotFoundError
      ("[Errno 2] No such file or directory: " ++ repr_str tool).

(** The behaviour of a scripted host: whether the transcode tool is
    installed, what the probe prints for the audio and for the image, the
    exit code of the transcode run and the size of the file it writes. *)
Record script : Type := {
  tool_installed : bool;
  audio_probe : Result CompletedProcess;
  image_probe : Result CompletedProcess;
  transcode_exit : Z;
  written_size : option Z
}.

Definition write (path : string) (size : Z) (w : World) : World :=
  {| files := (path, {| st_isdir := false; st_size := size;
                        st_ctime := clock w |}) :: unlink path (files w);
     clock := clock w |}.

Definition scripted_run (s : script) (cmd : list string) (w : World)
  : Result CompletedProcess * World :=
  if is_transcode cmd then
    (exits (transcode_exit s)
           (if transcode_exit s =? 0 then "" else "Conversion failed!"),
     match written_size s with
     | Some size => write (last cmd "") size w
     | None => w
     end)
  else if is_probe cmd then
    if existsb (String.eqb "-show_format") cmd then (audio_probe s, w)
    else (image_probe s, w)
  else if tool_installed s && String.eqb (hd "" cmd) "ffmpeg"
  then (exits 0 "", w)
  else (Raise (not_installed (hd "" cmd)), w).

Definition scripted_makedirs (path : string) (w : World)
  : Result unit * World :=
  if String.eqb path "" then (Raise (no_such_file ""), w)
  else
    match lookup path w with
    | Some st =>
        if st_isdir st then (Ok tt, w)
        else (Raise (Exn FileExistsError
                       ("[Errno 17] File exists: " ++ repr_str path)), w)
    | None =>
        (Ok tt, {| files := (files w ++ [(path, {| st_isdir := true;
                                                    st_size := 4096;
                                                    st_ctime := clock w |})])%list;
                   clock := clock w |})
    end.

Definition scripted (s : script) : Host :=
  {| host_run := scripted_run s; host_makedirs := scripted_makedirs |}.

(** The version check of an installed tool. *)
Definition version_ok : event :=
  Spawn ffmpeg_version_cmd (exits 0 "").

(** Probe outputs *)

Definition audio_json (duration : string) : json :=
  JObj [ ("streams", JArr [ JObj [ ("index", JInt 0);
                                   ("codec_type", JStr "audio");
                                   ("duration", JStr duration) ] ]);
         ("format", JObj [ ("filename", JStr "uploads/song.mp3");
                           ("duration", JStr duration) ]) ].

Definition image_json (width height : Z) : json :=
  JObj [ ("streams", JArr [ JObj [ ("index", JInt 0);
                                   ("codec_type", JStr "video");
                                   ("width", JInt width);
                                   ("height", JInt height) ] ]) ].

(** Only the streams carry a duration. *)
Definition stream_only_json : json :=
  JObj [ ("streams", JArr [ JObj [ ("codec_type", JStr "data") ];
                            JObj [ ("codec_type", JStr "audio");
                                   ("duration", JStr "12.5") ] ]);
         ("format", JObj [ ("filename", JStr "uploads/song.mp3") ]) ].

(** The format-level duration is not a number; a stream has one. *)
Definition unknown_duration_json : json :=
  JObj [ ("streams", JArr [ JObj [ ("codec_type", JStr "audio");
                                   ("duration", JStr "5.0") ] ]);
         ("format", JObj [ ("duration", JStr "N/A") ]) ].

(** A first video stream without dimensions, then one with. *)
Definition two_video_json : json :=
  JObj [ ("streams", JArr [ JObj [ ("index", JInt 0);
                                   ("codec_type", JStr "video");
                                   ("width", JInt 0);
                                   ("height", JInt 0) ];
                            JObj [ ("index", JInt 1);
                                   ("codec_type", JStr "video");
                                   ("width", JInt 640);
                                   ("height", JInt 480) ] ]) ].

(** Scripts *)

Definition happy : script :=
  {| tool_installed := true;
     audio_probe := prints (audio_json "5.000000");
     image_probe := prints (image_json 1281 721);
     transcode_exit := 0;
     written_size := Some 4242 |}.

Definition no_tool : script :=
  {| tool_installed := false;
     audio_probe := prints (audio_json "5.000000");
     image_probe := prints (image_json 1281 721);
     transcode_exit := 0;
     written_size := Some 4242 |}.

Definition bad_audio : script :=
  {| tool_installed := true;
     audio_probe := exits 1 "";
     image_probe := prints (image_json 1281 721);
     transcode_exit := 0;
     written_size := Some 4242 |}.

Definition bad_image : script :=
  {| tool_installed := true;
     audio_probe := prints (audio_json "5.000000");
     image_probe := exits 1 "";
     transcode_exit := 0;
     written_size := Some 4242 |}.

Definition empty_output : script :=
  {| tool_installed := true;
     audio_probe := prints (audio_json "5.000000");
     image_probe := prints (image_json 1281 721);
     transcode_exit := 0;
     written_size := Some 0 |}.

Definition with_audio (v : json) : script :=
  {| tool_installed := true;
     audio_probe := prints v;
     image_probe := prints (image_json 1281 721);
     transcode_exit := 0;
     written_size := Some 4242 |}.

Definition with_image (v : json) : script :=
  {| tool_installed := true;
     audio_probe := prints (audio_json "5.000000");
     image_probe := prints v;
     transcode_exit := 0;
     written_size := Some 4242 |}.

(** Worlds *)

Definition image_path : string := "uploads/7f3a_cover.jpg".
Definition audio_path : string := "uploads/7f3a_song.mp3".
Definition output_path : string := "output/7f3a_video.mp4".

(** Both uploads are in place. *)
Definition uploaded : World :=
  {| files := [ ("uploads", directory 100);
                ("uploads/.gitkeep", regular 0 100);
                (image_path, regular 52000 9000);
                (audio_path, regular 310000 9000);
                ("output", directory 100);
                ("output/.gitkeep", regular 0 100) ];
     clock := seconds 9001 |}.

(** The audio upload is missing. *)
Definition audio_missing : World :=
  {| files := [ ("uploads", directory 100);
                ("uploads/.gitkeep", regular 0 100);
                (image_path, regular 52000 9000);
                ("output", directory 100);
                ("output/.gitkeep", regular 0 100) ];
     clock := seconds 9001 |}.

(** Two hours after some uploads, with a fresh one. *)
Definition aged : World :=
  {| files := [ ("uploads", directory 100);
                ("uploads/.gitkeep", regular 0 100);
                ("uploads/a_cover.jpg", regular 52000 1000);
                ("uploads/b_song.mp3", regular 310000 9000);
                ("output", directory 100);
                ("output/.gitkeep", regular 0 100);
                ("output/a_video.mp4", regular 4242 1100) ];
     clock := seconds 9001 |}.

(** As [aged], but a directory was left in the upload folder. *)
Definition aged_with_subdirectory : World :=
  {| files := [ ("uploads", directory 100);
                ("uploads/.gitkeep", regular 0 100);
                ("uploads/tmp", directory 1000);
                ("uploads/a_cover.jpg", regular 52000 1000);
                ("output", directory 100);
                ("output/.gitkeep", regular 0 100) ];
     clock := seconds 9001 |}.

End Fixtures.


(* ================================================================== *)
(** * [video_processor.py]: [VideoProcessor.cleanup_file] *)
(* ================================================================== *)

Module FileJanitor.
Import Py OS.

(** [cleanup_file]: the [return False] after the [try] is reached when the
    path is not there and after the handler. *)
Definition cleanup_file (file_path : string) : M bool :=
  try_except
    (present <- read (path_exists file_path) ;;
     if present then
       os_remove file_path ;;;
       ret true
     else ret false)
    [ (is_Exception, fun _ => ret false) ].

End FileJanitor.

(* ================================================================== *)
(** * [app.py]: file names, uploads and downloads *)
(* ================================================================== *)

Module Web.
Import Py OS VideoProcessor App.

(** ** Configuration *)

Definition MAX_FILE_SIZE : Z := 100 * 1024 * 1024.
Definition ALLOWED_IMAGE_EXTENSIONS : list string := ["png"; "jpg"; "jpeg"; "gif"].
Definition ALLOWED_AUDIO_EXTENSIONS : list string := ["mp3"; "wav"; "aac"; "m4a"].

(** [x in s] for a set of strings *)
Definition set_mem (x : string) (s : list string) : bool :=
  existsb (String.eqb x) s.

(** ** String methods *)

(** [c.lower()] on a code point below 256: the ASCII capitals and the
    Latin-1 capitals 0xC0-0xDE (0xD7, the multiplication sign, apart). *)
Definition lower_char (c : ascii) : ascii :=
  let n := code c in
  if ((65 <=? n) && (n <=? 90))
     || ((192 <=? n) && (n <=? 222) && negb (n =? 215))
  then ascii_of_nat (Z.to_nat (n + 32)) else c.

(** [s.lower()] *)
Fixpoint str_lower (s : string) : string :=
  match s with
  | EmptyString => EmptyString
  | String c t => String (lower_char c) (str_lower t)
  end.

(** [s.split(sep)] for a separator of one character; never empty. *)
Fixpoint split_on (sep : ascii) (s : string) : list string :=
  match s with
  | EmptyString => [EmptyString]
  | String c t =>
      if Ascii.eqb c sep then EmptyString :: split_on sep t
      else
        match split_on sep t with
        | h :: r => String c h :: r
        | [] => [String c EmptyString]
        end
  end.

(** [sep.join(parts)] *)
Fixpoint join_with (sep : ascii) (parts : list string) : string :=
  match parts with
  | [] => EmptyString
  | [p] => p
  | p :: rest => p ++ String sep (join_with sep rest)
  end.

(** [s.rsplit(sep, 1)]: cut at the last separator, if there is one. *)
Definition rsplit1 (sep : ascii) (s : string) : list string :=
  match split_on sep s with
  | [p] => [p]
  | parts => [join_with sep (removelast parts); last parts EmptyString]
  end.

(** ** [allowed_file] *)

(** The second conjunct indexes the split at 1; the first one guards it
    (a name that holds a dot splits in two), so the index is in range
    whenever it is evaluated. *)
Definition allowed_file (filename : string) (allowed_extensions : list string)
  : bool :=
  contains "." filename
  && match rsplit1 "." filename with
     | [_; extension] => set_mem (str_lower extension) allowed_extensions
     | _ => false
     end.

(** ** Uploaded files *)

(** A [FileStorage]: the client's file name and the stream of its
    content, of which only the length and the position matter here. *)
Record FileStorage : Type := {
  filename : string;
  stream_size : Z;
  stream_pos : Z
}.

(** [file.seek(offset, whence)] for [whence] 0 (start), 1 (current) and 2
    (end). *)
Definition seek (file : FileStorage) (offset whence : Z) : FileStorage :=
  {| filename := filename file;
     stream_size := stream_size file;
     stream_pos := if whence =? 0 then offset
                   else if whence =? 1 then stream_pos file + offset
                   else stream_size file + offset |}.

(** [file.tell()] *)
Definition tell (file : FileStorage) : Z := stream_pos file.

(** [get_file_size]: the size, and the file object as it leaves it. *)
Definition get_file_size (file : FileStorage) : Z * FileStorage :=
  let file := seek file 0 2 in
  let size := tell file in
  let file := seek file 0 0 in
  (size, file).

(** ** Writing a file *)

Definition stored (path : string) (size : Z) (w : World) : World :=
  {| files := (unlink path (files w)
               ++ [(path, {| st_isdir := false; st_size := size;
                             st_ctime := clock w |})])%list;
     clock := clock w |}.

(** [open(path, 'wb')] followed by one write of [size] bytes: the
    directory of the path must be there (a path without one is in the
    working directory) and the path must not name a directory. *)
Definition write_file (path : string) (size : Z) (w : World)
  : Result unit * World :=
  let parent := dirname path in
  match (if String.eqb parent "" then Some true
         else option_map st_isdir (lookup parent w)) with
  | None => (Raise (no_such_file path), w)
  | Some false =>
      (Raise (Exn NotADirectoryError
                ("[Errno 20] Not a directory: " ++ repr_str path)), w)
  | Some true =>
      match lookup path w with
      | Some st =>
          if st_isdir st
          then (Raise (Exn IsADirectoryError
                         ("[Errno 21] Is a directory: " ++ repr_str path)), w)
          else (Ok tt, stored path size w)
      | None => (Ok tt, stored path size w)
      end
  end.

(** ** Requests, sessions and responses *)

Record Request : Type := {
  req_files : list (string * FileStorage);
  req_form : list (string * string)
}.

(** The session: its ['output_file'] entry and the flashed messages, each
    with its category. *)
Record Session : Type := {
  output_file : option string;
  flashes : list (string * string)
}.

Inductive Response : Type :=
| Redirect (endpoint : string)
| Render (template : string) (download : option string)
| SendFile (path : string) (download_name : string)
| Json (status message : string).

(** What the handlers act on: the host's world, the session, and the
    strings that the coming calls of [str(uuid.uuid4())] return. *)
Record Web : Type := {
  world : World;
  session : Session;
  rng : nat -> string;
  draws : nat
}.

(** The library calls whose behaviour the program does not determine:
    [secure_filename], [requests.get] (the length of the content it
    fetches) and whether [send_file] can open the file. *)
Record Site : Type := {
  secure_filename : string -> string;
  requests_get : string -> Result Z;
  send_file : string -> string -> World -> Result unit
}.

Definition W (A : Type) : Type := Web -> Result A * Web * list event.

Definition wret {A} (a : A) : W A := fun s => (Ok a, s, []).

Definition wbind {A B} (m : W A) (k : A -> W B) : W B :=
  fun s =>
    match m s with
    | (Ok a, s1, t1) => let '(r, s2, t2) := k a s1 in (r, s2, (t1 ++ t2)%list)
    | (Raise e, s1, t1) => (Raise e, s1, t1)
    end.

Notation "x <-- m ;; k" := (wbind m (fun x => k))
  (at level 61, m at next level, right associativity).
Notation "m -;; k" := (wbind m (fun _ => k))
  (at level 61, right associativity).

Definition wraise {A} (e : exn) : W A := fun s => (Raise e, s, []).

Definition with_world (s : Web) (w : World) : Web :=
  {| world := w; session := session s; rng := rng s; draws := draws s |}.

Definition with_session (s : Web) (x : Session) : Web :=
  {| world := world s; session := x; rng := rng s; draws := draws s |}.

(** A computation on the world, run inside a handler. *)
Definition on_world {A} (m : M A) : W A :=
  fun s => let '(r, w, t) := m (world s) in (r, with_world s w, t).

(** [try: body except Exception: handler] *)
Definition wtry {A} (body : W A) (handler : exn -> W A) : W A :=
  fun s =>
    match body s with
    | (Ok a, s1, t1) => (Ok a, s1, t1)
    | (Raise e, s1, t1) =>
        let '(r, s2, t2) := handler e s1 in (r, s2, (t1 ++ t2)%list)
    end.

(** [flash(message, category)] *)
Definition flash (message category : string) : W unit :=
  fun s =>
    (Ok tt,
     with_session s
       {| output_file := output_file (session s);
          flashes := (flashes (session s) ++ [(message, category)])%list |},
     []).

(** [session.get('output_file')], as used by the tests on the session. *)
Definition session_output_file : W (option string) :=
  fun s => (Ok (output_file (session s)), s, []).

(** [session['output_file'] = name] *)
Definition session_set_output_file (name : string) : W unit :=
  fun s =>
    (Ok tt,
     with_session s {| output_file := Some name;
                       flashes := flashes (session s) |},
     []).

(** [session.pop('output_file', None)] *)
Definition session_pop_output_file : W unit :=
  fun s =>
    (Ok tt,
     with_session s {| output_file := None; flashes := flashes (session s) |},
     []).

(** [str(uuid.uuid4())] *)
Definition uuid4_str : W string :=
  fun s =>
    (Ok (rng s (draws s)),
     {| world := world s; session := session s; rng := rng s;
        draws := S (draws s) |},
     []).

(** [file.save(path)]: the stream is copied from its position to its
    end. *)
Definition save (file : FileStorage) (path : string) : W unit :=
  on_world (fun w =>
              let '(r, w') :=
                write_file path (Z.max 0 (stream_size file - stream_pos file)) w
              in (r, w', [])).

(** [request.files[name]] *)
Definition files_getitem (request : Request) (name : string)
  : W FileStorage :=
  match assoc name (req_files request) with
  | Some file => wret file
  | None => wraise (Exn KeyError (repr_str name))
  end.

Definition has_key {A} (name : string) (d : list (string * A)) : bool :=
  match assoc name d with Some _ => true | None => false end.

(** ** Routes *)

(** [index] *)
Definition index : W Response := wret (Render "index.html" None).

(** [download_page] *)
Definition download_page : W Response :=
  name <-- session_output_file ;;
  match name with
  | None =>
      flash "No video file available for download" "error" -;;
      wret (Redirect "index")
  | Some name => wret (Render "index.html" (Some name))
  end.

(** [download_from_url], the extension of a URL:
    [url.split('.')[-1].split('?')[0].lower()] *)
Definition url_extension (url : string) : string :=
  str_lower (hd EmptyString
                (split_on "?" (last (split_on "." url) EmptyString))).

Section WithSite.
Variable host : Host.
Variable site : Site.

(** [upload_files] *)
Definition upload_files (request : Request) : W Response :=
  wtry
    (if negb (has_key "image" (req_files request))
        || negb (has_key "audio" (req_files request))
     then flash "Both image and audio files are required" "error" -;;
          wret (Redirect "index")
     else
     image_file <-- files_getitem request "image" ;;
     audio_file <-- files_getitem request "audio" ;;
     if String.eqb (filename image_file) ""
        || String.eqb (filename audio_file) ""
     then flash "Please select both image and audio files" "error" -;;
          wret (Redirect "index")
     else
     if negb (allowed_file (filename image_file) ALLOWED_IMAGE_EXTENSIONS)
     then flash "Invalid image file type. Allowed: PNG, JPG, JPEG, GIF" "error"
          -;; wret (Redirect "index")
     else
     if negb (allowed_file (filename audio_file) ALLOWED_AUDIO_EXTENSIONS)
     then flash "Invalid audio file type. Allowed: MP3, WAV, AAC, M4A" "error"
          -;; wret (Redirect "index")
     else
     let '(image_size, image_file) := get_file_size image_file in
     if MAX_FILE_SIZE <? image_size
     then flash "Image file too large. Maximum size: 100MB" "error" -;;
          wret (Redirect "index")
     else
     let '(audio_size, audio_file) := get_file_size audio_file in
     if MAX_FILE_SIZE <? audio_size
     then flash "Audio file too large. Maximum size: 100MB" "error" -;;
          wret (Redirect "index")
     else
     unique_id <-- uuid4_str ;;
     let image_filename :=
       unique_id ++ "_" ++ secure_filename site (filename image_file) in
     let audio_filename :=
       unique_id ++ "_" ++ secure_filename site (filename audio_file) in
     let output_filename := unique_id ++ "_video.mp4" in
     let image_path := path_join UPLOAD_FOLDER image_filename in
     let audio_path := path_join UPLOAD_FOLDER audio_filename in
     let output_path := path_join OUTPUT_FOLDER output_filename in
     save image_file image_path -;;
     save audio_file audio_path -;;
     result <-- on_world (create_video host image_path audio_path output_path
                            default_video_codec default_audio_codec) ;;
     let '(success, message) := result in
     if success then
       session_set_output_file output_filename -;;
       flash "Video created successfully! Click download to get your file."
             "success" -;;
       wret (Redirect "download_page")
     else
       flash ("Error creating video: " ++ message) "error" -;;
       wret (Redirect "index"))
    (fun _ =>
       flash "An unexpected error occurred during processing" "error" -;;
       wret (Redirect "index")).

(** [download_file] *)
Definition download_file (name : string) : W Response :=
  wtry
    (current <-- session_output_file ;;
     if match current with
        | None => true
        | Some stored_name => negb (String.eqb stored_name name)
        end
     then flash "Invalid download request" "error" -;;
          wret (Redirect "index")
     else
     let file_path := path_join OUTPUT_FOLDER name in
     present <-- on_world (read (path_exists file_path)) ;;
     if negb present
     then flash "File not found" "error" -;; wret (Redirect "index")
     else
     session_pop_output_file -;;
     now <-- on_world time_time ;;
     stamp <-- on_world (lift (int_of_float now)) ;;
     let download_name := "merged_video_" ++ str_of_Z stamp ++ ".mp4" in
     on_world (read_result (send_file site file_path download_name)) -;;
     wret (SendFile file_path download_name))
    (fun _ =>
       flash "Error downloading file" "error" -;;
       wret (Redirect "index")).

(** [cleanup_files], as the route answers *)
Definition cleanup_route : W Response :=
  answer <-- on_world cleanup_files ;;
  wret (Json (fst answer) (snd answer)).

(** [generate_from_urls], the local function [download_from_url] *)
Definition download_from_url (url folder : string)
  (allowed_extensions : list string) : W string :=
  let ext := url_extension url in
  if negb (set_mem ext allowed_extensions)
  then wraise (Exn ValueError ("Invalid file extension: " ++ ext))
  else
    unique <-- uuid4_str ;;
    let file_name := unique ++ "." ++ ext in
    let path := path_join folder file_name in
    match requests_get site url with
    | Raise e => wraise e
    | Ok content_length =>
        on_world (fun w => let '(r, w') := write_file path content_length w
                           in (r, w', [])) -;;
        wret path
    end.

(** [generate_from_urls]; [not image_url or not audio_url] holds when
    either field is missing from the form or empty. *)
Definition generate_from_urls (request : Request) : W Response :=
  wtry
    (match assoc "image_url" (req_form request),
           assoc "audio_url" (req_form request) with
     | Some image_url, Some audio_url =>
         if String.eqb image_url "" || String.eqb audio_url ""
         then flash "Both image and audio URLs are required." "error" -;;
              wret (Redirect "index")
         else
         image_path <-- download_from_url image_url UPLOAD_FOLDER
                          ALLOWED_IMAGE_EXTENSIONS ;;
         audio_path <-- download_from_url audio_url UPLOAD_FOLDER
                          ALLOWED_AUDIO_EXTENSIONS ;;
         unique <-- uuid4_str ;;
         let output_filename := unique ++ "_video.mp4" in
         let output_path := path_join OUTPUT_FOLDER output_filename in
         result <-- on_world (create_video host image_path audio_path
                                output_path default_video_codec
                                default_audio_codec) ;;
         let '(success, message) := result in
         if success then
           session_set_output_file output_filename -;;
           flash "Video created from URLs successfully!" "success" -;;
           wret (Redirect "download_page")
         else
           flash ("Error creating video: " ++ message) "error" -;;
           wret (Redirect "index")
     | _, _ =>
         flash "Both image and audio URLs are required." "error" -;;
         wret (Redirect "index")
     end)
    (fun _ =>
       flash "An unexpected error occurred during processing." "error" -;;
       wret (Redirect "index")).

End WithSite.

(** ** Vocabulary for the properties of the routes *)

(** An upload that passes every check of [upload_files]: both files are
    there, named, of an allowed type and within the size limit. *)
Definition valid_upload (request : Request) : bool :=
  match assoc "image" (req_files request), assoc "audio" (req_files request) with
  | Some image_file, Some audio_file =>
      negb (String.eqb (filename image_file) "")
      && negb (String.eqb (filename audio_file) "")
      && allowed_file (filename image_file) ALLOWED_IMAGE_EXTENSIONS
      && allowed_file (filename audio_file) ALLOWED_AUDIO_EXTENSIONS
      && (stream_size image_file <=? MAX_FILE_SIZE)
      && (stream_size audio_file <=? MAX_FILE_SIZE)
  | _, _ => false
  end.

(** The session after [flash(message, category)]. *)
Definition flashed (x : Session) (message category : string) : Session :=
  {| output_file := output_file x;
     flashes := (flashes x ++ [(message, category)])%list |}.

(** What a handler answers when it turns a request down: a redirect to
    the index page after one flashed error, nothing else touched. *)
Definition refused (w : World) (x : Session) (g : nat -> string) (n : nat)
  (message : string) : Result Response * Web * list event :=
  (Ok (Redirect "index"),
   {| world := w; session := flashed x message "error"; rng := g; draws := n |},
   []).


(** The two URLs of a form that gives both, neither of them empty. *)
Definition url_pair (request : Request) : option (string * string) :=
  match assoc "image_url" (req_form request),
        assoc "audio_url" (req_form request) with
  | Some image_url, Some audio_url =>
      if String.eqb image_url "" || String.eqb audio_url "" then None
      else Some (image_url, audio_url)
  | _, _ => None
  end.

(** The path names a directory. *)
Definition is_directory (path : string) (w : World) : bool :=
  match lookup path w with
  | Some st => st_isdir st
  | None => false
  end.

(** No entry that [cleanup_files] would look at is older than the
    threshold. *)
Definition nothing_stale (w : World) : bool :=
  forallb (fun entry =>
             negb (Spec.in_swept_folder (fst entry)
                   && Spec.stale (clock w) (snd entry)))
          (files w).

(** The only difference between two states is messages flashed since. *)
Definition only_flashed (s s' : Web) : Prop :=
  world s' = world s
  /\ draws s' = draws s
  /\ rng s' = rng s
  /\ output_file (session s') = output_file (session s)
  /\ exists messages,
       flashes (session s') = (flashes (session s) ++ messages)%list.

(** The transcode ran to completion with a non-zero exit code. *)
Definition transcode_exit_nonzero (ev : event) : bool :=
  match ev with
  | Spawn cmd (Ok result) =>
      Spec.is_transcode cmd && negb (returncode result =? 0)
  | _ => false
  end.

End Web.

(* ================================================================== *)
(** * Further test doubles *)
(* ================================================================== *)

Module WebFixtures.
Import Py OS VideoProcessor App Web Fixtures.

(** A site whose file names are already safe, whose fetches return 2048
    bytes except from the host [down.example], and whose [send_file]
    works. *)
Definition plain_site : Site :=
  {| secure_filename := fun name => name;
     requests_get := fun url =>
       if contains "down.example" url
       then Raise (Exn OSError "Connection refused")
       else Ok 2048;
     send_file := fun _ _ _ => Ok tt |}.

(** A site whose [send_file] cannot open the file. *)
Definition broken_send : Site :=
  {| secure_filename := fun name => name;
     requests_get := fun _ => Ok 2048;
     send_file := fun path _ _ => Raise (no_such_file path) |}.

Definition sample_rng (n : nat) : string :=
  "7f3a" ++ str_of_Z (Z.of_nat n).

Definition cover : FileStorage :=
  {| filename := "cover.JPG"; stream_size := 52000; stream_pos := 52000 |}.

Definition song : FileStorage :=
  {| filename := "song.mp3"; stream_size := 310000; stream_pos := 0 |}.


Definition good_upload : Request :=
  {| req_files := [("image", cover); ("audio", song)]; req_form := [] |}.


Definition url_request (image_url audio_url : string) : Request :=
  {| req_files := [];
     req_form := [("image_url", image_url); ("audio_url", audio_url)] |}.

Definition empty_session : Session := {| output_file := None; flashes := [] |}.

Definition holding (name : string) : Session :=
  {| output_file := Some name; flashes := [] |}.

(** The folders with their placeholders only. *)
Definition fresh : World :=
  {| files := [ ("uploads", directory 100);
                ("uploads/.gitkeep", regular 0 100);
                ("output", directory 100);
                ("output/.gitkeep", regular 0 100) ];
     clock := seconds 9001 |}.

(** A finished video waits in the output folder. *)
Definition finished : World :=
  {| files := [ ("uploads", directory 100);
                ("output", directory 100);
                ("output/7f3a0_video.mp4", regular 4242 9000) ];
     clock := seconds 9001 |}.

Definition site_state (w : World) (x : Session) : Web :=
  {| world := w; session := x; rng := sample_rng; draws := 0 |}.

(** The run of a good upload on a host where everything works. *)
Definition uploading : Result Response * Web * list event :=
  upload_files (scripted happy) plain_site good_upload
    (site_state fresh empty_session).

(** The run of a request with two good URLs on the same host. *)
Definition generating : Result Response * Web * list event :=
  generate_from_urls (scripted happy) plain_site
    (url_request "http://h/a.png?v=1" "http://h/b.MP3")
    (site_state fresh empty_session).

(** The run of [create_video] on the same host, the uploads in place. *)
Definition composing : Result (bool * string) * World * list event :=
  create_video (scripted happy) image_path audio_path output_path
    default_video_codec default_audio_codec uploaded.

(** A host on which the program may not run any command. *)
Definition locked_down : Host :=
  {| host_run := fun cmd w =>
       (Raise (Exn PermissionError
                 ("[Errno 13] Permission denied: " ++ repr_str (hd "" cmd))),
        w);
     host_makedirs := scripted_makedirs |}.

End WebFixtures.
(* ================================================================== *)
(** * Properties *)
(* ================================================================== *)

Import Py OS VideoProcessor Spec.

(** ** The run-time model on sample values *)

Example float_of_clip : float_of_str "5.000000"
                        = Some (S754_finite false 5629499534213120 (-50)).
Proof. reflexivity. Qed.

Example float_of_tenth : float_of_str "0.1"
                         = Some (S754_finite false 7205759403792794 (-56)).
Proof. vm_compute. reflexivity. Qed.

Example float_of_not_available : float_of_str "N/A" = None.
Proof. reflexivity. Qed.

Example float_of_blank_padded : float_of_str " 1_0.5e1 "
                                = Some (S754_finite false 7388718138654720 (-46)).
Proof. vm_compute. reflexivity. Qed.

Example float_of_overflow : float_of_str "-1e400" = Some (S754_infinity true).
Proof. vm_compute. reflexivity. Qed.

Example str_of_clip :
  str_of_float (S754_finite false 5629499534213120 (-50)) = "5.0".
Proof. vm_compute. reflexivity. Qed.

Example str_of_tenth :
  str_of_float (S754_finite false 7205759403792794 (-56)) = "0.1".
Proof. vm_compute. reflexivity. Qed.

Example str_of_small :
  str_of_float (S754_finite false 5902958103587057 (-69)) = "1e-05".
Proof. vm_compute. reflexivity. Qed.

Example int_of_signed : int_of_str " -007 " = Some (-7).
Proof. reflexivity. Qed.

Example int_of_fraction : py_int (JFloat (S754_finite true 3 (-1))) = Ok (-1).
Proof. reflexivity. Qed.

Example int_of_null_raises :
  to_option (py_int JNull) = None /\ to_option (py_float (JArr [])) = None.
Proof. split; reflexivity. Qed.

Example dirname_of_output : dirname "output/7f3a_video.mp4" = "output".
Proof. reflexivity. Qed.

Example dirname_of_bare_name : dirname "video.mp4" = "".
Proof. reflexivity. Qed.

Example join_of_upload : path_join "uploads" "a.png" = "uploads/a.png".
Proof. reflexivity. Qed.

Example substring_membership :
  py_in "format" (JStr "formats") = Ok true
  /\ py_in "format" (JArr [JStr "format"]) = Ok true
  /\ to_option (py_in "format" (JInt 1)) = None.
Proof. repeat split; reflexivity. Qed.

Example is_transcode_version : is_transcode ffmpeg_version_cmd = false.
Proof. reflexivity. Qed.

(** ** Failure reasons of the messages *)

Lemma kind_of_tool_missing : kind_of msg_tool_missing = Some ToolMissing.
Proof. reflexivity. Qed.

Lemma kind_of_image_not_found (p : string) :
  kind_of (msg_image_not_found p) = Some InputNotFound.
Proof. reflexivity. Qed.

Lemma kind_of_audio_not_found (p : string) :
  kind_of (msg_audio_not_found p) = Some InputNotFound.
Proof. reflexivity. Qed.

Lemma kind_of_probe_failed : kind_of msg_probe_failed = Some ProbeFailed.
Proof. reflexivity. Qed.

Lemma kind_of_output_missing :
  kind_of msg_output_missing = Some OutputMissingOrEmpty.
Proof. reflexivity. Qed.

Lemma kind_of_ffmpeg_failed (result : CompletedProcess) :
  kind_of (msg_ffmpeg_failed result) = Some ToolExecutionFailed.
Proof.
  unfold msg_ffmpeg_failed.
  destruct (String.eqb (stderr result) ""); reflexivity.
Qed.

Lemma kind_of_unexpected (s : string) :
  kind_of ("Unexpected error: " ++ s) = None.
Proof. reflexivity. Qed.

Lemma kind_of_process_error (s : string) :
  kind_of ("FFmpeg process error: " ++ s) = None.
Proof. reflexivity. Qed.

(** ** The three host-facing helpers, in closed form *)

Section Helpers.
Variable host : Host.

Lemma check_ffmpeg_eq (w : World) :
  check_ffmpeg host w =
  (available (fst (host_run host ffmpeg_version_cmd w)),
   snd (host_run host ffmpeg_version_cmd w),
   [Spawn ffmpeg_version_cmd (fst (host_run host ffmpeg_version_cmd w))]).
Proof.
  unfold check_ffmpeg, try_except, bind, subprocess_run, ret, available.
  destruct (host_run host ffmpeg_version_cmd w) as [[result | e] w1];
    cbn [fst snd].
  - destruct (returncode result =? 0); cbn; reflexivity.
  - cbn. destruct (is_a CalledProcessError e || is_a FileNotFoundError e);
      reflexivity.
Qed.

Lemma get_audio_duration_eq (audio_path : string) (w : World) :
  get_audio_duration host audio_path w =
  (Ok (probed_duration (fst (host_run host (ffprobe_audio_cmd audio_path) w))),
   snd (host_run host (ffprobe_audio_cmd audio_path) w),
   [Spawn (ffprobe_audio_cmd audio_path)
          (fst (host_run host (ffprobe_audio_cmd audio_path) w))]).
Proof.
  unfold get_audio_duration, try_except, bind, subprocess_run, lift, ret,
    probed_duration, probe_output, json_loads.
  destruct (host_run host (ffprobe_audio_cmd audio_path) w)
    as [[result | e] w1]; cbn [fst snd].
  - destruct (returncode result =? 0);
      cbn [andb negb select is_a exn_cls exn_class_eqb].
    + destruct (stdout_json result) as [probe_data | ]; cbn.
      * destruct (find_duration probe_data) as [d | e]; cbn; [reflexivity | ].
        destruct e as [[] ?]; reflexivity.
      * reflexivity.
    + reflexivity.
  - cbn. destruct e as [[] ?]; reflexivity.
Qed.

Lemma get_image_dimensions_eq (image_path : string) (w : World) :
  get_image_dimensions host image_path w =
  (Ok (probed_dimensions
         (fst (host_run host (ffprobe_image_cmd image_path) w))),
   snd (host_run host (ffprobe_image_cmd image_path) w),
   [Spawn (ffprobe_image_cmd image_path)
          (fst (host_run host (ffprobe_image_cmd image_path) w))]).
Proof.
  unfold get_image_dimensions, try_except, bind, subprocess_run, lift, ret,
    probed_dimensions, probe_output, json_loads.
  destruct (host_run host (ffprobe_image_cmd image_path) w)
    as [[result | e] w1]; cbn [fst snd].
  - destruct (returncode result =? 0);
      cbn [andb negb select is_a exn_cls exn_class_eqb].
    + destruct (stdout_json result) as [probe_data | ]; cbn.
      * destruct (find_dimensions probe_data) as [d | e]; cbn; [reflexivity | ].
        destruct e as [[] ?]; reflexivity.
      * reflexivity.
    + reflexivity.
  - cbn. destruct e as [[] ?]; reflexivity.
Qed.

Lemma verify_output_eq (output_path : string) (w : World) :
  verify_output output_path w =
  (Ok (if output_nonempty output_path w then (true, msg_success)
       else (false, msg_output_missing)), w, []).
Proof.
  unfold verify_output, bind, read, read_result, ret, path_exists,
    path_getsize, output_nonempty.
  destruct (lookup output_path w) as [st | ] eqn:E; cbn; [ | reflexivity].
  rewrite E. destruct (0 <? st_size st); reflexivity.
Qed.

(** [create_video] in direct style: the host calls it makes, in order, and
    what it returns on each path. *)
Lemma create_video_eq
  (image_path audio_path output_path video_codec audio_codec : string)
  (w : World) :
  create_video host image_path audio_path output_path video_codec audio_codec w
  =
  let '(r0, w1) := host_run host ffmpeg_version_cmd w in
  let t0 := [Spawn ffmpeg_version_cmd r0] in
  match available r0 with
  | Raise e => (Ok (false, handler_message e), w1, t0)
  | Ok false => (Ok (false, msg_tool_missing), w1, t0)
  | Ok true =>
      if negb (path_exists image_path w1)
      then (Ok (false, msg_image_not_found image_path), w1, t0)
      else if negb (path_exists audio_path w1)
      then (Ok (false, msg_audio_not_found audio_path), w1, t0)
      else
        let '(r1, w2) := host_run host (ffprobe_audio_cmd audio_path) w1 in
        let t1 := (t0 ++ [Spawn (ffprobe_audio_cmd audio_path) r1])%list in
        match probed_duration r1 with
        | None => (Ok (false, msg_probe_failed), w2, t1)
        | Some duration =>
            let '(r2, w3) := host_run host (ffprobe_image_cmd image_path) w2 in
            let '(width, height) := scaled_dimensions (probed_dimensions r2) in
            let '(r3, w4) := host_makedirs host (dirname output_path) w3 in
            let t3 := (t1 ++ [Spawn (ffprobe_image_cmd image_path) r2;
                              MakeDirs (dirname output_path)])%list in
            match r3 with
            | Raise e => (Ok (false, handler_message e), w4, t3)
            | Ok _ =>
                let cmd := ffmpeg_cmd image_path audio_path output_path
                             video_codec audio_codec width height duration in
                let '(r4, w5) := host_run host cmd w4 in
                let t4 := (t3 ++ [Spawn cmd r4])%list in
                match r4 with
                | Raise e => (Ok (false, handler_message e), w5, t4)
                | Ok result =>
                    if returncode result =? 0
                    then (Ok (if output_nonempty output_path w5
                              then (true, msg_success)
                              else (false, msg_output_missing)), w5, t4)
                    else (Ok (false, msg_ffmpeg_failed result), w5, t4)
                end
            end
        end
  end.
Proof.
  unfold create_video.
  unfold try_except at 1. unfold bind at 1.
  rewrite check_ffmpeg_eq.
  destruct (host_run host ffmpeg_version_cmd w) as [r0 w1]; cbn [fst snd].
  destruct (available r0) as [[ | ] | e].
  2: reflexivity.
  2: { unfold handler_message. cbn. destruct (is_a CalledProcessError e); reflexivity. }
  cbn [negb].
  unfold bind at 1, read at 1.
  destruct (path_exists image_path w1); cbn [negb]; [ | reflexivity].
  unfold bind at 1, read at 1.
  destruct (path_exists audio_path w1); cbn [negb]; [ | reflexivity].
  unfold bind at 1. rewrite get_audio_duration_eq.
  destruct (host_run host (ffprobe_audio_cmd audio_path) w1) as [r1 w2];
    cbn [fst snd].
  destruct (probed_duration r1) as [duration | ]; [ | reflexivity].
  unfold bind at 1. rewrite get_image_dimensions_eq.
  destruct (host_run host (ffprobe_image_cmd image_path) w2) as [r2 w3];
    cbn [fst snd].
  unfold scaled_dimensions.
  destruct (probed_dimensions r2) as [[width | ] [height | ]];
    cbn [default_dimensions fst snd];
    match goal with
    | |- context [normalize ?a ?b] => destruct (normalize a b) as [nw nh]
    end.
  all: unfold bind at 1, os_makedirs, act;
    destruct (host_makedirs host (dirname output_path) w3) as [[[] | e] w4];
    [ | unfold handler_message; cbn; destruct (is_a CalledProcessError e);
        reflexivity ].
  all: unfold bind at 1, subprocess_run; cbn [andb];
    match goal with
    | |- context [host_run host ?c ?x] =>
        destruct (host_run host c x) as [[result | e] w5]
    end;
    [ | unfold handler_message; cbn; destruct (is_a CalledProcessError e);
        reflexivity ].
  all: destruct (returncode result =? 0); cbn [negb]; [ | reflexivity].
  all: rewrite verify_output_eq; reflexivity.
Qed.

End Helpers.

(** ** [create_video]: the composition sequence *)

(** Splits a hypothesis about a run of [create_video] into its paths. *)
Ltac split_paths H :=
  rewrite create_video_eq in H;
  repeat (match type of H with
          | context [let '(_, _) := ?x in _] => destruct x eqn:?
          | context [if ?b then _ else _] => destruct b eqn:?
          | context [match ?x with _ => _ end] => destruct x eqn:?
          end; cbv beta iota zeta in H);
  inversion H; subst; clear H.

Ltac trace_facts :=
  cbn [existsb app invokes_transcode invokes_probe creates_directory
       transcode_exit_zero is_transcode is_probe ffmpeg_version_cmd
       ffprobe_audio_cmd ffprobe_image_cmd ffmpeg_cmd orb andb].

Section Composer.
Variable host : Host.
Variables image_path audio_path output_path video_codec audio_codec : string.

(** C5. When the availability check fails, [create_video] returns the
    tool-missing failure at once: the version check is the only process it
    has spawned, so no probe was attempted. *)
Theorem create_video_tool_missing (w w1 : World) (t : list event) :
  check_ffmpeg host w = (Ok false, w1, t) ->
  create_video host image_path audio_path output_path video_codec audio_codec w
    = (Ok (false, msg_tool_missing), w1, t)
  /\ kind_of msg_tool_missing = Some ToolMissing
  /\ t = [Spawn ffmpeg_version_cmd (fst (host_run host ffmpeg_version_cmd w))]
  /\ existsb invokes_probe t = false.
Proof.
  intros H. rewrite check_ffmpeg_eq in H. injection H as Hav Hw Ht.
  rewrite create_video_eq.
  destruct (host_run host ffmpeg_version_cmd w) as [r0 w0].
  cbn [fst snd] in *. rewrite Hav. subst.
  repeat split; reflexivity.
Qed.

(** C6. With the tool available, a missing input stops [create_video] with
    the input-not-found failure whose message ends in the missing path; the
    image is looked for first, and nothing but the version check has
    run. *)
Theorem create_video_input_not_found (w w1 : World) (t : list event) :
  check_ffmpeg host w = (Ok true, w1, t) ->
  path_exists image_path w1 && path_exists audio_path w1 = false ->
  let message :=
    if path_exists image_path w1 then "Audio file not found: " ++ audio_path
    else "Image file not found: " ++ image_path in
  create_video host image_path audio_path output_path video_codec audio_codec w
    = (Ok (false, message), w1, t)
  /\ kind_of message = Some InputNotFound
  /\ existsb invokes_transcode t = false
  /\ existsb invokes_probe t = false.
Proof.
  intros H Hmissing message. subst message.
  rewrite check_ffmpeg_eq in H. injection H as Hav Hw Ht.
  rewrite create_video_eq.
  destruct (host_run host ffmpeg_version_cmd w) as [r0 w0].
  cbn [fst snd] in *. rewrite Hav. subst.
  destruct (path_exists image_path w1); cbn [negb andb] in *.
  - rewrite Hmissing. repeat split; reflexivity.
  - repeat split; reflexivity.
Qed.

(** C2. With the tool available and both inputs in place: an absent audio
    duration ends [create_video] with the probe failure before any
    transcode; an absent image size does not, the directory of the output
    is made next and, when that succeeds, the transcode runs with
    [scale=1280:720]. *)
Theorem create_video_probe_outcomes (w w1 : World) (t1 : list event) :
  check_ffmpeg host w = (Ok true, w1, t1) ->
  path_exists image_path w1 = true ->
  path_exists audio_path w1 = true ->
  (forall w2 t2,
      get_audio_duration host audio_path w1 = (Ok None, w2, t2) ->
      create_video host image_path audio_path output_path
                   video_codec audio_codec w
        = (Ok (false, msg_probe_failed), w2, (t1 ++ t2)%list)
      /\ kind_of msg_probe_failed = Some ProbeFailed
      /\ existsb invokes_transcode (t1 ++ t2) = false)
  /\
  (forall duration w2 t2 w3 t3,
      get_audio_duration host audio_path w1 = (Ok (Some duration), w2, t2) ->
      get_image_dimensions host image_path w2 = (Ok (None, None), w3, t3) ->
      exists flag message w' tail,
        create_video host image_path audio_path output_path
                     video_codec audio_codec w
          = (Ok (flag, message), w',
             (t1 ++ t2 ++ t3 ++ MakeDirs (dirname output_path) :: tail)%list)
        /\ kind_of message <> Some ProbeFailed
        /\ (forall w4,
               host_makedirs host (dirname output_path) w3 = (Ok tt, w4) ->
               exists r,
                 tail = [Spawn (ffmpeg_cmd image_path audio_path output_path
                                  video_codec audio_codec 1280 720 duration)
                               r])).
Proof.
  intros H Himage Haudio.
  rewrite check_ffmpeg_eq in H. injection H as Hav Hw Ht.
  split.
  - intros w2 t2 Hd. rewrite get_audio_duration_eq in Hd.
    injection Hd as Hd Hw2 Ht2.
    rewrite create_video_eq.
    destruct (host_run host ffmpeg_version_cmd w) as [r0 w0].
    cbn [fst snd] in *. rewrite Hav. subst w0.
    rewrite Himage, Haudio. cbn [negb].
    destruct (host_run host (ffprobe_audio_cmd audio_path) w1) as [r1 w2'].
    cbn [fst snd] in *. rewrite Hd. subst.
    repeat split; reflexivity.
  - intros duration w2 t2 w3 t3 Hd Hdim.
    rewrite get_audio_duration_eq in Hd. injection Hd as Hd Hw2 Ht2.
    rewrite create_video_eq.
    destruct (host_run host ffmpeg_version_cmd w) as [r0 w0].
    cbn [fst snd] in *. rewrite Hav. subst w0.
    rewrite Himage, Haudio. cbn [negb].
    destruct (host_run host (ffprobe_audio_cmd audio_path) w1) as [r1 w2'].
    cbn [fst snd] in *. rewrite Hd. subst w2'.
    rewrite get_image_dimensions_eq in Hdim. injection Hdim as Hdim Hw3 Ht3.
    destruct (host_run host (ffprobe_image_cmd image_path) w2) as [r2 w3'].
    cbn [fst snd] in *. rewrite Hdim. subst w3'.
    cbn [scaled_dimensions default_dimensions fst snd normalize].
    change (1280 - 1280 mod 2) with 1280. change (720 - 720 mod 2) with 720.
    cbv beta iota zeta.
    subst t1 t2 t3.
    destruct (host_makedirs host (dirname output_path) w3) as [[[] | e] w4].
    + destruct (host_run host _ w4) as [[result | e] w5] eqn:Hrun.
      * destruct (returncode result =? 0).
        -- destruct (output_nonempty output_path w5);
             do 4 eexists; (split; [reflexivity | ]); (split; [discriminate | ]);
             intros w4' Hmk; injection Hmk as <-; eexists; reflexivity.
        -- do 4 eexists. split; [reflexivity | ].
           split; [rewrite kind_of_ffmpeg_failed; discriminate | ].
           intros w4' Hmk; injection Hmk as <-; eexists; reflexivity.
      * do 4 eexists. split; [reflexivity | ].
        split.
        -- unfold handler_message. destruct (is_a CalledProcessError e); discriminate.
        -- intros w4' Hmk; injection Hmk as <-; eexists; reflexivity.
    + do 4 eexists. split; [reflexivity | ].
      split.
      * unfold handler_message. destruct (is_a CalledProcessError e); discriminate.
      * intros w4' Hmk. discriminate.
Qed.

End Composer.

Lemma exit_zero_of_observer (cmd : list string)
  (r : Result CompletedProcess) :
  is_transcode cmd = false -> transcode_exit_zero (Spawn cmd r) = false.
Proof.
  intros H. destruct r; cbn; [rewrite H | ]; reflexivity.
Qed.

Lemma is_transcode_ffmpeg_cmd
  (image_path audio_path output_path video_codec audio_codec : string)
  (width height : Z) (duration : float) :
  is_transcode (ffmpeg_cmd image_path audio_path output_path
                           video_codec audio_codec width height duration)
  = true.
Proof. reflexivity. Qed.

Section ComposerFrame.
Variable host : Host.
Variables image_path audio_path output_path video_codec audio_codec : string.

(** C10. A failure of kind tool-missing, input-not-found or probe-failed
    comes before any write: the run has spawned no transcode and has not
    asked for any directory, so on a host whose version check and probes
    only observe, the world (the output path and its directory included)
    is as it was. *)
Theorem create_video_early_failure_frame (w w' : World) (t : list event)
  (message : string) (k : failure) :
  create_video host image_path audio_path output_path video_codec audio_codec w
    = (Ok (false, message), w', t) ->
  kind_of message = Some k ->
  k = ToolMissing \/ k = InputNotFound \/ k = ProbeFailed ->
  existsb invokes_transcode t = false
  /\ existsb creates_directory t = false
  /\ (observers_only host ->
      w' = w
      /\ lookup output_path w' = lookup output_path w
      /\ lookup (dirname output_path) w' = lookup (dirname output_path) w).
Proof.
  intros H Hkind Hk.
  assert (Hearly : existsb invokes_transcode t = false
                   /\ existsb creates_directory t = false
                   /\ (observers_only host -> w' = w)).
  { split_paths H.
    all: try (exfalso;
              first [ rewrite kind_of_ffmpeg_failed in Hkind
                    | rewrite kind_of_output_missing in Hkind
                    | unfold handler_message in Hkind;
                      match type of Hkind with
                      | context [is_a CalledProcessError ?e] =>
                          destruct (is_a CalledProcessError e);
                          [ rewrite kind_of_process_error in Hkind
                          | rewrite kind_of_unexpected in Hkind ]
                      end ];
              destruct Hk as [-> | [-> | ->]]; discriminate).
    all: repeat split; try reflexivity.
    all: intros Hobs; unfold observers_only in Hobs;
      repeat match goal with
             | E : host_run host ?c ?x = (_, ?y) |- _ =>
                 let Hw := fresh "Hw" in
                 pose proof (Hobs c x eq_refl) as Hw;
                 rewrite E in Hw; cbn [snd] in Hw; clear E; subst y
             end; reflexivity. }
  destruct Hearly as (Ht & Hd & Hw).
  split; [assumption | split; [assumption | ]].
  intros Hobs. rewrite (Hw Hobs). repeat split.
Qed.

(** C1. [create_video] reports success exactly when the transcode ran to
    completion with exit code zero and, as it returns, the output path
    exists with a size above zero; an exit code of zero with a missing or
    empty output is the output-missing failure.  It never raises. *)
Theorem create_video_success_iff (w : World) :
  exists flag message w' t,
    create_video host image_path audio_path output_path
                 video_codec audio_codec w
      = (Ok (flag, message), w', t)
    /\ (flag = true <->
        existsb transcode_exit_zero t = true
        /\ output_nonempty output_path w' = true)
    /\ (flag = true <->
        message = msg_success)
    /\ (existsb transcode_exit_zero t = true /\
        output_nonempty output_path w' = false <->
        message = msg_output_missing)
    /\ kind_of msg_output_missing = Some OutputMissingOrEmpty.
Proof.
  destruct (create_video host image_path audio_path output_path
                         video_codec audio_codec w) as [[res w'] t] eqn:H.
  split_paths H.
  all: do 4 eexists; split; [reflexivity | ].
  all: cbn [existsb orb];
    rewrite ?exit_zero_of_observer by reflexivity;
    cbn [transcode_exit_zero orb];
    rewrite ?is_transcode_ffmpeg_cmd;
    cbn [andb orb].
  all: repeat match goal with
              | E : (returncode _ =? 0) = _ |- _ => rewrite E
              | E : output_nonempty _ _ = _ |- _ => rewrite E
              end.
  all: unfold handler_message, msg_ffmpeg_failed.
  all: repeat match goal with
              | |- context [if ?b then _ else _] => destruct b
              end.
  all: repeat split; try discriminate; try reflexivity;
    try (intros [? ?]; discriminate).
Qed.

End ComposerFrame.

(** ** The audio probe *)

Lemma py_in_object (key : string) (v : json) :
  is_object v = true ->
  py_in key v = Ok (match field key v with Some _ => true | None => false end).
Proof. destruct v; try discriminate; reflexivity. Qed.

Lemma py_getitem_field (key : string) (v x : json) :
  field key v = Some x -> py_getitem v key = Ok x.
Proof.
  destruct v; try discriminate. cbn. intros ->. reflexivity.
Qed.

(** On a list of objects the loop of [get_audio_duration] converts the
    first duration field. *)
Lemma scan_durations_objects (streams : list json) :
  forallb is_object streams = true ->
  match scan_durations streams with Ok d => d | Raise _ => None end
  = match first_duration streams with
    | Some x => to_option (py_float x)
    | None => None
    end.
Proof.
  induction streams as [ | stream rest IH]; [reflexivity | ].
  cbn [forallb]. intros H. apply andb_prop in H as [Hobj Hrest].
  cbn [scan_durations first_duration].
  rewrite (py_in_object _ _ Hobj). cbn [rbind].
  destruct (field "duration" stream) as [x | ] eqn:Hx.
  - rewrite (py_getitem_field _ _ _ Hx). cbn [rbind].
    destruct (py_float x); reflexivity.
  - apply IH, Hrest.
Qed.

Lemma find_duration_shaped (probe_data : json) :
  duration_shaped probe_data = true ->
  match find_duration probe_data with Ok d => d | Raise _ => None end
  = match located_duration probe_data with
    | Some x => to_option (py_float x)
    | None => None
    end.
Proof.
  unfold duration_shaped. intros H.
  apply andb_prop in H as [H Hstreams]. apply andb_prop in H as [Hobj Hfmt].
  unfold find_duration, located_duration, format_duration, stream_duration,
    and_then.
  rewrite (py_in_object _ _ Hobj). cbn [rbind].
  destruct (field "format" probe_data) as [fmt | ] eqn:Ef.
  - rewrite (py_getitem_field _ _ _ Ef). cbn [rbind].
    rewrite (py_in_object _ _ Hfmt). cbn [rbind].
    destruct (field "duration" fmt) as [x | ] eqn:Ex.
    + rewrite (py_getitem_field _ _ _ Ex). cbn [rbind].
      destruct (py_float x); reflexivity.
    + rewrite (py_in_object _ _ Hobj). cbn [rbind].
      destruct (field "streams" probe_data) as [[] | ] eqn:Es;
        try discriminate; [ | reflexivity].
      rewrite (py_getitem_field _ _ _ Es). cbn [rbind py_len py_iter].
      destruct items as [ | s rest]; [reflexivity | ].
      cbn [List.length]. rewrite Nat2Z.inj_succ.
      replace (0 <? Z.succ (Z.of_nat (List.length rest))) with true
        by (symmetry; apply Z.ltb_lt; lia).
      apply scan_durations_objects, Hstreams.
  - rewrite (py_in_object _ _ Hobj). cbn [rbind].
    destruct (field "streams" probe_data) as [[] | ] eqn:Es;
      try discriminate; [ | reflexivity].
    rewrite (py_getitem_field _ _ _ Es). cbn [rbind py_len py_iter].
    destruct items as [ | s rest]; [reflexivity | ].
    cbn [List.length]. rewrite Nat2Z.inj_succ.
    replace (0 <? Z.succ (Z.of_nat (List.length rest))) with true
      by (symmetry; apply Z.ltb_lt; lia).
    apply scan_durations_objects, Hstreams.
Qed.

(** C3. [get_audio_duration] never raises: it runs the probe once and
    returns a value.  The value is absent when the probe could not be run,
    exited with a non-zero code or printed no JSON.  On output of the
    tool's shape it is the float conversion of the located field, the
    format-level duration when there is one and otherwise the first
    stream-level duration; it is absent exactly when no field is located
    or the located field does not convert. *)
Theorem get_audio_duration_located (host : Host) (audio_path : string)
  (w : World) :
  let r := fst (host_run host (ffprobe_audio_cmd audio_path) w) in
  exists d,
    get_audio_duration host audio_path w
      = (Ok d, snd (host_run host (ffprobe_audio_cmd audio_path) w),
         [Spawn (ffprobe_audio_cmd audio_path) r])
    /\ (probe_output r = None -> d = None)
    /\ (forall probe_data,
           probe_output r = Some probe_data ->
           duration_shaped probe_data = true ->
           d = probeAudioDuration r
           /\ (d = None <->
               located_duration probe_data = None
               \/ exists x e, located_duration probe_data = Some x
                              /\ py_float x = Raise e)).
Proof.
  intros r. exists (probed_duration r). split; [ | split].
  - apply get_audio_duration_eq.
  - unfold probed_duration. intros ->. reflexivity.
  - intros probe_data Hout Hshape.
    unfold probed_duration, probeAudioDuration. rewrite Hout.
    rewrite (find_duration_shaped _ Hshape).
    split; [reflexivity | ].
    destruct (located_duration probe_data) as [x | ].
    + destruct (py_float x) as [f | e] eqn:Ef; cbn; split.
      * discriminate.
      * intros [H | (x' & e & H & Hf)]; [discriminate | ].
        injection H as <-. congruence.
      * intros _. right. exists x, e. split; [reflexivity | exact Ef].
      * reflexivity.
    + split; [left | ]; reflexivity.
Qed.

Lemma scan_durations_present (streams : list json) (d : float) :
  scan_durations streams = Ok (Some d) ->
  exists x, first_duration streams = Some x /\ py_float x = Ok d.
Proof.
  induction streams as [ | stream rest IH]; [discriminate | ].
  cbn [scan_durations first_duration].
  destruct stream; cbn; try discriminate.
  - (* a string *)
    destruct (contains "duration" s); [discriminate | exact IH].
  - (* a list *)
    destruct (existsb _ items); [discriminate | exact IH].
  - (* an object *)
    destruct (assoc "duration" fields) as [x | ]; [ | exact IH].
    cbn. destruct (py_float x) as [f | e] eqn:Ef; [ | discriminate].
    cbn. intros H. injection H as <-. exists x. split; reflexivity || exact Ef.
Qed.

Lemma first_duration_of_strings {A} (f : A -> string) (l : list A) :
  first_duration (map (fun a => JStr (f a)) l) = None.
Proof. induction l; [reflexivity | exact IHl]. Qed.

(** Whatever the probe printed, a duration that [get_audio_duration] finds
    is the conversion of the located field. *)
Lemma find_duration_present (probe_data : json) (d : float) :
  find_duration probe_data = Ok (Some d) ->
  exists x, located_duration probe_data = Some x /\ py_float x = Ok d.
Proof.
  unfold find_duration, located_duration, format_duration, stream_duration,
    and_then.
  assert (Hstreams :
    forall fields,
      (in_streams <~ (c <~ py_in "streams" (JObj fields) ;;
                      if c then
                        streams <~ py_getitem (JObj fields) "streams" ;;
                        n <~ py_len streams ;; Ok (0 <? n)
                      else Ok false) ;;
       if in_streams then
         streams <~ py_getitem (JObj fields) "streams" ;;
         items <~ py_iter streams ;; scan_durations items
       else Ok None) = Ok (Some d) ->
      exists x,
        match field "streams" (JObj fields) with
        | Some (JArr streams) => first_duration streams
        | _ => None
        end = Some x /\ py_float x = Ok d).
  { intros fields. cbn.
    destruct (assoc "streams" fields) as [sv | ]; cbn; [ | discriminate].
    destruct sv; cbn; try discriminate.
    - destruct (0 <? Z.of_nat (String.length s)); [ | discriminate].
      intros H. apply scan_durations_present in H as (x & H & _).
      unfold chars in H.
      rewrite (first_duration_of_strings (fun c => String c "")) in H.
      discriminate.
    - destruct (0 <? Z.of_nat (List.length items)); [ | discriminate].
      apply scan_durations_present.
    - destruct (0 <? Z.of_nat (List.length fields0)); [ | discriminate].
      intros H. apply scan_durations_present in H as (x & H & _).
      rewrite (first_duration_of_strings fst) in H. discriminate. }
  destruct probe_data; cbn; try discriminate.
  - destruct (contains "format" s); cbn; [discriminate | ].
    destruct (contains "streams" s); cbn; discriminate.
  - destruct (existsb _ items); cbn; [discriminate | ].
    destruct (existsb _ items); cbn; discriminate.
  - destruct (assoc "format" fields) as [fmt | ] eqn:Ef; cbn.
    + destruct fmt; cbn; try discriminate.
      * destruct (contains "duration" s); cbn; [discriminate | ].
        apply Hstreams.
      * destruct (existsb _ items); cbn; [discriminate | ].
        apply Hstreams.
      * destruct (assoc "duration" fields0) as [x | ]; cbn.
        -- destruct (py_float x) as [f | e] eqn:Efl; cbn; [ | discriminate].
           intros H. injection H as <-. exists x. split; reflexivity || exact Efl.
        -- apply Hstreams.
    + apply Hstreams.
Qed.

(** C8. A duration that [get_audio_duration] returns is the float
    conversion of the duration field the probe located; no test on its
    sign is made, so it is above zero exactly when the reported duration
    is. *)
Theorem get_audio_duration_present (host : Host) (audio_path : string)
  (w w' : World) (t : list event) (d : float) :
  get_audio_duration host audio_path w = (Ok (Some d), w', t) ->
  exists probe_data x,
    probe_output (fst (host_run host (ffprobe_audio_cmd audio_path) w))
      = Some probe_data
    /\ located_duration probe_data = Some x
    /\ py_float x = Ok d
    /\ (positive d = true <-> exists f, py_float x = Ok f /\ positive f = true).
Proof.
  rewrite get_audio_duration_eq. intros H. injection H as H _ _.
  unfold probed_duration in H.
  destruct (probe_output _) as [probe_data | ]; [ | discriminate].
  destruct (find_duration probe_data) as [[d' | ] | e] eqn:Ed;
    try discriminate.
  injection H as ->.
  apply find_duration_present in Ed as (x & Hx & Hf).
  exists probe_data, x. repeat split; try assumption.
  - intros Hp. exists d. split; assumption.
  - intros (f & Hf' & Hp). congruence.
Qed.

(** ** The image probe *)

Lemma py_get_object (key : string) (v default : json) :
  is_object v = true ->
  py_get v key default
  = Ok (match field key v with Some x => x | None => default end).
Proof. destruct v; try discriminate; reflexivity. Qed.

Lemma reported_int (key : string) (stream : json) :
  is_int_or_absent key stream = true ->
  py_int (match field key stream with Some x => x | None => JInt 0 end)
  = Ok (reported key stream).
Proof.
  unfold is_int_or_absent, reported.
  destruct (field key stream) as [[] | ]; try discriminate; reflexivity.
Qed.

Lemma is_video_codec_type (stream : json) :
  eq_str (match field "codec_type" stream with Some x => x | None => JNull end)
         "video"
  = is_video stream.
Proof.
  unfold is_video. destruct (field "codec_type" stream); reflexivity.
Qed.

(** On well-shaped streams the loop of [get_image_dimensions] stops at the
    first video stream whose two dimensions are positive. *)
Lemma scan_dimensions_shaped (streams : list json) :
  forallb shaped_stream streams = true ->
  scan_dimensions streams
  = Ok (dims_result
          (option_map stream_dimensions
             (find (fun s => is_video s && positive_dimensions s) streams))).
Proof.
  induction streams as [ | stream rest IH]; [reflexivity | ].
  cbn [forallb]. intros H. apply andb_prop in H as [Hs Hrest].
  unfold shaped_stream in Hs.
  apply andb_prop in Hs as [Hs Hh]. apply andb_prop in Hs as [Hobj Hw].
  cbn [scan_dimensions find].
  rewrite (py_get_object _ _ _ Hobj). cbn [rbind].
  rewrite is_video_codec_type.
  destruct (is_video stream); cbn [andb]; [ | apply IH, Hrest].
  rewrite (py_get_object _ _ _ Hobj). cbn [rbind].
  rewrite (reported_int _ _ Hw). cbn [rbind].
  rewrite (py_get_object _ _ _ Hobj). cbn [rbind].
  rewrite (reported_int _ _ Hh). cbn [rbind].
  unfold positive_dimensions.
  destruct ((0 <? reported "width" stream) && (0 <? reported "height" stream));
    [reflexivity | apply IH, Hrest].
Qed.

Lemma find_dimensions_shaped (probe_data : json) :
  dimensions_shaped probe_data = true ->
  find_dimensions probe_data
  = Ok (dims_result (first_positive_video_dimensions probe_data)).
Proof.
  unfold dimensions_shaped. intros H. apply andb_prop in H as [Hobj Hstreams].
  unfold find_dimensions, first_positive_video_dimensions, streams_of.
  rewrite (py_in_object _ _ Hobj). cbn [rbind].
  destruct (field "streams" probe_data) as [[] | ] eqn:Es;
    try discriminate; [ | reflexivity].
  rewrite (py_getitem_field _ _ _ Es). cbn [rbind py_iter].
  apply scan_dimensions_shaped, Hstreams.
Qed.

Lemma find_none_existsb {A} (p : A -> bool) (l : list A) :
  find p l = None <-> existsb p l = false.
Proof.
  induction l as [ | a l IH]; cbn; [split; reflexivity | ].
  destruct (p a); cbn; [split; discriminate | exact IH].
Qed.

Lemma existsb_weaken {A} (p q : A -> bool) (l : list A) :
  (forall a, p a = true -> q a = true) ->
  existsb q l = false -> existsb p l = false.
Proof.
  intros Hpq. induction l as [ | a l IH]; cbn; [reflexivity | ].
  intros H. apply orb_false_elim in H as [Ha Hl].
  rewrite (IH Hl), orb_false_r.
  destruct (p a) eqn:Ep; [ | reflexivity].
  rewrite (Hpq _ Ep) in Ha. discriminate.
Qed.

(** C4. [get_image_dimensions] never raises: it runs the probe once and
    returns a pair.  On output of the tool's shape the pair holds the
    width and height of the first video stream that reports both as
    positive, a video stream without them being passed over; it is absent
    exactly when there is no such stream, so in particular when no stream
    reports a positive width and height. *)
Theorem get_image_dimensions_first_positive (host : Host)
  (image_path : string) (w : World) :
  let r := fst (host_run host (ffprobe_image_cmd image_path) w) in
  exists d,
    get_image_dimensions host image_path w
      = (Ok d, snd (host_run host (ffprobe_image_cmd image_path) w),
         [Spawn (ffprobe_image_cmd image_path) r])
    /\ (probe_output r = None -> d = (None, None))
    /\ (forall probe_data,
           probe_output r = Some probe_data ->
           dimensions_shaped probe_data = true ->
           d = dims_result (first_positive_video_dimensions probe_data)
           /\ (d = (None, None) <->
               existsb (fun s => is_video s && positive_dimensions s)
                       (streams_of probe_data) = false)
           /\ (existsb positive_dimensions (streams_of probe_data) = false ->
               d = (None, None))).
Proof.
  intros r. exists (probed_dimensions r). split; [ | split].
  - apply get_image_dimensions_eq.
  - unfold probed_dimensions. intros ->. reflexivity.
  - intros probe_data Hout Hshape.
    unfold probed_dimensions. rewrite Hout.
    rewrite (find_dimensions_shaped _ Hshape).
    assert (Hiff : dims_result (first_positive_video_dimensions probe_data)
                   = (None, None) <->
                   existsb (fun s => is_video s && positive_dimensions s)
                           (streams_of probe_data) = false).
    { unfold first_positive_video_dimensions.
      rewrite <- find_none_existsb.
      destruct (find _ (streams_of probe_data)) as [s | ]; cbn.
      - destruct (stream_dimensions s). split; discriminate.
      - split; reflexivity. }
    split; [reflexivity | split; [exact Hiff | ]].
    intros Hnone. apply Hiff.
    apply existsb_weaken with (q := positive_dimensions); [ | exact Hnone].
    intros s Hs. apply andb_prop in Hs as [_ Hs]. exact Hs.
Qed.

(** ** Even dimensions *)

(** C7. [normalize] rounds each dimension down to the nearest even number:
    an odd value loses one, an even value is kept, for every integer; it
    is a function of its two arguments, gives an even pair within two of
    the input, is idempotent, and maps 1281x721 and 1280x720 to
    1280x720. *)
Theorem normalize_rounds_down_to_even (width height : Z) :
  normalize width height
    = (if Z.odd width then width - 1 else width,
       if Z.odd height then height - 1 else height)
  /\ normalize width height = (2 * (width / 2), 2 * (height / 2))
  /\ Z.even (fst (normalize width height)) = true
  /\ Z.even (snd (normalize width height)) = true
  /\ fst (normalize width height) <= width < fst (normalize width height) + 2
  /\ snd (normalize width height) <= height < snd (normalize width height) + 2
  /\ normalize (fst (normalize width height)) (snd (normalize width height))
     = normalize width height
  /\ normalize (2 * width) (2 * height) = (2 * width, 2 * height)
  /\ normalize 1281 721 = (1280, 720)
  /\ normalize 1280 720 = (1280, 720).
Proof.
  assert (Hodd : forall z, z - z mod 2 = if Z.odd z then z - 1 else z).
  { intros z. rewrite Zmod_odd. destruct (Z.odd z); lia. }
  assert (Hdiv : forall z, z - z mod 2 = 2 * (z / 2)).
  { intros z. pose proof (Z.div_mod z 2). lia. }
  assert (Hev : forall z, Z.even (z - z mod 2) = true).
  { intros z. rewrite Hdiv. apply Z.even_mul. }
  assert (Hle : forall z, z - z mod 2 <= z < z - z mod 2 + 2).
  { intros z. pose proof (Z.mod_pos_bound z 2). lia. }
  assert (Hidem : forall z, (z - z mod 2) - (z - z mod 2) mod 2 = z - z mod 2).
  { intros z. rewrite (Hdiv z) at 2. 
    rewrite Z.mul_comm, Z.mod_mul by lia. lia. }
  unfold normalize. cbn [fst snd].
  repeat split; try apply Hev; try apply Hle.
  - rewrite !Hodd. reflexivity.
  - rewrite !Hdiv. reflexivity.
  - rewrite !Hidem. reflexivity.
  - rewrite !(Z.mul_comm 2), !Z.mod_mul by lia. f_equal; lia.
Qed.

(** ** The sweep of [cleanup_files] *)

Import App.

Lemma threshold_as_float (now : float) :
  float_sub_int now cleanup_threshold = Ok (retention_limit now).
Proof. reflexivity. Qed.

Lemma assoc_unlink (p q : string) (l : list (string * stat)) :
  assoc q (unlink p l) = if String.eqb q p then None else assoc q l.
Proof.
  unfold unlink.
  induction l as [ | [k v] l IH]; cbn [filter fst assoc].
  - destruct (String.eqb q p); reflexivity.
  - destruct (String.eqb k p) eqn:Ekp; cbn [negb assoc].
    + apply String.eqb_eq in Ekp. subst k.
      rewrite IH. destruct (String.eqb q p); reflexivity.
    + rewrite IH. destruct (String.eqb q p) eqn:Eqp; [ | reflexivity].
      apply String.eqb_eq in Eqp. subst q.
      rewrite String.eqb_sym, Ekp. reflexivity.
Qed.

(** One turn of the loop, in direct style. *)
Lemma sweep_entry_eq (folder : string) (now : float) (filename : string)
  (w : World) :
  sweep_entry folder now filename w =
  if String.eqb filename ".gitkeep" then (Ok tt, w, [])
  else
    let p := path_join folder filename in
    match lookup p w with
    | None => (Raise (no_such_file p), w, [])
    | Some st =>
        if stale now st then
          if st_isdir st
          then (Raise (Exn IsADirectoryError
                         ("[Errno 21] Is a directory: " ++ repr_str p)),
                w, [Remove p])
          else (Ok tt, {| files := unlink p (files w); clock := clock w |},
                [Remove p])
        else (Ok tt, w, [])
    end.
Proof.
  unfold sweep_entry.
  destruct (String.eqb filename ".gitkeep"); [reflexivity | ].
  unfold bind, read_result, lift, path_getctime. cbv zeta.
  destruct (lookup (path_join folder filename) w) as [st | ] eqn:E;
    [ | reflexivity].
  rewrite threshold_as_float.
  unfold stale.
  destruct (float_lt (st_ctime st) (retention_limit now)); [ | reflexivity].
  unfold os_remove, act, remove. rewrite E.
  destruct (st_isdir st); reflexivity.
Qed.

(** What a run of one of the two loops does to the file table. *)
Lemma for_each_sweep (folder : string) (now : float) (names : list string) :
  forall (w w' : World) (r : Result unit) (t : list event),
    for_each names (sweep_entry folder now) w = (r, w', t) ->
    clock w' = clock w
    /\ (forall q,
           lookup q w' = lookup q w
           \/ (lookup q w' = None
               /\ exists st name,
                    lookup q w = Some st
                    /\ In name names
                    /\ String.eqb name ".gitkeep" = false
                    /\ q = path_join folder name
                    /\ stale now st = true
                    /\ st_isdir st = false))
    /\ (r = Ok tt ->
        forall name st,
          In name names ->
          String.eqb name ".gitkeep" = false ->
          lookup (path_join folder name) w = Some st ->
          stale now st = true ->
          lookup (path_join folder name) w' = None).
Proof.
  induction names as [ | name names IH]; intros w w' r t H.
  - cbn in H. injection H as <- <- <-.
    repeat split; [left; reflexivity | intros _ ? ? []].
  - cbn [for_each] in H. unfold bind in H at 1.
    rewrite sweep_entry_eq in H.
    destruct (String.eqb name ".gitkeep") eqn:Ekeep.
    { (* the placeholder is passed over *)
      destruct (for_each names (sweep_entry folder now) w) as [[r1 w1] t1] eqn:E.
      injection H as <- <- <-.
      destruct (IH _ _ _ _ E) as (Hc & Hq & Hdone).
      split; [exact Hc | split].
      - intros q. destruct (Hq q) as [Hk | (Hn & st & n & H1 & H2 & Hrest)];
          [left; exact Hk | right].
        split; [exact Hn | ]. exists st, n.
        split; [exact H1 | split; [right; exact H2 | exact Hrest]].
      - intros Hr n st [<- | Hin] Hn Hl Hs; [congruence | ].
        exact (Hdone Hr n st Hin Hn Hl Hs). }
    cbv zeta in H.
    destruct (lookup (path_join folder name) w) as [st0 | ] eqn:El.
    2: { injection H as <- <- <-.
         repeat split; [left; reflexivity | discriminate]. }
    destruct (stale now st0) eqn:Est.
    2: { (* young enough: kept *)
      destruct (for_each names (sweep_entry folder now) w) as [[r1 w1] t1] eqn:E.
      injection H as <- <- <-.
      destruct (IH _ _ _ _ E) as (Hc & Hq & Hdone).
      split; [exact Hc | split].
      - intros q. destruct (Hq q) as [Hk | (Hn & st & n & H1 & H2 & Hrest)];
          [left; exact Hk | right].
        split; [exact Hn | ]. exists st, n.
        split; [exact H1 | split; [right; exact H2 | exact Hrest]].
      - intros Hr n st [<- | Hin] Hn Hl Hs; [congruence | ].
        exact (Hdone Hr n st Hin Hn Hl Hs). }
    destruct (st_isdir st0) eqn:Edir.
    { injection H as <- <- <-.
      repeat split; [left; reflexivity | discriminate]. }
    (* removed *)
    set (w1 := {| files := unlink (path_join folder name) (files w);
                  clock := clock w |}) in *.
    destruct (for_each names (sweep_entry folder now) w1) as [[r2 w2] t2] eqn:E.
    injection H as <- <- <-.
    destruct (IH _ _ _ _ E) as (Hc & Hq & Hdone).
    assert (Hw1 : forall q, lookup q w1
                            = if String.eqb q (path_join folder name)
                              then None else lookup q w).
    { intros q. unfold lookup, w1. cbn [files]. apply assoc_unlink. }
    split; [exact Hc | split].
    + intros q. specialize (Hw1 q).
      destruct (String.eqb q (path_join folder name)) eqn:Eq.
      * apply String.eqb_eq in Eq. subst q. right.
        split.
        -- destruct (Hq (path_join folder name)) as [Hk | (Hn & _)];
             [rewrite Hk; exact Hw1 | exact Hn].
        -- exists st0, name. repeat split; try assumption. left; reflexivity.
      * destruct (Hq q) as [Hk | (Hn & st & n & H1 & H2 & Hrest)].
        -- left. rewrite Hk. exact Hw1.
        -- right. split; [exact Hn | ]. exists st, n.
           split; [rewrite <- Hw1; exact H1 | split; [right; exact H2 | exact Hrest]].
    + intros Hr n st Hin Hn Hl Hs.
      specialize (Hw1 (path_join folder n)).
      destruct (String.eqb (path_join folder n) (path_join folder name)) eqn:Eq.
      * destruct (Hq (path_join folder n)) as [Hk | (Hnone & _)];
          [rewrite Hk; exact Hw1 | exact Hnone].
      * destruct Hin as [<- | Hin];
          [rewrite String.eqb_refl in Eq; discriminate | ].
        apply (Hdone Hr n st Hin Hn); [rewrite Hw1; exact Hl | exact Hs].
Qed.

Lemma append_assoc3 (a b c : string) : ((a ++ b) ++ c = a ++ b ++ c)%string.
Proof. induction a as [ | x a IH]; cbn; [ | rewrite IH]; reflexivity. Qed.

Lemma strip_prefix_app (p s r : string) :
  strip_prefix p s = Some r -> s = (p ++ r)%string.
Proof.
  revert s. induction p as [ | a p IH]; intros s; cbn.
  - intros H. injection H as ->. reflexivity.
  - destruct s as [ | b s]; [discriminate | ].
    destruct (Ascii.eqb a b) eqn:E; [ | discriminate].
    apply Ascii.eqb_eq in E. subst b.
    intros H. rewrite (IH _ H). reflexivity.
Qed.

(** A listed name gives back the path it was listed for. *)
Lemma child_name_join (dir path name : string) :
  String.eqb dir "" = false ->
  ends_with_slash dir = false ->
  child_name dir path = Some name ->
  path = path_join dir name.
Proof.
  intros Hne Hslash. unfold child_name, path_join.
  rewrite Hne, Hslash. cbn [starts_with orb].
  destruct (strip_prefix (dir ++ "/" ++ "") path) as [n | ] eqn:E;
    [ | discriminate].
  apply strip_prefix_app in E.
  destruct (String.eqb n "" || has_char "/" n) eqn:En; [discriminate | ].
  intros H. injection H as H. subst name.
  apply orb_false_elim in En as [Hn Hc].
  destruct n as [ | c n]; [discriminate | ].
  unfold has_char, chars in Hc. cbn [list_ascii_of_string existsb] in Hc.
  apply orb_false_elim in Hc as [Hc _].
  rewrite Hc. cbn [andb].
  rewrite E, !append_assoc3. reflexivity.
Qed.

Lemma in_children (dir path name : string) (l : list (string * stat))
  (st : stat) :
  assoc path l = Some st ->
  child_name dir path = Some name ->
  In name (children dir l).
Proof.
  intros Ha Hc. induction l as [ | [k v] l IH]; [discriminate | ].
  cbn in Ha |- *.
  destruct (String.eqb path k) eqn:E.
  - apply String.eqb_eq in E. subst k. rewrite Hc. left; reflexivity.
  - destruct (child_name dir k); [right | ]; exact (IH Ha).
Qed.

Lemma children_in (dir name : string) (l : list (string * stat)) :
  In name (children dir l) ->
  exists path, child_name dir path = Some name.
Proof.
  induction l as [ | [k v] l IH]; [intros [] | ].
  cbn. destruct (child_name dir k) as [n | ] eqn:E; [ | exact IH].
  intros [<- | H]; [exists k; exact E | exact (IH H)].
Qed.

(** A non-placeholder name listed in a swept folder names a swept path. *)
Lemma swept_of_listed (dir name : string) (l : list (string * stat)) :
  String.eqb dir "" = false ->
  ends_with_slash dir = false ->
  In name (children dir l) ->
  String.eqb name ".gitkeep" = false ->
  swept_name dir (path_join dir name) = true.
Proof.
  intros Hne Hslash Hin Hkeep.
  destruct (children_in _ _ _ Hin) as (path & Hc).
  rewrite <- (child_name_join _ _ _ Hne Hslash Hc).
  unfold swept_name. rewrite Hc, Hkeep. reflexivity.
Qed.

(** C9. [cleanup_files] never raises and answers with status success or
    error.  It deletes only regular files that sit directly in the upload
    or output folder, are not named [.gitkeep] and were created before the
    current time minus 3600 seconds; every other entry, the two
    placeholders included, is left as it was.  When the status is success,
    every such file has been deleted. *)
Theorem cleanup_files_sweeps_stale (w : World) :
  exists status message w' t,
    cleanup_files w = (Ok (status, message), w', t)
    /\ (forall q,
           lookup q w' = lookup q w
           \/ (lookup q w' = None
               /\ exists st,
                    lookup q w = Some st
                    /\ in_swept_folder q = true
                    /\ stale (clock w) st = true
                    /\ st_isdir st = false))
    /\ lookup (path_join UPLOAD_FOLDER ".gitkeep") w'
       = lookup (path_join UPLOAD_FOLDER ".gitkeep") w
    /\ lookup (path_join OUTPUT_FOLDER ".gitkeep") w'
       = lookup (path_join OUTPUT_FOLDER ".gitkeep") w
    /\ (status = "success" ->
        forall q st,
          lookup q w = Some st ->
          in_swept_folder q = true ->
          stale (clock w) st = true ->
          lookup q w' = None)
    /\ (status = "success" \/ status = "error").
Proof.
  assert (Hmain :
    exists status message w' t,
      cleanup_files w = (Ok (status, message), w', t)
      /\ (forall q,
             lookup q w' = lookup q w
             \/ (lookup q w' = None
                 /\ exists st,
                      lookup q w = Some st
                      /\ in_swept_folder q = true
                      /\ stale (clock w) st = true
                      /\ st_isdir st = false))
      /\ (status = "success" ->
          forall q st,
            lookup q w = Some st ->
            in_swept_folder q = true ->
            stale (clock w) st = true ->
            lookup q w' = None)
      /\ (status = "success" \/ status = "error")).
  { unfold cleanup_files, try_except.
    unfold bind at 1. unfold time_time, read.
    unfold bind at 1. unfold read_result at 1.
    unfold listdir at 1.
    destruct (lookup UPLOAD_FOLDER w) as [dir1 | ] eqn:Ed1.
    2: { cbn. do 4 eexists. split; [reflexivity | ].
         split; [left; reflexivity | split; [discriminate | right; reflexivity]]. }
    destruct (st_isdir dir1).
    2: { cbn. do 4 eexists. split; [reflexivity | ].
         split; [left; reflexivity | split; [discriminate | right; reflexivity]]. }
    unfold bind at 1.
    destruct (for_each (children UPLOAD_FOLDER (files w))
                (sweep_entry UPLOAD_FOLDER (clock w)) w)
      as [[r1 w1] t1] eqn:E1.
    destruct (for_each_sweep _ _ _ _ _ _ _ E1) as (Hc1 & Hq1 & Hdone1).
    assert (Hstep1 : forall q,
      lookup q w1 = lookup q w
      \/ (lookup q w1 = None
          /\ exists st, lookup q w = Some st
                        /\ in_swept_folder q = true
                        /\ stale (clock w) st = true
                        /\ st_isdir st = false)).
    { intros q.
      destruct (Hq1 q) as [Hk | (Hn & st & n & H1 & H2 & H3 & -> & H5 & H6)];
        [left; exact Hk | right].
      split; [exact Hn | ]. exists st. repeat split; try assumption.
      unfold in_swept_folder.
      rewrite (swept_of_listed UPLOAD_FOLDER n (files w)); auto. }
    destruct r1 as [[] | e1].
    2: { cbn. do 4 eexists. split; [reflexivity | ].
         split; [exact Hstep1 | split; [discriminate | right; reflexivity]]. }
    unfold bind at 1. unfold read_result at 1.
    unfold listdir at 1.
    destruct (lookup OUTPUT_FOLDER w1) as [dir2 | ] eqn:Ed2.
    2: { cbn. do 4 eexists. split; [reflexivity | ].
         split; [exact Hstep1 | split; [discriminate | right; reflexivity]]. }
    destruct (st_isdir dir2).
    2: { cbn. do 4 eexists. split; [reflexivity | ].
         split; [exact Hstep1 | split; [discriminate | right; reflexivity]]. }
    unfold bind at 1.
    destruct (for_each (children OUTPUT_FOLDER (files w1))
                (sweep_entry OUTPUT_FOLDER (clock w)) w1)
      as [[r2 w2] t2] eqn:E2.
    destruct (for_each_sweep _ _ _ _ _ _ _ E2) as (Hc2 & Hq2 & Hdone2).
    assert (Hstep2 : forall q,
      lookup q w2 = lookup q w
      \/ (lookup q w2 = None
          /\ exists st, lookup q w = Some st
                        /\ in_swept_folder q = true
                        /\ stale (clock w) st = true
                        /\ st_isdir st = false)).
    { intros q.
      destruct (Hq2 q) as [Hk | (Hn & st & n & H1 & H2 & H3 & -> & H5 & H6)].
      - rewrite Hk. apply Hstep1.
      - right. split; [exact Hn | ].
        destruct (Hstep1 (path_join OUTPUT_FOLDER n)) as [Hk | (Hk & _)];
          [ | congruence].
        exists st. rewrite <- Hk. repeat split; try assumption.
        unfold in_swept_folder.
        rewrite (swept_of_listed OUTPUT_FOLDER n (files w1)); auto.
        apply orb_true_r. }
    assert (Hall : r2 = Ok tt ->
      forall q st, lookup q w = Some st -> in_swept_folder q = true ->
                   stale (clock w) st = true -> lookup q w2 = None).
    { intros Hr2 q st Hl Hin Hs.
      unfold in_swept_folder, swept_name in Hin.
      apply orb_prop in Hin as [Hin | Hin].
      - (* an upload *)
        destruct (child_name UPLOAD_FOLDER q) as [n | ] eqn:Ec;
          [ | discriminate].
        apply negb_true_iff in Hin.
        pose proof (child_name_join UPLOAD_FOLDER _ _ eq_refl eq_refl Ec) as Hp.
        assert (Hgone : lookup q w1 = None).
        { rewrite Hp. apply (Hdone1 eq_refl n st); try assumption.
          - exact (in_children _ _ _ _ _ Hl Ec).
          - rewrite <- Hp. exact Hl. }
        destruct (Hq2 q) as [Hk | (Hn & _)]; [congruence | exact Hn].
      - (* an output *)
        destruct (child_name OUTPUT_FOLDER q) as [n | ] eqn:Ec;
          [ | discriminate].
        apply negb_true_iff in Hin.
        pose proof (child_name_join OUTPUT_FOLDER _ _ eq_refl eq_refl Ec) as Hp.
        destruct (Hq1 q) as [Hk | (Hn & _)].
        + rewrite Hp. apply (Hdone2 Hr2 n st); try assumption.
          * apply (in_children _ q _ _ st); [ | exact Ec].
            unfold lookup in Hk, Hl. congruence.
          * rewrite <- Hp. congruence.
        + destruct (Hq2 q) as [Hk | (Hn' & _)]; [congruence | exact Hn']. }
    destruct r2 as [[] | e2]; cbn.
    - do 4 eexists. split; [reflexivity | ].
      split; [exact Hstep2 | split; [intros _; exact (Hall eq_refl) | left; reflexivity]].
    - do 4 eexists. split; [reflexivity | ].
      split; [exact Hstep2 | split; [discriminate | right; reflexivity]]. }
  destruct Hmain as (status & message & w' & t & Hrun & Hq & Hdone & Hstatus).
  exists status, message, w', t.
  split; [exact Hrun | split; [exact Hq | ]].
  split; [ | split; [ | split; [exact Hdone | exact Hstatus]]].
  - destruct (Hq (path_join UPLOAD_FOLDER ".gitkeep"))
      as [Hk | (_ & st & _ & Hin & _)]; [exact Hk | discriminate].
  - destruct (Hq (path_join OUTPUT_FOLDER ".gitkeep"))
      as [Hk | (_ & st & _ & Hin & _)]; [exact Hk | discriminate].
Qed.

(* ================================================================== *)
(** * Concrete runs *)
(* ================================================================== *)

Import Fixtures.

(** A scripted host only writes when it transcodes. *)
Lemma scripted_observers_only (s : script) : observers_only (scripted s).
Proof.
  intros cmd w H. cbn [scripted host_run]. unfold scripted_run.
  rewrite H.
  destruct (is_probe cmd); [destruct (existsb _ cmd); reflexivity | ].
  destruct (tool_installed s && String.eqb (hd "" cmd) "ffmpeg"); reflexivity.
Qed.

(** ** Runs on which a property as the specification words it fails *)

(** C3, refuted as stated: the probe exits with zero and prints JSON with a
    format-level duration of ["N/A"] (and a stream-level one of ["5.0"]);
    a duration field is located, yet the answer is absent. *)
Lemma audio_absent_with_duration_field :
  ~ audio_absent_exactly_when (scripted (with_audio unknown_duration_json))
      audio_path uploaded.
Proof.
  intros [_ [Habsent _]].
  assert (H : fst (fst (get_audio_duration
                          (scripted (with_audio unknown_duration_json))
                          audio_path uploaded)) = Ok None)
    by (vm_compute; reflexivity).
  destruct (Habsent H) as [(result & Hr & Hrc) | [(result & Hr & Hout)
                          | (result & probe_data & Hr & Hout & Hloc)]].
  - vm_compute in Hr. injection Hr as <-. apply Hrc. reflexivity.
  - vm_compute in Hr. injection Hr as <-. discriminate Hout.
  - vm_compute in Hr. injection Hr as <-.
    cbn in Hout. injection Hout as <-. vm_compute in Hloc. discriminate Hloc.
Qed.

(** C8, refuted as stated: the probe reports a duration of ["0.000000"]
    and the answer is a present 0.0. *)
Lemma zero_duration_is_present :
  ~ present_duration_positive (scripted (with_audio (audio_json "0.000000")))
      audio_path uploaded.
Proof.
  intros H. specialize (H (S754_zero false)).
  assert (Hrun : fst (fst (get_audio_duration
                             (scripted (with_audio (audio_json "0.000000")))
                             audio_path uploaded))
                 = Ok (Some (S754_zero false)))
    by (vm_compute; reflexivity).
  specialize (H Hrun). vm_compute in H. discriminate H.
Qed.

(** C4, refuted as stated: the first video stream reports 0x0 and the
    second 640x480; the answer is 640x480, not the dimensions of the
    first video stream. *)
Lemma second_video_stream_answers :
  ~ image_first_video_stream (scripted (with_image two_video_json))
      image_path uploaded.
Proof.
  intros H. specialize (H two_video_json eq_refl).
  vm_compute in H. discriminate H.
Qed.

(** C9, refuted as stated: a directory left in the upload folder stops the
    sweep, and the stale upload listed after it stays. *)
Lemma stale_upload_survives :
  ~ sweep_deletes_exactly_stale aged_with_subdirectory.
Proof.
  intros H.
  specialize (H "uploads/a_cover.jpg" (regular 52000 1000) eq_refl eq_refl).
  destruct H as [_ H].
  assert (Hstale : stale (clock aged_with_subdirectory) (regular 52000 1000)
                   = true) by (vm_compute; reflexivity).
  specialize (H Hstale). vm_compute in H. discriminate H.
Qed.

(** ** Runs that meet the hypotheses of the theorems above *)

(** The tool is not installed. *)
Lemma create_video_tool_missing_witness :
  check_ffmpeg (scripted no_tool) uploaded
    = (Ok false, uploaded,
       [Spawn ffmpeg_version_cmd (Raise (not_installed "ffmpeg"))])
  /\ create_video (scripted no_tool) image_path audio_path output_path
                  default_video_codec default_audio_codec uploaded
     = (Ok (false, msg_tool_missing), uploaded,
        [Spawn ffmpeg_version_cmd (Raise (not_installed "ffmpeg"))]).
Proof.
  assert (H : check_ffmpeg (scripted no_tool) uploaded
              = (Ok false, uploaded,
                 [Spawn ffmpeg_version_cmd (Raise (not_installed "ffmpeg"))]))
    by (vm_compute; reflexivity).
  split; [exact H | ].
  exact (proj1 (create_video_tool_missing (scripted no_tool) image_path
                  audio_path output_path default_video_codec
                  default_audio_codec uploaded uploaded _ H)).
Defined.

(** The audio upload is not there. *)
Lemma create_video_input_not_found_witness :
  check_ffmpeg (scripted happy) audio_missing
    = (Ok true, audio_missing, [version_ok])
  /\ path_exists image_path audio_missing
     && path_exists audio_path audio_missing = false
  /\ create_video (scripted happy) image_path audio_path output_path
                  default_video_codec default_audio_codec audio_missing
     = (Ok (false, "Audio file not found: uploads/7f3a_song.mp3"),
        audio_missing, [version_ok]).
Proof.
  assert (H : check_ffmpeg (scripted happy) audio_missing
              = (Ok true, audio_missing, [version_ok]))
    by (vm_compute; reflexivity).
  assert (Hmissing : path_exists image_path audio_missing
                     && path_exists audio_path audio_missing = false)
    by (vm_compute; reflexivity).
  split; [exact H | split; [exact Hmissing | ]].
  exact (proj1 (create_video_input_not_found (scripted happy) image_path
                  audio_path output_path default_video_codec
                  default_audio_codec audio_missing audio_missing _
                  H Hmissing)).
Defined.

(** The audio probe fails on one host, the image probe on another. *)
Lemma create_video_probe_outcomes_witness :
  (check_ffmpeg (scripted bad_audio) uploaded = (Ok true, uploaded, [version_ok])
   /\ path_exists image_path uploaded = true
   /\ path_exists audio_path uploaded = true
   /\ create_video (scripted bad_audio) image_path audio_path output_path
                   default_video_codec default_audio_codec uploaded
      = (Ok (false, msg_probe_failed), uploaded,
         [version_ok; Spawn (ffprobe_audio_cmd audio_path) (exits 1 "")]))
  /\
  (exists flag message w' tail,
      create_video (scripted bad_image) image_path audio_path output_path
                   default_video_codec default_audio_codec uploaded
      = (Ok (flag, message), w',
         ([version_ok]
            ++ [Spawn (ffprobe_audio_cmd audio_path)
                      (prints (audio_json "5.000000"))]
            ++ [Spawn (ffprobe_image_cmd image_path) (exits 1 "")]
            ++ MakeDirs (dirname output_path) :: tail)%list)
      /\ exists r,
           tail = [Spawn (ffmpeg_cmd image_path audio_path output_path
                            default_video_codec default_audio_codec
                            1280 720 (seconds 5))
                         r]).
Proof.
  assert (Himage : path_exists image_path uploaded = true) by reflexivity.
  assert (Haudio : path_exists audio_path uploaded = true) by reflexivity.
  split.
  - assert (H : check_ffmpeg (scripted bad_audio) uploaded
                = (Ok true, uploaded, [version_ok]))
      by (vm_compute; reflexivity).
    split; [exact H | split; [exact Himage | split; [exact Haudio | ]]].
    refine (proj1 (proj1 (create_video_probe_outcomes (scripted bad_audio)
                            image_path audio_path output_path
                            default_video_codec default_audio_codec
                            uploaded uploaded _ H Himage Haudio)
                         uploaded
                         [Spawn (ffprobe_audio_cmd audio_path) (exits 1 "")]
                         _)).
    vm_compute; reflexivity.
  - assert (H : check_ffmpeg (scripted bad_image) uploaded
                = (Ok true, uploaded, [version_ok]))
      by (vm_compute; reflexivity).
    destruct (proj2 (create_video_probe_outcomes (scripted bad_image)
                       image_path audio_path output_path
                       default_video_codec default_audio_codec
                       uploaded uploaded _ H Himage Haudio)
                    (seconds 5)
                    uploaded
                    [Spawn (ffprobe_audio_cmd audio_path)
                           (prints (audio_json "5.000000"))]
                    uploaded
                    [Spawn (ffprobe_image_cmd image_path) (exits 1 "")]
                    ltac:(vm_compute; reflexivity)
                    ltac:(vm_compute; reflexivity))
      as (flag & message & w' & tail & Hrun & _ & Htail).
    exists flag, message, w', tail.
    split; [exact Hrun | ].
    exact (Htail uploaded ltac:(vm_compute; reflexivity)).
Defined.

(** The audio probe fails: the world is as before. *)
Lemma create_video_early_failure_frame_witness :
  create_video (scripted bad_audio) image_path audio_path output_path
               default_video_codec default_audio_codec uploaded
    = (Ok (false, msg_probe_failed), uploaded,
       [version_ok; Spawn (ffprobe_audio_cmd audio_path) (exits 1 "")])
  /\ kind_of msg_probe_failed = Some ProbeFailed
  /\ (ProbeFailed = ToolMissing \/ ProbeFailed = InputNotFound
      \/ ProbeFailed = ProbeFailed)
  /\ observers_only (scripted bad_audio)
  /\ lookup output_path uploaded = None
  /\ existsb creates_directory
       [version_ok; Spawn (ffprobe_audio_cmd audio_path) (exits 1 "")] = false.
Proof.
  assert (H : create_video (scripted bad_audio) image_path audio_path
                output_path default_video_codec default_audio_codec uploaded
              = (Ok (false, msg_probe_failed), uploaded,
                 [version_ok;
                  Spawn (ffprobe_audio_cmd audio_path) (exits 1 "")]))
    by (vm_compute; reflexivity).
  assert (Hk : ProbeFailed = ToolMissing \/ ProbeFailed = InputNotFound
               \/ ProbeFailed = ProbeFailed)
    by (right; right; reflexivity).
  pose proof (create_video_early_failure_frame (scripted bad_audio)
                image_path audio_path output_path default_video_codec
                default_audio_codec uploaded uploaded _ msg_probe_failed
                ProbeFailed H eq_refl Hk) as (_ & Hdirs & Hworld).
  split; [exact H | split; [reflexivity | split; [exact Hk | ]]].
  split; [exact (scripted_observers_only bad_audio) | ].
  split; [ | exact Hdirs].
  destruct (Hworld (scripted_observers_only bad_audio)) as (_ & Hout & _).
  reflexivity.
Defined.

(** A five-second clip. *)
Lemma get_audio_duration_present_witness :
  get_audio_duration (scripted happy) audio_path uploaded
    = (Ok (Some (seconds 5)), uploaded,
       [Spawn (ffprobe_audio_cmd audio_path) (prints (audio_json "5.000000"))])
  /\ exists probe_data x,
       located_duration probe_data = Some x
       /\ py_float x = Ok (seconds 5).
Proof.
  assert (H : get_audio_duration (scripted happy) audio_path uploaded
              = (Ok (Some (seconds 5)),
                 uploaded,
                 [Spawn (ffprobe_audio_cmd audio_path)
                        (prints (audio_json "5.000000"))]))
    by (vm_compute; reflexivity).
  split; [exact H | ].
  destruct (get_audio_duration_present (scripted happy) audio_path uploaded
              uploaded _ _ H) as (probe_data & x & _ & Hloc & Hfloat & _).
  exists probe_data, x. split; [exact Hloc | exact Hfloat].
Defined.

(** Only a stream carries the duration. *)
Lemma get_audio_duration_located_witness :
  probe_output (fst (host_run (scripted (with_audio stream_only_json))
                              (ffprobe_audio_cmd audio_path) uploaded))
    = Some stream_only_json
  /\ duration_shaped stream_only_json = true
  /\ exists d,
       get_audio_duration (scripted (with_audio stream_only_json))
                          audio_path uploaded
         = (Ok d, uploaded,
            [Spawn (ffprobe_audio_cmd audio_path) (prints stream_only_json)])
       /\ d = Some (S754_finite false 7036874417766400 (-49)).
Proof.
  split; [reflexivity | split; [reflexivity | ]].
  destruct (get_audio_duration_located (scripted (with_audio stream_only_json))
              audio_path uploaded) as (d & Hrun & _ & Hshaped).
  exists d. split; [exact Hrun | ].
  destruct (Hshaped stream_only_json eq_refl eq_refl) as (Hd & _).
  rewrite Hd. vm_compute. reflexivity.
Defined.

(** An image of 1281 by 721. *)
Lemma get_image_dimensions_first_positive_witness :
  probe_output (fst (host_run (scripted happy)
                              (ffprobe_image_cmd image_path) uploaded))
    = Some (image_json 1281 721)
  /\ dimensions_shaped (image_json 1281 721) = true
  /\ exists d,
       get_image_dimensions (scripted happy) image_path uploaded
         = (Ok d, uploaded,
            [Spawn (ffprobe_image_cmd image_path)
                   (prints (image_json 1281 721))])
       /\ d = (Some 1281, Some 721).
Proof.
  split; [reflexivity | split; [reflexivity | ]].
  destruct (get_image_dimensions_first_positive (scripted happy)
              image_path uploaded) as (d & Hrun & _ & Hshaped).
  exists d. split; [exact Hrun | ].
  destruct (Hshaped (image_json 1281 721) eq_refl eq_refl) as (Hd & _).
  rewrite Hd. reflexivity.
Defined.

(** Two hours on: the old upload and the old video go, the fresh upload
    and the placeholders stay. *)
Lemma cleanup_files_sweeps_stale_witness :
  exists message w' t,
    cleanup_files aged = (Ok ("success", message), w', t)
    /\ lookup "uploads/a_cover.jpg" w' = None
    /\ lookup "output/a_video.mp4" w' = None
    /\ lookup "uploads/.gitkeep" w' = lookup "uploads/.gitkeep" aged.
Proof.
  destruct (cleanup_files_sweeps_stale aged)
    as (status & message & w' & t & Hrun & _ & Hkeep & _ & Hdone & _).
  assert (Hstatus : status = "success").
  { assert (E : fst (fst (cleanup_files aged))
                = Ok ("success", "Cleanup completed"))
      by (vm_compute; reflexivity).
    rewrite Hrun in E. cbn in E. injection E as E _. exact E. }
  subst status.
  exists message, w', t.
  split; [exact Hrun | ].
  split; [ | split; [ | exact Hkeep]].
  - exact (Hdone eq_refl "uploads/a_cover.jpg" (regular 52000 1000)
                 eq_refl eq_refl ltac:(vm_compute; reflexivity)).
  - exact (Hdone eq_refl "output/a_video.mp4" (regular 4242 1100)
                 eq_refl eq_refl ltac:(vm_compute; reflexivity)).
Defined.

(* ================================================================== *)
(** * Further properties *)
(* ================================================================== *)

Import FileJanitor Web WebFixtures.

(** ** [cleanup_file] *)

Lemma cleanup_file_eq (file_path : string) (w : World) :
  cleanup_file file_path w =
  match lookup file_path w with
  | None => (Ok false, w, [])
  | Some st =>
      if st_isdir st then (Ok false, w, [Remove file_path])
      else (Ok true,
            {| files := unlink file_path (files w); clock := clock w |},
            [Remove file_path])
  end.
Proof.
  unfold cleanup_file, try_except, bind, read, path_exists, os_remove, act,
    remove, ret.
  destruct (lookup file_path w) as [st | ] eqn:E; [ | reflexivity].
  cbn. rewrite E. destruct (st_isdir st); reflexivity.
Qed.


(** X2. [cleanup_file] is idempotent: called again on the world a first
    call left, it returns [False] and changes nothing. *)
Theorem cleanup_file_twice (file_path : string) (w : World) :
  let w1 := snd (fst (cleanup_file file_path w)) in
  exists t, cleanup_file file_path w1 = (Ok false, w1, t).
Proof.
  cbv zeta. rewrite (cleanup_file_eq file_path w).
  destruct (lookup file_path w) as [st | ] eqn:E.
  - destruct (st_isdir st) eqn:Ed; cbn [fst snd].
    + rewrite cleanup_file_eq, E, Ed. eexists. reflexivity.
    + rewrite cleanup_file_eq. unfold lookup at 1. cbn [files].
      rewrite assoc_unlink, String.eqb_refl. eexists. reflexivity.
  - cbn [fst snd]. rewrite cleanup_file_eq, E. eexists. reflexivity.
Qed.

(** ** File names and extensions *)

Lemma contains_char (c : ascii) (s : string) :
  contains (String c "") s = has_char c s.
Proof.
  unfold has_char, chars.
  induction s as [ | b s IH]; [reflexivity | ].
  cbn [contains starts_with list_ascii_of_string existsb].
  rewrite IH. destruct s; rewrite andb_true_r; reflexivity.
Qed.

Lemma has_char_app (c : ascii) (a b : string) :
  has_char c (a ++ b) = has_char c a || has_char c b.
Proof.
  unfold has_char, chars.
  induction a as [ | x a IH]; [reflexivity | ].
  cbn [append list_ascii_of_string existsb]. rewrite IH, orb_assoc.
  reflexivity.
Qed.

Lemma has_char_cons (c x : ascii) (s : string) :
  has_char c (String x s) = Ascii.eqb c x || has_char c s.
Proof. reflexivity. Qed.

Lemma split_on_not_nil (sep : ascii) (s : string) : split_on sep s <> [].
Proof.
  destruct s as [ | c s]; cbn; [discriminate | ].
  destruct (Ascii.eqb c sep); [discriminate | ].
  destruct (split_on sep s); discriminate.
Qed.

(** Joining the parts gives the string back. *)
Lemma join_split_on (sep : ascii) (s : string) :
  join_with sep (split_on sep s) = s.
Proof.
  induction s as [ | c s IH]; [reflexivity | ].
  cbn [split_on].
  destruct (Ascii.eqb c sep) eqn:E.
  - apply Ascii.eqb_eq in E. subst c.
    pose proof (split_on_not_nil sep s) as Hne.
    destruct (split_on sep s) as [ | h r]; [contradiction | ].
    cbn [join_with append] in *. rewrite IH. reflexivity.
  - pose proof (split_on_not_nil sep s) as Hne.
    destruct (split_on sep s) as [ | h r]; [contradiction | ].
    destruct r as [ | h' r]; cbn [join_with append] in *;
      rewrite <- IH; reflexivity.
Qed.

Lemma split_on_clean (sep : ascii) (s : string) :
  has_char sep s = false -> split_on sep s = [s].
Proof.
  induction s as [ | c s IH]; [reflexivity | ].
  rewrite has_char_cons. intros H. apply orb_false_elim in H as [Hc Hs].
  cbn [split_on]. rewrite Ascii.eqb_sym, Hc, (IH Hs). reflexivity.
Qed.

Lemma split_on_app (sep : ascii) (a b : string) :
  split_on sep (a ++ String sep b) = (split_on sep a ++ split_on sep b)%list.
Proof.
  induction a as [ | c a IH]; cbn [append split_on].
  - rewrite Ascii.eqb_refl. reflexivity.
  - rewrite IH. destruct (Ascii.eqb c sep); [reflexivity | ].
    pose proof (split_on_not_nil sep a) as Hne.
    destruct (split_on sep a); [contradiction | reflexivity].
Qed.

Lemma split_parts_clean (sep : ascii) (s : string) :
  Forall (fun p => has_char sep p = false) (split_on sep s).
Proof.
  induction s as [ | c s IH]; cbn [split_on].
  - constructor; [reflexivity | constructor].
  - destruct (Ascii.eqb c sep) eqn:E.
    + constructor; [reflexivity | exact IH].
    + destruct (split_on sep s) as [ | h r].
      * constructor; [ | constructor].
        rewrite has_char_cons, Ascii.eqb_sym, E. reflexivity.
      * inversion IH as [ | ? ? Hh Hr]; subst.
        constructor; [ | exact Hr].
        rewrite has_char_cons, Ascii.eqb_sym, E. exact Hh.
Qed.

(** A string that holds the separator ends in a last part free of it. *)
Lemma cut_at_last (sep : ascii) (s : string) :
  has_char sep s = true ->
  exists a b, s = (a ++ String sep b)%string /\ has_char sep b = false.
Proof.
  induction s as [ | c s IH]; [discriminate | ].
  rewrite has_char_cons. intros H.
  destruct (has_char sep s) eqn:Hs.
  - destruct (IH eq_refl) as (a & b & -> & Hb).
    exists (String c a), b. split; [reflexivity | exact Hb].
  - rewrite orb_false_r in H. apply Ascii.eqb_eq in H. subst c.
    exists "", s. split; [reflexivity | exact Hs].
Qed.

Lemma rsplit1_cut (sep : ascii) (a b : string) :
  has_char sep b = false ->
  rsplit1 sep (a ++ String sep b) = [a; b].
Proof.
  intros Hb. unfold rsplit1.
  rewrite split_on_app, (split_on_clean _ _ Hb).
  pose proof (split_on_not_nil sep a) as Hne.
  pose proof (join_split_on sep a) as Hjoin.
  destruct (split_on sep a) as [ | h r]; [contradiction | ].
  change ((h :: r) ++ [b])%list with (h :: (r ++ [b]))%list.
  destruct (r ++ [b])%list as [ | x l] eqn:E.
  - destruct r; discriminate.
  - rewrite <- E.
    change (h :: (r ++ [b]))%list with ((h :: r) ++ [b])%list.
    rewrite removelast_last, last_last, Hjoin. reflexivity.
Qed.

Lemma last_split_on_cut (sep : ascii) (a b : string) :
  has_char sep b = false ->
  last (split_on sep (a ++ String sep b)) "" = b.
Proof.
  intros Hb. rewrite split_on_app, (split_on_clean _ _ Hb).
  apply last_last.
Qed.

(** What [allowed_file] decides on a name cut at its last dot. *)
Lemma allowed_file_cut (stem extension : string) (allowed : list string) :
  contains "." extension = false ->
  allowed_file (stem ++ "." ++ extension) allowed
  = set_mem (str_lower extension) allowed.
Proof.
  rewrite contains_char. intros Hext. unfold allowed_file.
  rewrite contains_char, has_char_app.
  change ("." ++ extension)%string with (String "." extension).
  rewrite has_char_cons, Ascii.eqb_refl, orb_true_r.
  rewrite (rsplit1_cut _ _ _ Hext). reflexivity.
Qed.

Lemma allowed_file_accepts (file_name : string) (allowed : list string) :
  allowed_file file_name allowed = true ->
  exists stem extension,
    file_name = (stem ++ "." ++ extension)%string
    /\ contains "." extension = false
    /\ set_mem (str_lower extension) allowed = true.
Proof.
  intros H. unfold allowed_file in H.
  apply andb_prop in H as [Hdot H].
  rewrite contains_char in Hdot.
  destruct (cut_at_last _ _ Hdot) as (a & b & -> & Hb).
  rewrite (rsplit1_cut _ _ _ Hb) in H.
  exists a, b. repeat split; [rewrite contains_char; exact Hb | exact H].
Qed.

(** X3. [allowed_file] accepts a name exactly when the name has a dot and
    the text after its last dot, in lower case, is one of the allowed
    extensions; a name without a dot is refused whatever it is. *)
Theorem allowed_file_iff (file_name : string) (allowed : list string) :
  (allowed_file file_name allowed = true <->
   exists stem extension,
     file_name = (stem ++ "." ++ extension)%string
     /\ contains "." extension = false
     /\ set_mem (str_lower extension) allowed = true)
  /\ (contains "." file_name = false -> allowed_file file_name allowed = false).
Proof.
  split; [split | ].
  - apply allowed_file_accepts.
  - intros (a & b & -> & Hb & Hmem).
    rewrite (allowed_file_cut _ _ _ Hb). exact Hmem.
  - intros H. unfold allowed_file. rewrite H. reflexivity.
Qed.

Lemma lower_char_idempotent (c : ascii) :
  lower_char (lower_char c) = lower_char c.
Proof. destruct c as [[] [] [] [] [] [] [] []]; reflexivity. Qed.

Lemma str_lower_idempotent (s : string) : str_lower (str_lower s) = str_lower s.
Proof.
  induction s as [ | c s IH]; [reflexivity | ].
  cbn [str_lower]. rewrite lower_char_idempotent, IH. reflexivity.
Qed.

Lemma lower_char_dot (c : ascii) :
  Ascii.eqb "." (lower_char c) = Ascii.eqb "." c.
Proof. destruct c as [[] [] [] [] [] [] [] []]; reflexivity. Qed.

Lemma lower_char_question (c : ascii) :
  Ascii.eqb "?" (lower_char c) = Ascii.eqb "?" c.
Proof. destruct c as [[] [] [] [] [] [] [] []]; reflexivity. Qed.

Lemma has_dot_lower (s : string) : has_char "." (str_lower s) = has_char "." s.
Proof.
  induction s as [ | c s IH]; [reflexivity | ].
  cbn [str_lower]. rewrite !has_char_cons, lower_char_dot, IH. reflexivity.
Qed.

Lemma has_question_lower (s : string) :
  has_char "?" (str_lower s) = has_char "?" s.
Proof.
  induction s as [ | c s IH]; [reflexivity | ].
  cbn [str_lower]. rewrite !has_char_cons, lower_char_question, IH.
  reflexivity.
Qed.

(** X4. [allowed_file] does not look at the case of the extension: a name
    and the same name with its extension in lower case get the same
    answer. *)
Theorem allowed_file_ignores_case (stem extension : string)
  (allowed : list string) :
  contains "." extension = false ->
  allowed_file (stem ++ "." ++ str_lower extension) allowed
  = allowed_file (stem ++ "." ++ extension) allowed.
Proof.
  intros H.
  rewrite (allowed_file_cut _ _ _ H).
  rewrite allowed_file_cut, str_lower_idempotent; [reflexivity | ].
  rewrite contains_char, has_dot_lower, <- contains_char. exact H.
Qed.

Lemma image_extension_not_audio (extension : string) :
  set_mem extension ALLOWED_IMAGE_EXTENSIONS = true ->
  set_mem extension ALLOWED_AUDIO_EXTENSIONS = false.
Proof.
  unfold set_mem, ALLOWED_IMAGE_EXTENSIONS. cbn [existsb].
  intros H.
  repeat match type of H with
         | (String.eqb extension ?lit || _) = true =>
             apply orb_prop in H as [H | H];
             [apply String.eqb_eq in H; subst extension; reflexivity | ]
         end.
  discriminate H.
Qed.

(** X5. No file name passes both as an image and as an audio file: the
    two sets of extensions of the application do not meet. *)
Theorem no_name_is_image_and_audio (file_name : string) :
  allowed_file file_name ALLOWED_IMAGE_EXTENSIONS
  && allowed_file file_name ALLOWED_AUDIO_EXTENSIONS = false.
Proof.
  destruct (allowed_file file_name ALLOWED_IMAGE_EXTENSIONS) eqn:Himage;
    [ | reflexivity].
  apply allowed_file_accepts in Himage
    as (stem & extension & -> & Hdot & Hmem).
  rewrite (allowed_file_cut _ _ _ Hdot).
  exact (image_extension_not_audio _ Hmem).
Qed.

(** ** The extension of a URL *)

Lemma last_in_forall {A} (P : A -> Prop) (l : list A) (d : A) :
  l <> [] -> Forall P l -> P (last l d).
Proof.
  induction l as [ | a l IH]; [contradiction | ].
  intros _ H. inversion H as [ | ? ? Ha Hl]; subst.
  destruct l as [ | b l]; [exact Ha | ].
  apply IH; [discriminate | exact Hl].
Qed.

Lemma hd_split_on_prefix (sep : ascii) (s : string) :
  exists rest, s = (hd "" (split_on sep s) ++ rest)%string.
Proof.
  pose proof (join_split_on sep s) as H.
  destruct (split_on sep s) as [ | h [ | h' r]]; cbn [hd join_with] in *.
  - exists s. reflexivity.
  - exists "". rewrite <- H. clear. induction h; cbn; congruence.
  - eexists. symmetry. exact H.
Qed.

Lemma hd_split_on_clean (sep : ascii) (s : string) :
  has_char sep (hd "" (split_on sep s)) = false.
Proof.
  pose proof (split_parts_clean sep s) as H.
  destruct (split_on sep s) as [ | h r]; [reflexivity | ].
  inversion H; assumption.
Qed.

Lemma hd_split_on_keeps_clean (c sep : ascii) (s : string) :
  has_char c s = false -> has_char c (hd "" (split_on sep s)) = false.
Proof.
  intros H. destruct (hd_split_on_prefix sep s) as (rest & E).
  rewrite E, has_char_app in H. apply orb_false_elim in H as [H _]. exact H.
Qed.

(** X6. The extension [download_from_url] reads off a URL never holds a
    dot or a question mark. *)
Theorem url_extension_clean (url : string) :
  contains "." (url_extension url) = false
  /\ contains "?" (url_extension url) = false.
Proof.
  unfold url_extension. rewrite !contains_char.
  rewrite has_dot_lower, has_question_lower.
  split.
  - apply hd_split_on_keeps_clean.
    apply (last_in_forall (fun p => has_char "." p = false)).
    + apply split_on_not_nil.
    + apply split_parts_clean.
  - apply hd_split_on_clean.
Qed.

Lemma hd_split_on_cut (sep : ascii) (a b : string) :
  has_char sep a = false ->
  hd "" (split_on sep (a ++ String sep b)) = a.
Proof.
  intros Ha. rewrite split_on_app, (split_on_clean _ _ Ha). reflexivity.
Qed.

Lemma url_extension_cut (before after : string) :
  has_char "." after = false ->
  url_extension (before ++ "." ++ after)
  = str_lower (hd "" (split_on "?" after)).
Proof.
  intros Hdot. unfold url_extension.
  change ("." ++ after)%string with (String "." after).
  rewrite (last_split_on_cut _ _ _ Hdot). reflexivity.
Qed.

(** X7. [download_from_url] reads the extension after the last dot of the
    whole URL, up to the first question mark that follows, in lower case:
    a query string is cut off, unless it holds a dot itself, in which case
    the extension is read inside the query.  A URL without any dot is
    taken whole. *)
Theorem url_extension_after_last_dot (before after : string) :
  contains "." after = false ->
  url_extension (before ++ "." ++ after)
    = str_lower (hd "" (split_on "?" after))
  /\ url_extension after = str_lower (hd "" (split_on "?" after))
  /\ (forall extension query,
         after = (extension ++ "?" ++ query)%string ->
         contains "?" extension = false ->
         url_extension (before ++ "." ++ after) = str_lower extension)
  /\ (contains "?" after = false ->
      url_extension (before ++ "." ++ after) = str_lower after).
Proof.
  rewrite !contains_char. intros Hdot.
  pose proof (url_extension_cut before after Hdot) as H1.
  split; [exact H1 | split; [ | split]].
  - unfold url_extension. rewrite (split_on_clean _ _ Hdot). reflexivity.
  - intros extension query -> Hq. rewrite H1.
    rewrite contains_char in Hq.
    change ("?" ++ query)%string with (String "?" query).
    rewrite (hd_split_on_cut _ _ _ Hq). reflexivity.
  - intros Hq. rewrite H1.
    rewrite (split_on_clean _ _ Hq). reflexivity.
Qed.

(** X8. On a name with a dot and no question mark after its last dot the
    URL route and the upload route judge the extension alike.  They
    differ on a name without a dot: [allowed_file] refuses it, while
    [download_from_url] takes the whole name for the extension. *)
Theorem url_extension_and_allowed_file (stem extension : string)
  (allowed : list string) :
  contains "." extension = false ->
  contains "?" extension = false ->
  set_mem (url_extension (stem ++ "." ++ extension)) allowed
    = allowed_file (stem ++ "." ++ extension) allowed
  /\ set_mem (url_extension extension) allowed
     = set_mem (str_lower extension) allowed
  /\ allowed_file extension allowed = false.
Proof.
  intros Hdot Hq.
  pose proof Hdot as Hd. pose proof Hq as Hq'.
  rewrite contains_char in Hd, Hq'.
  split; [ | split].
  - rewrite (url_extension_cut _ _ Hd), (split_on_clean _ _ Hq').
    rewrite (allowed_file_cut _ _ _ Hdot). reflexivity.
  - unfold url_extension.
    rewrite (split_on_clean _ _ Hd). cbn [last].
    rewrite (split_on_clean _ _ Hq'). reflexivity.
  - unfold allowed_file. rewrite Hdot. reflexivity.
Qed.

(** ** More on [create_video] and its helpers *)

(** Whatever the probe printed, the loop of [get_image_dimensions] answers
    with nothing or with two positive numbers. *)
Lemma scan_dimensions_positive (streams : list json)
  (d : option Z * option Z) :
  scan_dimensions streams = Ok d ->
  d = (None, None)
  \/ exists width height,
       d = (Some width, Some height) /\ 0 < width /\ 0 < height.
Proof.
  induction streams as [ | stream rest IH]; cbn [scan_dimensions].
  - intros H. injection H as <-. left; reflexivity.
  - destruct (py_get stream "codec_type" JNull) as [ct | e];
      cbn [rbind]; [ | discriminate].
    destruct (eq_str ct "video"); [ | exact IH].
    destruct (py_get stream "width" (JInt 0)) as [wv | e];
      cbn [rbind]; [ | discriminate].
    destruct (py_int wv) as [width | e]; cbn [rbind]; [ | discriminate].
    destruct (py_get stream "height" (JInt 0)) as [hv | e];
      cbn [rbind]; [ | discriminate].
    destruct (py_int hv) as [height | e]; cbn [rbind]; [ | discriminate].
    destruct ((0 <? width) && (0 <? height)) eqn:E; [ | exact IH].
    intros H. injection H as <-. right. exists width, height.
    apply andb_prop in E as [Hw Hh].
    apply Z.ltb_lt in Hw. apply Z.ltb_lt in Hh.
    repeat split; assumption.
Qed.

Lemma probed_dimensions_positive (r : Result CompletedProcess) :
  probed_dimensions r = (None, None)
  \/ exists width height,
       probed_dimensions r = (Some width, Some height)
       /\ 0 < width /\ 0 < height.
Proof.
  unfold probed_dimensions.
  destruct (probe_output r) as [probe_data | ]; [ | left; reflexivity].
  destruct (find_dimensions probe_data) as [d | e] eqn:E;
    [ | left; reflexivity].
  unfold find_dimensions in E.
  destruct (py_in "streams" probe_data) as [[ | ] | e];
    cbn [rbind] in E; try discriminate.
  - destruct (py_getitem probe_data "streams") as [streams | e];
      cbn [rbind] in E; [ | discriminate].
    destruct (py_iter streams) as [items | e];
      cbn [rbind] in E; [ | discriminate].
    exact (scan_dimensions_positive _ _ E).
  - injection E as <-. left; reflexivity.
Qed.

(** X9. [get_image_dimensions] never raises, and what it returns is either
    the absent pair or a width and a height that are both above zero,
    whatever the probe printed. *)
Theorem get_image_dimensions_positive (host : Host) (image_path : string)
  (w : World) :
  exists d w' t,
    get_image_dimensions host image_path w = (Ok d, w', t)
    /\ (d = (None, None)
        \/ exists width height,
             d = (Some width, Some height) /\ 0 < width /\ 0 < height).
Proof.
  rewrite get_image_dimensions_eq. do 3 eexists.
  split; [reflexivity | apply probed_dimensions_positive].
Qed.

Lemma normalize_of_positive (width height : Z) :
  0 < width -> 0 < height ->
  Z.even (fst (normalize width height)) = true
  /\ Z.even (snd (normalize width height)) = true
  /\ 0 <= fst (normalize width height) <= width
  /\ 0 <= snd (normalize width height) <= height.
Proof.
  intros Hw Hh. unfold normalize. cbn [fst snd].
  assert (Hev : forall z, Z.even (z - z mod 2) = true).
  { intros z. replace (z - z mod 2) with (2 * (z / 2))
      by (pose proof (Z.div_mod z 2); lia).
    apply Z.even_mul. }
  pose proof (Z.mod_pos_bound width 2).
  pose proof (Z.mod_pos_bound height 2).
  repeat split; try apply Hev; lia.
Qed.

Lemma scaled_dimensions_even (r : Result CompletedProcess) :
  Z.even (fst (scaled_dimensions (probed_dimensions r))) = true
  /\ Z.even (snd (scaled_dimensions (probed_dimensions r))) = true
  /\ 0 <= fst (scaled_dimensions (probed_dimensions r))
  /\ 0 <= snd (scaled_dimensions (probed_dimensions r)).
Proof.
  destruct (probed_dimensions_positive r) as [-> | (wd & ht & -> & Hw & Hh)].
  - cbn. repeat split; lia.
  - cbn [scaled_dimensions].
    destruct (normalize_of_positive wd ht Hw Hh) as (H1 & H2 & H3 & H4).
    repeat split; try assumption; lia.
Qed.

Lemma append_empty (s : string) : (s ++ "")%string = s.
Proof. induction s as [ | c s IH]; cbn; [ | rewrite IH]; reflexivity. Qed.

Lemma msg_ffmpeg_failed_text (result : CompletedProcess) :
  msg_ffmpeg_failed result
  = ("FFmpeg failed with return code "
       ++ str_of_Z (returncode result)
       ++ (if String.eqb (stderr result) "" then ""
           else ": " ++ stderr result))%string.
Proof.
  unfold msg_ffmpeg_failed.
  destruct (String.eqb (stderr result) "").
  - rewrite append_empty. reflexivity.
  - rewrite append_assoc3. reflexivity.
Qed.

Section ComposerMore.
Variable host : Host.
Variables image_path audio_path output_path video_codec audio_codec : string.

(** X10. Whenever [create_video] starts a transcode, the command is
    built from what the two probes of the same run reported: its duration
    is the one read off the audio probe, and its scale is the one derived
    from the image probe, two even, non-negative numbers. *)
Theorem create_video_transcode_from_probes (w w' : World)
  (res : Result (bool * string)) (t : list event)
  (cmd : list string) (r : Result CompletedProcess) :
  create_video host image_path audio_path output_path video_codec audio_codec w
    = (res, w', t) ->
  In (Spawn cmd r) t ->
  is_transcode cmd = true ->
  exists r1 r2 duration width height,
    In (Spawn (ffprobe_audio_cmd audio_path) r1) t
    /\ In (Spawn (ffprobe_image_cmd image_path) r2) t
    /\ probed_duration r1 = Some duration
    /\ scaled_dimensions (probed_dimensions r2) = (width, height)
    /\ cmd = ffmpeg_cmd image_path audio_path output_path
                        video_codec audio_codec width height duration
    /\ Z.even width = true /\ Z.even height = true
    /\ 0 <= width /\ 0 <= height.
Proof.
  intros H Hin Htrans.
  split_paths H.
  all: cbn [In app] in Hin.
  all: repeat match goal with
              | H : _ \/ _ |- _ => destruct H as [H | H]
              | H : False |- _ => destruct H
              | H : Spawn _ _ = Spawn _ _ |- _ =>
                  inversion H; subst; clear H
              | H : MakeDirs _ = Spawn _ _ |- _ => discriminate H
              end.
  all: try discriminate Htrans.
  all: match goal with
       | E : scaled_dimensions (probed_dimensions ?r2) = (?z, ?z0),
         D : probed_duration ?r1 = Some ?d |- _ =>
           pose proof (scaled_dimensions_even r2) as (H1 & H2 & H3 & H4);
           rewrite E in H1, H2, H3, H4; cbn [fst snd] in H1, H2, H3, H4;
           exists r1, r2, d, z, z0; cbn [In app];
           repeat split; try assumption; auto 10
       end.
Qed.

(** X11. The host calls of [create_video] are always an initial segment
    of one fixed sequence: the version check, the audio probe, the image
    probe, the creation of the output directory, the transcode. *)
Theorem create_video_call_order (w w' : World)
  (res : Result (bool * string)) (t : list event) :
  create_video host image_path audio_path output_path video_codec audio_codec w
    = (res, w', t) ->
  exists r0 r1 r2 r4 width height duration rest,
    (t ++ rest)%list
    = [ Spawn ffmpeg_version_cmd r0;
        Spawn (ffprobe_audio_cmd audio_path) r1;
        Spawn (ffprobe_image_cmd image_path) r2;
        MakeDirs (dirname output_path);
        Spawn (ffmpeg_cmd image_path audio_path output_path
                          video_codec audio_codec width height duration) r4 ]
    /\ (List.length t = 1 \/ List.length t = 2 \/ List.length t = 4
        \/ List.length t = 5)%nat.
Proof.
  intros H. split_paths H.
  all: match goal with
       | |- exists r0 r1 r2 r4 width height duration rest,
              ([Spawn _ ?a] ++ rest)%list = _ /\ _ =>
           exists a, a, a, a, 0, 0, S754_nan; eexists;
           split; [reflexivity | left; reflexivity]
       | |- exists r0 r1 r2 r4 width height duration rest,
              ([Spawn _ ?a; Spawn _ ?b] ++ rest)%list = _ /\ _ =>
           exists a, b, a, a, 0, 0, S754_nan; eexists;
           split; [reflexivity | right; left; reflexivity]
       | |- exists r0 r1 r2 r4 width height duration rest,
              ([Spawn _ ?a; Spawn _ ?b; Spawn _ ?c; MakeDirs _] ++ rest)%list
              = _ /\ _ =>
           exists a, b, c, a, 0, 0, S754_nan; eexists;
           split; [reflexivity | right; right; left; reflexivity]
       | |- exists r0 r1 r2 r4 width height duration rest,
              ([Spawn _ ?a; Spawn _ ?b; Spawn _ ?c; MakeDirs _;
                Spawn (ffmpeg_cmd _ _ _ _ _ ?x ?y ?d) ?e] ++ rest)%list
              = _ /\ _ =>
           exists a, b, c, e, x, y, d, [];
           split; [reflexivity | right; right; right; reflexivity]
       end.
Qed.

(** X12. [create_video] fails with the tool-execution message exactly when
    the transcode ran to completion with a non-zero exit code, and the
    message then carries that code and, when there is any, the captured
    error text. *)
Theorem create_video_transcode_failure (w : World) :
  exists flag message w' t,
    create_video host image_path audio_path output_path
                 video_codec audio_codec w
      = (Ok (flag, message), w', t)
    /\ (kind_of message = Some ToolExecutionFailed <->
        existsb transcode_exit_nonzero t = true)
    /\ (forall cmd result,
           In (Spawn cmd (Ok result)) t ->
           is_transcode cmd = true ->
           returncode result <> 0 ->
           flag = false
           /\ message
              = ("FFmpeg failed with return code "
                   ++ str_of_Z (returncode result)
                   ++ (if String.eqb (stderr result) "" then ""
                       else ": " ++ stderr result))%string).
Proof.
  destruct (create_video host image_path audio_path output_path
                         video_codec audio_codec w) as [[res w'] t] eqn:H.
  split_paths H.
  all: do 4 eexists; split; [reflexivity | ].
  all: split;
    [ cbn [existsb orb transcode_exit_nonzero];
      rewrite ?is_transcode_ffmpeg_cmd;
      change (is_transcode ffmpeg_version_cmd) with false;
      change (is_transcode (ffprobe_audio_cmd audio_path)) with false;
      change (is_transcode (ffprobe_image_cmd image_path)) with false;
      repeat match goal with
             | E : (returncode _ =? 0) = _ |- _ => rewrite E
             end;
      repeat match goal with
             | |- context [transcode_exit_nonzero (Spawn ?c ?x)] =>
                 is_var x; destruct x
             | |- context [match ?x with Ok _ => _ | Raise _ => _ end] =>
                 is_var x; destruct x
             end;
      cbn [andb orb negb transcode_exit_nonzero];
      rewrite ?kind_of_ffmpeg_failed;
      unfold handler_message;
      repeat match goal with
             | |- context [if ?b then _ else _] => destruct b
             end;
      split; intros; try discriminate; reflexivity
    | intros cmd result Hin Htrans Hrc;
      cbn [In app] in Hin;
      repeat match goal with
             | H : _ \/ _ |- _ => destruct H as [H | H]
             | H : False |- _ => destruct H
             | H : Spawn _ _ = Spawn _ _ |- _ =>
                 inversion H; subst; clear H
             | H : MakeDirs _ = Spawn _ _ |- _ => discriminate H
             end;
      try discriminate;
      try (exfalso; apply Hrc; apply Z.eqb_eq; assumption) ].
  all: split; [reflexivity | apply msg_ffmpeg_failed_text].
Qed.

(** X13. When the version check cannot be run for a reason other than a
    missing program (say, a permission error), [check_ffmpeg] lets the
    exception through, and [create_video] answers with its catch-all
    message, not with the tool-missing one. *)
Theorem create_video_check_raises (w w1 : World) (e : exn) :
  host_run host ffmpeg_version_cmd w = (Raise e, w1) ->
  is_a CalledProcessError e || is_a FileNotFoundError e = false ->
  check_ffmpeg host w
    = (Raise e, w1, [Spawn ffmpeg_version_cmd (Raise e)])
  /\ create_video host image_path audio_path output_path
                  video_codec audio_codec w
     = (Ok (false, "Unexpected error: " ++ exn_str e), w1,
        [Spawn ffmpeg_version_cmd (Raise e)])
  /\ kind_of ("Unexpected error: " ++ exn_str e) = None.
Proof.
  intros Hrun Hcls.
  rewrite check_ffmpeg_eq, create_video_eq, Hrun. cbn [fst snd available].
  rewrite Hcls. unfold handler_message.
  apply orb_false_elim in Hcls as [-> _].
  repeat split.
Qed.

End ComposerMore.

(** ** The download routes *)

Section Routes.
Variable host : Host.
Variable site : Site.

(** [download_file] in direct style. *)
Lemma download_file_eq (name : string) (w : World) (x : Session)
  (g : nat -> string) (n : nat) :
  download_file site name
    {| world := w; session := x; rng := g; draws := n |}
  =
  match output_file x with
  | None => refused w x g n "Invalid download request"
  | Some stored_name =>
      if negb (String.eqb stored_name name)
      then refused w x g n "Invalid download request"
      else if negb (path_exists (path_join OUTPUT_FOLDER name) w)
      then refused w x g n "File not found"
      else
        let popped := {| output_file := None; flashes := flashes x |} in
        match int_of_float (clock w) with
        | Raise _ => refused w popped g n "Error downloading file"
        | Ok stamp =>
            let download_name :=
              ("merged_video_" ++ str_of_Z stamp ++ ".mp4")%string in
            match send_file site (path_join OUTPUT_FOLDER name)
                            download_name w with
            | Raise _ => refused w popped g n "Error downloading file"
            | Ok _ =>
                (Ok (SendFile (path_join OUTPUT_FOLDER name) download_name),
                 {| world := w; session := popped; rng := g; draws := n |},
                 [])
            end
        end
  end.
Proof.
  destruct x as [[stored_name | ] shown]; [ | reflexivity].
  cbv beta iota zeta delta
    [download_file wtry wbind session_output_file refused flashed flash wret
     with_session on_world read time_time lift read_result
     session_pop_output_file with_world
     session output_file world rng draws flashes].
  destruct (negb (String.eqb stored_name name)); [reflexivity | ].
  destruct (negb (path_exists (path_join OUTPUT_FOLDER name) w));
    [reflexivity | ].
  destruct (int_of_float (clock w)) as [stamp | e]; [ | reflexivity].
  destruct (send_file site _ _ w) as [[] | e]; reflexivity.
Qed.

(** X14. [download_file] sends a file only to the session that holds its
    name: the file served is the one of that name in the output folder, it
    was there, the session's entry is gone afterwards, and nothing else
    has changed. *)
Theorem download_file_sends_session_file (name path download_name : string)
  (s s' : Web) (t : list event) :
  download_file site name s = (Ok (SendFile path download_name), s', t) ->
  output_file (session s) = Some name
  /\ path = path_join OUTPUT_FOLDER name
  /\ path_exists path (world s) = true
  /\ (exists stamp,
        int_of_float (clock (world s)) = Ok stamp
        /\ download_name = ("merged_video_" ++ str_of_Z stamp ++ ".mp4")%string)
  /\ output_file (session s') = None
  /\ flashes (session s') = flashes (session s)
  /\ world s' = world s
  /\ t = [].
Proof.
  destruct s as [w x g n]. rewrite download_file_eq. unfold refused.
  cbn [session world].
  destruct (output_file x) as [stored_name | ] eqn:Etoken; [ | discriminate].
  destruct (String.eqb stored_name name) eqn:Ename; cbn [negb];
    [ | discriminate].
  apply String.eqb_eq in Ename. subst stored_name.
  destruct (path_exists (path_join OUTPUT_FOLDER name) w) eqn:Ethere;
    cbn [negb]; [ | discriminate].
  cbv zeta.
  destruct (int_of_float (clock w)) as [stamp | e] eqn:Estamp;
    [ | discriminate].
  destruct (send_file site _ _ w) as [[] | e]; [ | discriminate].
  intros H. inversion H; subst; clear H. cbn [session world output_file flashes].
  repeat split; try assumption.
  exists stamp. split; reflexivity.
Qed.

(** X15. A request for a name the session does not hold, or for a file
    that is no longer there, is turned down with one flashed error; the
    session keeps its entry and the files are not touched. *)
Theorem download_file_refuses (name : string) (s : Web) :
  output_file (session s) <> Some name
  \/ path_exists (path_join OUTPUT_FOLDER name) (world s) = false ->
  exists message,
    download_file site name s
    = (Ok (Redirect "index"),
       with_session s (flashed (session s) message "error"), [])
    /\ (message = "Invalid download request" \/ message = "File not found").
Proof.
  destruct s as [w x g n]. rewrite download_file_eq. unfold refused, with_session.
  cbn [session world rng draws].
  intros H.
  destruct (output_file x) as [stored_name | ] eqn:Etoken.
  - destruct (String.eqb stored_name name) eqn:Ename; cbn [negb].
    + apply String.eqb_eq in Ename. subst stored_name.
      destruct H as [H | H]; [contradiction H; reflexivity | ].
      rewrite H. cbn [negb].
      exists "File not found". split; [reflexivity | right; reflexivity].
    + exists "Invalid download request".
      split; [reflexivity | left; reflexivity].
  - exists "Invalid download request".
    split; [reflexivity | left; reflexivity].
Qed.

(** X16. A download is good for one attempt.  Once the session's name has
    matched and the file has been found, the entry is gone whether or not
    the file could then be sent, and any further request, for whatever
    name, is an invalid download request. *)
Theorem download_file_one_shot (name again : string) (s s' : Web)
  (r : Result Response) (t : list event) :
  output_file (session s) = Some name ->
  path_exists (path_join OUTPUT_FOLDER name) (world s) = true ->
  download_file site name s = (r, s', t) ->
  output_file (session s') = None
  /\ download_file site again s'
     = (Ok (Redirect "index"),
        with_session s'
          (flashed (session s') "Invalid download request" "error"), []).
Proof.
  destruct s as [w x g n]. cbn [session world]. intros Htoken Hthere.
  rewrite download_file_eq, Htoken, String.eqb_refl, Hthere. cbn [negb].
  cbv zeta. unfold refused.
  assert (forall s2 : Web,
             output_file (session s2) = None ->
             output_file (session s2) = None
             /\ download_file site again s2
                = (Ok (Redirect "index"),
                   with_session s2
                     (flashed (session s2) "Invalid download request" "error"),
                   [])) as Hgone.
  { intros [w2 x2 g2 n2] H2. cbn [session] in H2. split; [exact H2 | ].
    rewrite download_file_eq, H2. reflexivity. }
  destruct (int_of_float (clock w)) as [stamp | e].
  - destruct (send_file site _ _ w) as [[] | e];
      intros H; inversion H; subst; clear H; apply Hgone; reflexivity.
  - intros H; inversion H; subst; clear H; apply Hgone; reflexivity.
Qed.

(** X17. [download_file] never raises, runs no command and leaves the
    files alone.  It answers with the file, or with a redirect to the
    index page after exactly one flashed error. *)
Theorem download_file_total (name : string) (s : Web) :
  exists r s',
    download_file site name s = (Ok r, s', [])
    /\ world s' = world s /\ rng s' = rng s /\ draws s' = draws s
    /\ ((exists path download_name,
            r = SendFile path download_name
            /\ flashes (session s') = flashes (session s))
        \/ (r = Redirect "index"
            /\ exists message,
                 flashes (session s')
                 = (flashes (session s) ++ [(message, "error")])%list)).
Proof.
  destruct s as [w [token shown] g n]. rewrite download_file_eq.
  unfold refused, flashed. cbn [session world rng draws output_file flashes].
  assert (forall token0 message,
             exists r s',
               (Ok (Redirect "index"),
                {| world := w;
                   session :=
                     {| output_file := token0;
                        flashes := (shown ++ [(message, "error")])%list |};
                   rng := g; draws := n |}, @nil event)
               = (Ok r, s', [])
               /\ world s' = w /\ rng s' = g /\ draws s' = n
               /\ ((exists path download_name,
                       r = SendFile path download_name
                       /\ flashes (session s') = shown)
                   \/ (r = Redirect "index"
                       /\ exists message,
                            flashes (session s')
                            = (shown ++ [(message, "error")])%list)))
    as Hno.
  { intros token0 message. do 2 eexists. split; [reflexivity | ].
    cbn [world rng draws session flashes]. repeat split.
    right. split; [reflexivity | ]. exists message. reflexivity. }
  destruct token as [stored_name | ]; [ | apply Hno].
  destruct (negb (String.eqb stored_name name)); [apply Hno | ].
  destruct (negb (path_exists (path_join OUTPUT_FOLDER name) w));
    [apply Hno | ].
  cbv zeta.
  destruct (int_of_float (clock w)) as [stamp | e]; [ | apply Hno].
  destruct (send_file site _ _ w) as [[] | e]; [ | apply Hno].
  do 2 eexists. split; [reflexivity | ].
  cbn [world rng draws session flashes]. repeat split.
  left. do 2 eexists. split; reflexivity.
Qed.

End Routes.

(** ** The upload route *)

(** [create_video] never raises. *)
Lemma create_video_returns (host : Host)
  (image_path audio_path output_path video_codec audio_codec : string)
  (w : World) :
  exists flag message w' t,
    create_video host image_path audio_path output_path
                 video_codec audio_codec w
    = (Ok (flag, message), w', t).
Proof.
  destruct (create_video host image_path audio_path output_path
                         video_codec audio_codec w) as [[res w'] t] eqn:H.
  split_paths H.
  all: do 4 eexists; reflexivity.
Qed.

(** What a [True] from [create_video] stands for. *)
Lemma create_video_true (host : Host)
  (image_path audio_path output_path video_codec audio_codec : string)
  (w w' : World) (message : string) (t : list event) :
  create_video host image_path audio_path output_path
               video_codec audio_codec w
  = (Ok (true, message), w', t) ->
  output_nonempty output_path w' = true
  /\ existsb transcode_exit_zero t = true.
Proof.
  intros H. split_paths H.
  split; [assumption | ].
  cbn [existsb orb app].
  rewrite ?exit_zero_of_observer by reflexivity.
  cbn [transcode_exit_zero orb].
  rewrite is_transcode_ffmpeg_cmd.
  match goal with E : (returncode _ =? 0) = true |- _ => rewrite E end.
  reflexivity.
Qed.

Lemma output_nonempty_exists (path : string) (w : World) :
  output_nonempty path w = true -> path_exists path w = true.
Proof.
  unfold output_nonempty, path_exists.
  destruct (lookup path w); [reflexivity | discriminate].
Qed.

Section Upload.
Variable host : Host.
Variable site : Site.

(** [upload_files] in direct style. *)
Lemma upload_files_eq (request : Request) (w : World) (x : Session)
  (g : nat -> string) (n : nat) :
  upload_files host site request
    {| world := w; session := x; rng := g; draws := n |}
  =
  match assoc "image" (req_files request),
        assoc "audio" (req_files request) with
  | Some image_file, Some audio_file =>
      if String.eqb (filename image_file) ""
         || String.eqb (filename audio_file) ""
      then refused w x g n "Please select both image and audio files"
      else if negb (allowed_file (filename image_file)
                                 ALLOWED_IMAGE_EXTENSIONS)
      then refused w x g n
             "Invalid image file type. Allowed: PNG, JPG, JPEG, GIF"
      else if negb (allowed_file (filename audio_file)
                                 ALLOWED_AUDIO_EXTENSIONS)
      then refused w x g n
             "Invalid audio file type. Allowed: MP3, WAV, AAC, M4A"
      else if MAX_FILE_SIZE <? stream_size image_file
      then refused w x g n "Image file too large. Maximum size: 100MB"
      else if MAX_FILE_SIZE <? stream_size audio_file
      then refused w x g n "Audio file too large. Maximum size: 100MB"
      else
        let unique_id := g n in
        let image_path :=
          path_join UPLOAD_FOLDER
            (unique_id ++ "_" ++ secure_filename site (filename image_file))
        in
        let audio_path :=
          path_join UPLOAD_FOLDER
            (unique_id ++ "_" ++ secure_filename site (filename audio_file))
        in
        let output_filename := (unique_id ++ "_video.mp4")%string in
        let output_path := path_join OUTPUT_FOLDER output_filename in
        let unexpected := "An unexpected error occurred during processing" in
        match write_file image_path (Z.max 0 (stream_size image_file)) w with
        | (Raise _, w1) => refused w1 x g (S n) unexpected
        | (Ok _, w1) =>
            match write_file audio_path (Z.max 0 (stream_size audio_file)) w1
            with
            | (Raise _, w2) => refused w2 x g (S n) unexpected
            | (Ok _, w2) =>
                match create_video host image_path audio_path output_path
                        default_video_codec default_audio_codec w2 with
                | (Raise _, w3, t) =>
                    (Ok (Redirect "index"),
                     {| world := w3; session := flashed x unexpected "error";
                        rng := g; draws := S n |}, t)
                | (Ok (true, _), w3, t) =>
                    (Ok (Redirect "download_page"),
                     {| world := w3;
                        session :=
                          flashed {| output_file := Some output_filename;
                                     flashes := flashes x |}
                            "Video created successfully! Click download to get your file."
                            "success";
                        rng := g; draws := S n |}, t)
                | (Ok (false, message), w3, t) =>
                    (Ok (Redirect "index"),
                     {| world := w3;
                        session :=
                          flashed x ("Error creating video: " ++ message)
                                  "error";
                        rng := g; draws := S n |}, t)
                end
            end
        end
  | _, _ => refused w x g n "Both image and audio files are required"
  end.
Proof.
  destruct x as [token shown].
  unfold upload_files, has_key, files_getitem.
  destruct (assoc "image" (req_files request)) as [[image_name image_size image_pos] | ];
    [ | reflexivity].
  destruct (assoc "audio" (req_files request)) as [[audio_name audio_size audio_pos] | ];
    [ | reflexivity].
  cbv beta iota zeta delta
    [wtry wbind refused flashed flash wret wraise with_session on_world
     with_world uuid4_str save session_set_output_file get_file_size seek tell
     session output_file world rng draws flashes
     filename stream_size stream_pos negb orb].
  destruct (String.eqb image_name ""); [reflexivity | ].
  destruct (String.eqb audio_name ""); [reflexivity | ].
  destruct (allowed_file image_name ALLOWED_IMAGE_EXTENSIONS); [ | reflexivity].
  destruct (allowed_file audio_name ALLOWED_AUDIO_EXTENSIONS); [ | reflexivity].
  change (2 =? 0) with false. change (2 =? 1) with false.
  change (0 =? 0) with true.
  cbv beta iota zeta.
  rewrite !Z.add_0_r, !Z.sub_0_r.
  destruct (MAX_FILE_SIZE <? image_size); [reflexivity | ].
  destruct (MAX_FILE_SIZE <? audio_size); [reflexivity | ].
  destruct (write_file _ (Z.max 0 image_size) w) as [[[] | e1] w1];
    [ | reflexivity].
  destruct (write_file _ (Z.max 0 audio_size) w1) as [[[] | e2] w2];
    [ | reflexivity].
  destruct (create_video host _ _ _ _ _ w2) as [[[[[ | ] message] | e3] w3] t];
    cbn [app]; rewrite ?app_nil_r; reflexivity.
Qed.


(** The one path of [upload_files] that ends at the download page: the
    facts it has gone through are left in the context. *)
Ltac upload_success_path H :=
  match type of H with
  | upload_files _ _ ?request ?s = _ =>
      destruct s as [w x g n]; rewrite upload_files_eq in H;
      unfold refused in H; cbv zeta in H;
      destruct (assoc "image" (req_files request)) as [image_file | ] eqn:Eimage;
        [ | discriminate H];
      destruct (assoc "audio" (req_files request)) as [audio_file | ] eqn:Eaudio;
        [ | discriminate H];
      destruct (String.eqb (filename image_file) "") eqn:Eimage_name;
        cbn [orb negb andb] in H; [discriminate H | ];
      destruct (String.eqb (filename audio_file) "") eqn:Eaudio_name;
        cbn [orb negb andb] in H; [discriminate H | ];
      destruct (allowed_file (filename image_file) ALLOWED_IMAGE_EXTENSIONS)
        eqn:Eimage_type; cbn [orb negb andb] in H; [ | discriminate H];
      destruct (allowed_file (filename audio_file) ALLOWED_AUDIO_EXTENSIONS)
        eqn:Eaudio_type; cbn [orb negb andb] in H; [ | discriminate H];
      destruct (Z.ltb_spec MAX_FILE_SIZE (stream_size image_file))
        as [Eimage_size | Eimage_size]; [discriminate H | ];
      destruct (Z.ltb_spec MAX_FILE_SIZE (stream_size audio_file))
        as [Eaudio_size | Eaudio_size]; [discriminate H | ];
      apply Z.leb_le in Eimage_size, Eaudio_size;
      destruct (write_file _ _ w) as [[[] | e1] w1]; [ | discriminate H];
      destruct (write_file _ _ w1) as [[[] | e2] w2]; [ | discriminate H];
      destruct (create_video _ _ _ _ _ _ w2)
        as [[[[[ | ] message] | e3] w3] t3] eqn:Hvideo; try discriminate H;
      inversion H; subst; clear H;
      apply create_video_true in Hvideo as [Hout Hzero]
  end.


(** X19. When [upload_files] sends the client to the download page, the
    upload had passed every check, the session names the output file made
    from the identifier drawn for this request, that file is in the
    output folder with a size above zero, and the transcode ran to
    completion with exit code zero. *)
Theorem upload_files_success (request : Request) (s s' : Web)
  (t : list event) :
  upload_files host site request s = (Ok (Redirect "download_page"), s', t) ->
  valid_upload request = true
  /\ output_file (session s')
     = Some (rng s (draws s) ++ "_video.mp4")%string
  /\ output_nonempty
       (path_join OUTPUT_FOLDER (rng s (draws s) ++ "_video.mp4")) (world s')
     = true
  /\ existsb transcode_exit_zero t = true
  /\ draws s' = S (draws s)
  /\ flashes (session s')
     = (flashes (session s)
        ++ [("Video created successfully! Click download to get your file.",
             "success")])%list.
Proof.
  intros H. upload_success_path H.
  cbn [world session rng draws output_file flashes flashed].
  unfold valid_upload.
  repeat match goal with E : _ = _ |- _ => rewrite E end.
  repeat split; assumption.
Qed.

(** X20. [upload_files] never raises.  It always answers with a redirect
    and flashes exactly one message: a success on the way to the download
    page, an error on the way back to the index page, in which case the
    session keeps the entry it had. *)
Theorem upload_files_total (request : Request) (s : Web) :
  exists r s' t,
    upload_files host site request s = (Ok r, s', t)
    /\ rng s' = rng s
    /\ ((r = Redirect "download_page"
         /\ exists message,
              flashes (session s')
              = (flashes (session s) ++ [(message, "success")])%list)
        \/ (r = Redirect "index"
            /\ output_file (session s') = output_file (session s)
            /\ exists message,
                 flashes (session s')
                 = (flashes (session s) ++ [(message, "error")])%list)).
Proof.
  destruct s as [w x g n]. rewrite upload_files_eq.
  cbn [world session rng draws]. cbv zeta.
  assert (forall w0 n0 (t0 : list event) message,
             exists r s' t,
               (Ok (Redirect "index"),
                {| world := w0; session := flashed x message "error";
                   rng := g; draws := n0 |}, t0)
               = (Ok r, s', t)
               /\ rng s' = g
               /\ ((r = Redirect "download_page"
                    /\ exists message,
                         flashes (session s')
                         = (flashes x ++ [(message, "success")])%list)
                   \/ (r = Redirect "index"
                       /\ output_file (session s') = output_file x
                       /\ exists message,
                            flashes (session s')
                            = (flashes x ++ [(message, "error")])%list)))
    as Hno.
  { intros w0 n0 t0 message. do 3 eexists. split; [reflexivity | ].
    cbn [rng session flashed output_file flashes].
    split; [reflexivity | ]. right. repeat split. exists message. reflexivity. }
  unfold refused.
  destruct (assoc "image" (req_files request)) as [image_file | ];
    [ | apply Hno].
  destruct (assoc "audio" (req_files request)) as [audio_file | ];
    [ | apply Hno].
  repeat match goal with
         | |- context [if ?c then _ else _] => destruct c; [apply Hno | ]
         | |- context [if negb ?c then _ else _] =>
             destruct c; cbn [negb]; [ | apply Hno]
         end.
  destruct (write_file _ _ w) as [[[] | e1] w1]; [ | apply Hno].
  destruct (write_file _ _ w1) as [[[] | e2] w2]; [ | apply Hno].
  destruct (create_video host _ _ _ _ _ w2)
    as [[[[[ | ] message] | e3] w3] t3]; [ | apply Hno | apply Hno].
  do 3 eexists. split; [reflexivity | ].
  cbn [rng session flashed output_file flashes].
  split; [reflexivity | ]. left. split; [reflexivity | ].
  eexists. reflexivity.
Qed.


(** X21. After a successful upload the three routes fit together: the
    download page shows the name the session holds and changes nothing,
    and a download request for that name is neither invalid nor too late;
    it is served whenever the file can be sent. *)
Theorem upload_then_download (request : Request) (s s1 : Web)
  (t : list event) :
  upload_files host site request s = (Ok (Redirect "download_page"), s1, t) ->
  exists name,
    output_file (session s1) = Some name
    /\ download_page s1 = (Ok (Render "index.html" (Some name)), s1, [])
    /\ forall stamp,
         int_of_float (clock (world s1)) = Ok stamp ->
         send_file site (path_join OUTPUT_FOLDER name)
                   ("merged_video_" ++ str_of_Z stamp ++ ".mp4") (world s1)
         = Ok tt ->
         download_file site name s1
         = (Ok (SendFile (path_join OUTPUT_FOLDER name)
                         ("merged_video_" ++ str_of_Z stamp ++ ".mp4")),
            with_session s1 {| output_file := None;
                               flashes := flashes (session s1) |},
            []).
Proof.
  intros H. upload_success_path H.
  eexists. split; [reflexivity | ]. split; [reflexivity | ].
  intros stamp Hstamp Hsend.
  rewrite download_file_eq.
  cbn [world session output_file flashes flashed] in *.
  rewrite String.eqb_refl, (output_nonempty_exists _ _ Hout), Hstamp.
  cbn [negb]. cbv zeta. rewrite Hsend. reflexivity.
Qed.

End Upload.

(** ** Storing an upload *)

Lemma assoc_app {A} (k : string) (l1 l2 : list (string * A)) :
  assoc k (l1 ++ l2)%list
  = match assoc k l1 with Some v => Some v | None => assoc k l2 end.
Proof.
  induction l1 as [ | [k' v] l1 IH]; cbn [app assoc]; [reflexivity | ].
  destruct (String.eqb k k'); [reflexivity | exact IH].
Qed.

Lemma lookup_stored (q path : string) (size : Z) (w : World) :
  lookup q (stored path size w)
  = if String.eqb q path
    then Some {| st_isdir := false; st_size := size; st_ctime := clock w |}
    else lookup q w.
Proof.
  unfold lookup, stored. cbn [files].
  rewrite assoc_app, assoc_unlink. cbn [assoc].
  destruct (String.eqb q path); [reflexivity | ].
  destruct (assoc q (files w)); reflexivity.
Qed.

(** What a write that went through has done. *)
Lemma write_file_ok (path : string) (size : Z) (w w' : World) :
  write_file path size w = (Ok tt, w') -> w' = stored path size w.
Proof.
  unfold write_file.
  destruct (if String.eqb (dirname path) "" then Some true
            else option_map st_isdir (lookup (dirname path) w))
    as [[ | ] | ]; try discriminate.
  destruct (lookup path w) as [st | ];
    [destruct (st_isdir st); [discriminate | ] | ];
    intros H; inversion H; reflexivity.
Qed.

(** X22. [get_file_size] returns the length of the stream wherever its
    position was, and leaves it at the start: a [save] that follows
    stores the whole content under the path, as a regular file of that
    length, and touches no other path. *)
Theorem get_file_size_then_save (file : FileStorage) (path : string)
  (s s' : Web) (t : list event) :
  0 <= stream_size file ->
  save (snd (get_file_size file)) path s = (Ok tt, s', t) ->
  fst (get_file_size file) = stream_size file
  /\ lookup path (world s')
     = Some {| st_isdir := false; st_size := stream_size file;
               st_ctime := clock (world s) |}
  /\ (forall q, q <> path -> lookup q (world s') = lookup q (world s))
  /\ session s' = session s
  /\ t = [].
Proof.
  intros Hsize. destruct s as [w x g n].
  unfold save, on_world, get_file_size, seek, tell, with_world.
  cbn [fst snd world session rng draws stream_size stream_pos].
  change (2 =? 0) with false. change (2 =? 1) with false.
  change (0 =? 0) with true. cbv beta iota.
  rewrite Z.add_0_r, Z.sub_0_r, Z.max_r by exact Hsize.
  destruct (write_file path (stream_size file) w) as [[[] | e] w1] eqn:Hwrite;
    [ | discriminate].
  intros H. inversion H; subst; clear H.
  apply write_file_ok in Hwrite. subst w1.
  cbn [world session].
  split; [reflexivity | split; [ | split; [ | split; reflexivity]]].
  - rewrite lookup_stored, String.eqb_refl. reflexivity.
  - intros q Hq. rewrite lookup_stored.
    destruct (String.eqb q path) eqn:E; [ | reflexivity].
    apply String.eqb_eq in E. contradiction.
Qed.

(** ** The route for URLs *)

Section Urls.
Variable host : Host.
Variable site : Site.

(** [generate_from_urls] in direct style. *)
Lemma generate_from_urls_eq (request : Request) (w : World) (x : Session)
  (g : nat -> string) (n : nat) :
  generate_from_urls host site request
    {| world := w; session := x; rng := g; draws := n |}
  =
  let required := "Both image and audio URLs are required." in
  let unexpected := "An unexpected error occurred during processing." in
  match assoc "image_url" (req_form request),
        assoc "audio_url" (req_form request) with
  | Some image_url, Some audio_url =>
      if String.eqb image_url "" || String.eqb audio_url ""
      then refused w x g n required
      else
        let image_ext := url_extension image_url in
        let audio_ext := url_extension audio_url in
        let image_path :=
          path_join UPLOAD_FOLDER (g n ++ "." ++ image_ext) in
        let audio_path :=
          path_join UPLOAD_FOLDER (g (S n) ++ "." ++ audio_ext) in
        let output_filename := (g (S (S n)) ++ "_video.mp4")%string in
        if negb (set_mem image_ext ALLOWED_IMAGE_EXTENSIONS)
        then refused w x g n unexpected
        else
          match requests_get site image_url with
          | Raise _ => refused w x g (S n) unexpected
          | Ok image_length =>
              match write_file image_path image_length w with
              | (Raise _, w1) => refused w1 x g (S n) unexpected
              | (Ok _, w1) =>
                  if negb (set_mem audio_ext ALLOWED_AUDIO_EXTENSIONS)
                  then refused w1 x g (S n) unexpected
                  else
                    match requests_get site audio_url with
                    | Raise _ => refused w1 x g (S (S n)) unexpected
                    | Ok audio_length =>
                        match write_file audio_path audio_length w1 with
                        | (Raise _, w2) =>
                            refused w2 x g (S (S n)) unexpected
                        | (Ok _, w2) =>
                            match create_video host image_path audio_path
                                    (path_join OUTPUT_FOLDER output_filename)
                                    default_video_codec default_audio_codec w2
                            with
                            | (Raise _, w3, t) =>
                                (Ok (Redirect "index"),
                                 {| world := w3;
                                    session := flashed x unexpected "error";
                                    rng := g; draws := S (S (S n)) |}, t)
                            | (Ok (true, _), w3, t) =>
                                (Ok (Redirect "download_page"),
                                 {| world := w3;
                                    session :=
                                      flashed
                                        {| output_file := Some output_filename;
                                           flashes := flashes x |}
                                        "Video created from URLs successfully!"
                                        "success";
                                    rng := g; draws := S (S (S n)) |}, t)
                            | (Ok (false, message), w3, t) =>
                                (Ok (Redirect "index"),
                                 {| world := w3;
                                    session :=
                                      flashed x
                                        ("Error creating video: " ++ message)
                                        "error";
                                    rng := g; draws := S (S (S n)) |}, t)
                            end
                        end
                    end
              end
          end
  | _, _ => refused w x g n required
  end.
Proof.
  destruct x as [token shown].
  unfold generate_from_urls, download_from_url.
  destruct (assoc "image_url" (req_form request)) as [image_url | ];
    [ | destruct (assoc "audio_url" (req_form request)); reflexivity].
  destruct (assoc "audio_url" (req_form request)) as [audio_url | ];
    [ | reflexivity].
  cbv beta iota zeta delta
    [wtry wbind refused flashed flash wret wraise with_session on_world
     with_world uuid4_str session_set_output_file
     session output_file world rng draws flashes negb orb].
  destruct (String.eqb image_url ""); [reflexivity | ].
  destruct (String.eqb audio_url ""); [reflexivity | ].
  destruct (set_mem (url_extension image_url) ALLOWED_IMAGE_EXTENSIONS);
    [ | reflexivity].
  destruct (requests_get site image_url) as [image_length | e0];
    [ | reflexivity].
  destruct (write_file _ image_length w) as [[[] | e1] w1]; [ | reflexivity].
  destruct (set_mem (url_extension audio_url) ALLOWED_AUDIO_EXTENSIONS);
    [ | reflexivity].
  destruct (requests_get site audio_url) as [audio_length | e2];
    [ | reflexivity].
  destruct (write_file _ audio_length w1) as [[[] | e3] w2]; [ | reflexivity].
  destruct (create_video host _ _ _ _ _ w2) as [[[[[ | ] message] | e4] w3] t];
    cbn [app]; rewrite ?app_nil_r; reflexivity.
Qed.


(** Reading the form. *)
Ltac read_form request :=
  unfold url_pair in *;
  destruct (assoc "image_url" (req_form request)) as [image_url0 | ];
    [destruct (assoc "audio_url" (req_form request)) as [audio_url0 | ];
       [destruct (String.eqb image_url0 "" || String.eqb audio_url0 "") | ]
    | ].

(** X23. A form that lacks a URL, or gives an empty one, is turned down
    with the message that both are required; one whose image URL has an
    extension that is not allowed is turned down with the catch-all
    message.  In both cases nothing has been fetched or written, no
    identifier has been drawn and the session keeps its entry. *)
Theorem generate_from_urls_rejects_early (request : Request) (s : Web) :
  (url_pair request = None ->
   generate_from_urls host site request s
   = (Ok (Redirect "index"),
      with_session s
        (flashed (session s) "Both image and audio URLs are required."
                 "error"), []))
  /\ (forall image_url audio_url,
         url_pair request = Some (image_url, audio_url) ->
         set_mem (url_extension image_url) ALLOWED_IMAGE_EXTENSIONS = false ->
         generate_from_urls host site request s
         = (Ok (Redirect "index"),
            with_session s
              (flashed (session s)
                 "An unexpected error occurred during processing." "error"),
            [])).
Proof.
  destruct s as [w x g n]. rewrite generate_from_urls_eq. cbv zeta.
  unfold refused, with_session. cbn [world session rng draws].
  split.
  - intros H. read_form request; try reflexivity. discriminate H.
  - intros image_url audio_url H Hext.
    read_form request; try discriminate H.
    inversion H; subst; clear H. rewrite Hext. reflexivity.
Qed.

(** X24. When the image has been fetched and stored and the audio URL
    then turns out to have an extension that is not allowed, the request
    fails with the catch-all message and the image stays behind in the
    upload folder: the handler removes nothing it has written. *)
Theorem generate_from_urls_leaves_image (request : Request) (s : Web)
  (image_url audio_url : string) (length : Z) (w1 : World) :
  url_pair request = Some (image_url, audio_url) ->
  set_mem (url_extension image_url) ALLOWED_IMAGE_EXTENSIONS = true ->
  requests_get site image_url = Ok length ->
  write_file
    (path_join UPLOAD_FOLDER
       (rng s (draws s) ++ "." ++ url_extension image_url))
    length (world s) = (Ok tt, w1) ->
  set_mem (url_extension audio_url) ALLOWED_AUDIO_EXTENSIONS = false ->
  generate_from_urls host site request s
  = (Ok (Redirect "index"),
     {| world := w1;
        session :=
          flashed (session s)
            "An unexpected error occurred during processing." "error";
        rng := rng s; draws := S (draws s) |}, [])
  /\ lookup
       (path_join UPLOAD_FOLDER
          (rng s (draws s) ++ "." ++ url_extension image_url)) w1
     = Some {| st_isdir := false; st_size := length;
               st_ctime := clock (world s) |}.
Proof.
  destruct s as [w x g n]. cbn [world session rng draws].
  intros H Himage Hget Hwrite Haudio.
  rewrite generate_from_urls_eq. cbv zeta. unfold refused.
  read_form request; try discriminate H.
  inversion H; subst; clear H.
  rewrite Himage, Hget, Hwrite, Haudio. cbn [negb].
  split; [reflexivity | ].
  apply write_file_ok in Hwrite. subst w1.
  rewrite lookup_stored, String.eqb_refl. reflexivity.
Qed.

(** X25. When [generate_from_urls] sends the client to the download page,
    the form gave two URLs with allowed extensions, three identifiers
    have been drawn (one for each download and one for the output), the
    session names the output file made from the third, that file is in
    the output folder with a size above zero, and the transcode ran to
    completion with exit code zero. *)
Theorem generate_from_urls_success (request : Request) (s s' : Web)
  (t : list event) :
  generate_from_urls host site request s
  = (Ok (Redirect "download_page"), s', t) ->
  exists image_url audio_url,
    url_pair request = Some (image_url, audio_url)
    /\ set_mem (url_extension image_url) ALLOWED_IMAGE_EXTENSIONS = true
    /\ set_mem (url_extension audio_url) ALLOWED_AUDIO_EXTENSIONS = true
    /\ draws s' = S (S (S (draws s)))
    /\ output_file (session s')
       = Some (rng s (S (S (draws s))) ++ "_video.mp4")%string
    /\ output_nonempty
         (path_join OUTPUT_FOLDER (rng s (S (S (draws s))) ++ "_video.mp4"))
         (world s') = true
    /\ existsb transcode_exit_zero t = true.
Proof.
  destruct s as [w x g n]. rewrite generate_from_urls_eq. cbv zeta.
  unfold refused. cbn [world session rng draws].
  intros H. read_form request; try discriminate H.
  destruct (set_mem (url_extension image_url0) ALLOWED_IMAGE_EXTENSIONS)
    eqn:Himage; cbn [negb] in H; [ | discriminate H].
  destruct (requests_get site image_url0) as [image_length | e0];
    [ | discriminate H].
  destruct (write_file _ image_length w) as [[[] | e1] w1];
    [ | discriminate H].
  destruct (set_mem (url_extension audio_url0) ALLOWED_AUDIO_EXTENSIONS)
    eqn:Haudio; cbn [negb] in H; [ | discriminate H].
  destruct (requests_get site audio_url0) as [audio_length | e2];
    [ | discriminate H].
  destruct (write_file _ audio_length w1) as [[[] | e3] w2];
    [ | discriminate H].
  destruct (create_video host _ _ _ _ _ w2)
    as [[[[[ | ] message] | e4] w3] t3] eqn:Hvideo; try discriminate H.
  inversion H; subst; clear H.
  apply create_video_true in Hvideo as [Hout Hzero].
  exists image_url0, audio_url0.
  cbn [world session rng draws output_file flashes flashed].
  repeat split; assumption.
Qed.

(** X26. [generate_from_urls] never raises.  It always answers with a
    redirect and flashes exactly one message: a success on the way to the
    download page, an error on the way back to the index page, in which
    case the session keeps the entry it had. *)
Theorem generate_from_urls_total (request : Request) (s : Web) :
  exists r s' t,
    generate_from_urls host site request s = (Ok r, s', t)
    /\ rng s' = rng s
    /\ ((r = Redirect "download_page"
         /\ exists message,
              flashes (session s')
              = (flashes (session s) ++ [(message, "success")])%list)
        \/ (r = Redirect "index"
            /\ output_file (session s') = output_file (session s)
            /\ exists message,
                 flashes (session s')
                 = (flashes (session s) ++ [(message, "error")])%list)).
Proof.
  destruct s as [w x g n]. rewrite generate_from_urls_eq.
  cbn [world session rng draws]. cbv zeta.
  assert (forall w0 n0 (t0 : list event) message,
             exists r s' t,
               (Ok (Redirect "index"),
                {| world := w0; session := flashed x message "error";
                   rng := g; draws := n0 |}, t0)
               = (Ok r, s', t)
               /\ rng s' = g
               /\ ((r = Redirect "download_page"
                    /\ exists message,
                         flashes (session s')
                         = (flashes x ++ [(message, "success")])%list)
                   \/ (r = Redirect "index"
                       /\ output_file (session s') = output_file x
                       /\ exists message,
                            flashes (session s')
                            = (flashes x ++ [(message, "error")])%list)))
    as Hno.
  { intros w0 n0 t0 message. do 3 eexists. split; [reflexivity | ].
    cbn [rng session flashed output_file flashes].
    split; [reflexivity | ]. right. repeat split. exists message. reflexivity. }
  unfold refused.
  read_form request; try apply Hno.
  destruct (set_mem (url_extension image_url0) ALLOWED_IMAGE_EXTENSIONS);
    cbn [negb]; [ | apply Hno].
  destruct (requests_get site image_url0) as [image_length | e0];
    [ | apply Hno].
  destruct (write_file _ image_length w) as [[[] | e1] w1]; [ | apply Hno].
  destruct (set_mem (url_extension audio_url0) ALLOWED_AUDIO_EXTENSIONS);
    cbn [negb]; [ | apply Hno].
  destruct (requests_get site audio_url0) as [audio_length | e2];
    [ | apply Hno].
  destruct (write_file _ audio_length w1) as [[[] | e3] w2]; [ | apply Hno].
  destruct (create_video host _ _ _ _ _ w2)
    as [[[[[ | ] message] | e4] w3] t3]; [ | apply Hno | apply Hno].
  do 3 eexists. split; [reflexivity | ].
  cbn [rng session flashed output_file flashes].
  split; [reflexivity | ]. left. split; [reflexivity | ].
  eexists. reflexivity.
Qed.

End Urls.

(** ** The cleanup route *)

Lemma assoc_in {A} (k : string) (v : A) (l : list (string * A)) :
  assoc k l = Some v -> In (k, v) l.
Proof.
  induction l as [ | [k' v'] l IH]; cbn [assoc]; [discriminate | ].
  destruct (String.eqb k k') eqn:E.
  - apply String.eqb_eq in E. subst k'. intros H. injection H as ->.
    left; reflexivity.
  - intros H. right. exact (IH H).
Qed.

(** A listed name is the name of an entry. *)
Lemma children_listed (dir name : string) (l : list (string * stat)) :
  String.eqb dir "" = false ->
  ends_with_slash dir = false ->
  In name (children dir l) ->
  exists st, assoc (path_join dir name) l = Some st.
Proof.
  intros Hne Hslash.
  induction l as [ | [k v] l IH]; [intros [] | ].
  cbn [children assoc].
  destruct (child_name dir k) as [n | ] eqn:E.
  - intros [<- | H].
    + rewrite <- (child_name_join _ _ _ Hne Hslash E), String.eqb_refl.
      exists v. reflexivity.
    + destruct (String.eqb (path_join dir name) k);
        [exists v; reflexivity | exact (IH H)].
  - intros H.
    destruct (String.eqb (path_join dir name) k);
      [exists v; reflexivity | exact (IH H)].
Qed.

(** A loop of [cleanup_files] over entries that are all young. *)
Lemma for_each_sweep_quiet (folder : string) (now : float)
  (names : list string) (w : World) :
  (forall name,
      In name names ->
      String.eqb name ".gitkeep" = false ->
      exists st, lookup (path_join folder name) w = Some st
                 /\ stale now st = false) ->
  for_each names (sweep_entry folder now) w = (Ok tt, w, []).
Proof.
  induction names as [ | name names IH]; intros H; [reflexivity | ].
  assert (Hrest : for_each names (sweep_entry folder now) w = (Ok tt, w, []))
    by (apply IH; intros n Hn; apply H; right; exact Hn).
  cbn [for_each]. unfold bind at 1. rewrite sweep_entry_eq.
  destruct (String.eqb name ".gitkeep") eqn:Ekeep;
    [rewrite Hrest; reflexivity | ].
  destruct (H name (or_introl eq_refl) Ekeep) as (st & Hl & Hs).
  cbv zeta. rewrite Hl, Hs, Hrest. reflexivity.
Qed.

Lemma young_of_nothing_stale (w : World) (dir name : string) :
  nothing_stale w = true ->
  String.eqb dir "" = false ->
  ends_with_slash dir = false ->
  in_swept_folder (path_join dir name) = true ->
  In name (children dir (files w)) ->
  exists st, lookup (path_join dir name) w = Some st
             /\ stale (clock w) st = false.
Proof.
  intros Hquiet Hne Hslash Hswept Hin.
  destruct (children_listed _ _ _ Hne Hslash Hin) as (st & Hl).
  exists st. split; [exact Hl | ].
  unfold nothing_stale in Hquiet. rewrite forallb_forall in Hquiet.
  specialize (Hquiet _ (assoc_in _ _ _ Hl)). cbn [fst snd] in Hquiet.
  rewrite Hswept in Hquiet. cbn [andb] in Hquiet.
  apply negb_true_iff in Hquiet. exact Hquiet.
Qed.

(** X27. On a site whose two folders are in place and hold nothing older
    than an hour, the cleanup route removes nothing, leaves the state as
    it was and reports success. *)
Theorem cleanup_route_nothing_stale (s : Web) :
  is_directory UPLOAD_FOLDER (world s) = true ->
  is_directory OUTPUT_FOLDER (world s) = true ->
  nothing_stale (world s) = true ->
  cleanup_route s = (Ok (Json "success" "Cleanup completed"), s, []).
Proof.
  destruct s as [w x g n]. cbn [world]. unfold is_directory.
  intros Hup Hout Hquiet.
  assert (Hloop : forall dir,
             dir = UPLOAD_FOLDER \/ dir = OUTPUT_FOLDER ->
             for_each (children dir (files w)) (sweep_entry dir (clock w)) w
             = (Ok tt, w, [])).
  { intros dir Hdir. apply for_each_sweep_quiet. intros name Hin Hkeep.
    assert (String.eqb dir "" = false /\ ends_with_slash dir = false)
      as [Hne Hslash] by (destruct Hdir; subst dir; split; reflexivity).
    pose proof (swept_of_listed dir name (files w) Hne Hslash Hin Hkeep)
      as Hswept.
    apply (young_of_nothing_stale w dir name Hquiet Hne Hslash);
      [ | exact Hin].
    unfold in_swept_folder.
    destruct Hdir; subst dir; rewrite Hswept;
      [reflexivity | apply orb_true_r]. }
  unfold cleanup_route, wbind, on_world, wret, with_world.
  cbn [world session rng draws].
  unfold cleanup_files, try_except.
  unfold bind at 1. unfold time_time, read.
  unfold bind at 1. unfold read_result at 1. unfold listdir at 1.
  destruct (lookup UPLOAD_FOLDER w) as [dir1 | ]; [ | discriminate Hup].
  rewrite Hup.
  unfold bind at 1. rewrite (Hloop UPLOAD_FOLDER (or_introl eq_refl)).
  unfold bind at 1. unfold read_result at 1. unfold listdir at 1.
  destruct (lookup OUTPUT_FOLDER w) as [dir2 | ]; [ | discriminate Hout].
  rewrite Hout.
  unfold bind at 1. rewrite (Hloop OUTPUT_FOLDER (or_intror eq_refl)).
  reflexivity.
Qed.

(* ================================================================== *)
(** * Further runs that meet the hypotheses *)
(* ================================================================== *)

Lemma allowed_file_ignores_case_witness :
  allowed_file ("cover" ++ "." ++ str_lower "JPG") ALLOWED_IMAGE_EXTENSIONS
  = allowed_file ("cover" ++ "." ++ "JPG") ALLOWED_IMAGE_EXTENSIONS.
Proof.
  apply (allowed_file_ignores_case "cover" "JPG" ALLOWED_IMAGE_EXTENSIONS).
  reflexivity.
Defined.

Lemma url_extension_after_last_dot_witness :
  url_extension ("http://h/a" ++ "." ++ "PNG?v=1") = "png".
Proof.
  exact (proj1 (proj2 (proj2 (url_extension_after_last_dot
                                "http://h/a" "PNG?v=1" eq_refl)))
               "PNG" "v=1" eq_refl eq_refl).
Defined.

Lemma url_extension_and_allowed_file_witness :
  set_mem (url_extension ("photo" ++ "." ++ "PNG")) ALLOWED_IMAGE_EXTENSIONS
  = allowed_file ("photo" ++ "." ++ "PNG") ALLOWED_IMAGE_EXTENSIONS
  /\ set_mem (url_extension "PNG") ALLOWED_IMAGE_EXTENSIONS = true
  /\ allowed_file "PNG" ALLOWED_IMAGE_EXTENSIONS = false.
Proof.
  destruct (url_extension_and_allowed_file "photo" "PNG"
              ALLOWED_IMAGE_EXTENSIONS eq_refl eq_refl) as (H1 & H2 & H3).
  split; [exact H1 | split; [ | exact H3]].
  rewrite H2. reflexivity.
Defined.

(** The transcode of a good run: five seconds, 1280 by 720. *)
Lemma create_video_transcode_from_probes_witness :
  exists r1 r2 duration width height,
    In (Spawn (ffprobe_audio_cmd audio_path) r1) (snd composing)
    /\ In (Spawn (ffprobe_image_cmd image_path) r2) (snd composing)
    /\ probed_duration r1 = Some duration
    /\ scaled_dimensions (probed_dimensions r2) = (width, height)
    /\ ffmpeg_cmd image_path audio_path output_path
                  default_video_codec default_audio_codec 1280 720 (seconds 5)
       = ffmpeg_cmd image_path audio_path output_path
                    default_video_codec default_audio_codec
                    width height duration
    /\ Z.even width = true /\ Z.even height = true
    /\ 0 <= width /\ 0 <= height.
Proof.
  apply (create_video_transcode_from_probes (scripted happy) image_path
           audio_path output_path default_video_codec default_audio_codec
           uploaded (snd (fst composing)) (fst (fst composing)) (snd composing)
           (ffmpeg_cmd image_path audio_path output_path
              default_video_codec default_audio_codec 1280 720 (seconds 5))
           (exits 0 "")).
  - vm_compute; reflexivity.
  - vm_compute. do 4 right. left. reflexivity.
  - reflexivity.
Defined.

(** A run that stops at the audio probe. *)
Lemma create_video_call_order_witness :
  exists r0 r1 r2 r4 width height duration rest,
    ([version_ok; Spawn (ffprobe_audio_cmd audio_path) (exits 1 "")]
       ++ rest)%list
    = [ Spawn ffmpeg_version_cmd r0;
        Spawn (ffprobe_audio_cmd audio_path) r1;
        Spawn (ffprobe_image_cmd image_path) r2;
        MakeDirs (dirname output_path);
        Spawn (ffmpeg_cmd image_path audio_path output_path
                          default_video_codec default_audio_codec
                          width height duration) r4 ]
    /\ (List.length [version_ok;
                     Spawn (ffprobe_audio_cmd audio_path) (exits 1 "")] = 1%nat
        \/ List.length [version_ok;
                        Spawn (ffprobe_audio_cmd audio_path) (exits 1 "")]
           = 2%nat
        \/ List.length [version_ok;
                        Spawn (ffprobe_audio_cmd audio_path) (exits 1 "")]
           = 4%nat
        \/ List.length [version_ok;
                        Spawn (ffprobe_audio_cmd audio_path) (exits 1 "")]
           = 5%nat).
Proof.
  apply (create_video_call_order (scripted bad_audio) image_path audio_path
           output_path default_video_codec default_audio_codec
           uploaded uploaded (Ok (false, msg_probe_failed))).
  vm_compute; reflexivity.
Defined.

(** The program may not run the version check. *)
Lemma create_video_check_raises_witness :
  create_video locked_down image_path audio_path output_path
               default_video_codec default_audio_codec uploaded
  = (Ok (false, "Unexpected error: [Errno 13] Permission denied: 'ffmpeg'"),
     uploaded,
     [Spawn ffmpeg_version_cmd
            (Raise (Exn PermissionError
                      "[Errno 13] Permission denied: 'ffmpeg'"))]).
Proof.
  exact (proj1 (proj2 (create_video_check_raises locked_down image_path
                         audio_path output_path default_video_codec
                         default_audio_codec uploaded uploaded
                         (Exn PermissionError
                            "[Errno 13] Permission denied: 'ffmpeg'")
                         eq_refl eq_refl))).
Defined.

(** The session that holds the name is served. *)
Lemma download_file_sends_session_file_witness :
  output_file (holding "7f3a0_video.mp4") = Some "7f3a0_video.mp4"
  /\ "output/7f3a0_video.mp4" = path_join OUTPUT_FOLDER "7f3a0_video.mp4"
  /\ path_exists "output/7f3a0_video.mp4" finished = true
  /\ (exists stamp,
        int_of_float (clock finished) = Ok stamp
        /\ "merged_video_9001.mp4"
           = ("merged_video_" ++ str_of_Z stamp ++ ".mp4")%string)
  /\ output_file empty_session = None
  /\ flashes empty_session = flashes (holding "7f3a0_video.mp4")
  /\ finished = finished
  /\ @nil event = [].
Proof.
  apply (download_file_sends_session_file plain_site "7f3a0_video.mp4"
           "output/7f3a0_video.mp4" "merged_video_9001.mp4"
           (site_state finished (holding "7f3a0_video.mp4"))
           (site_state finished empty_session) []).
  vm_compute; reflexivity.
Defined.

(** A request for a name the session does not hold. *)
Lemma download_file_refuses_witness :
  exists message,
    download_file plain_site "other.mp4"
      (site_state finished (holding "7f3a0_video.mp4"))
    = (Ok (Redirect "index"),
       site_state finished
         {| output_file := Some "7f3a0_video.mp4";
            flashes := [(message, "error")] |}, [])
    /\ (message = "Invalid download request" \/ message = "File not found").
Proof.
  apply (download_file_refuses plain_site "other.mp4"
           (site_state finished (holding "7f3a0_video.mp4"))).
  left. discriminate.
Defined.

(** The file cannot be sent: the entry is gone all the same. *)
Lemma download_file_one_shot_witness :
  download_file broken_send "7f3a0_video.mp4"
    (site_state finished (holding "7f3a0_video.mp4"))
  = (Ok (Redirect "index"),
     site_state finished
       {| output_file := None;
          flashes := [("Error downloading file", "error")] |}, [])
  /\ download_file broken_send "7f3a0_video.mp4"
       (site_state finished
          {| output_file := None;
             flashes := [("Error downloading file", "error")] |})
     = (Ok (Redirect "index"),
        site_state finished
          {| output_file := None;
             flashes := [("Error downloading file", "error");
                         ("Invalid download request", "error")] |}, []).
Proof.
  assert (H : download_file broken_send "7f3a0_video.mp4"
                (site_state finished (holding "7f3a0_video.mp4"))
              = (Ok (Redirect "index"),
                 site_state finished
                   {| output_file := None;
                      flashes := [("Error downloading file", "error")] |}, []))
    by (vm_compute; reflexivity).
  split; [exact H | ].
  exact (proj2 (download_file_one_shot broken_send "7f3a0_video.mp4"
                  "7f3a0_video.mp4"
                  (site_state finished (holding "7f3a0_video.mp4"))
                  _ _ _ eq_refl eq_refl H)).
Defined.


(** A good upload. *)
Lemma upload_files_success_witness :
  valid_upload good_upload = true
  /\ output_file (session (snd (fst uploading))) = Some "7f3a0_video.mp4"
  /\ output_nonempty "output/7f3a0_video.mp4" (world (snd (fst uploading)))
     = true
  /\ existsb transcode_exit_zero (snd uploading) = true
  /\ draws (snd (fst uploading)) = 1%nat
  /\ flashes (session (snd (fst uploading)))
     = [("Video created successfully! Click download to get your file.",
         "success")].
Proof.
  apply (upload_files_success (scripted happy) plain_site good_upload
           (site_state fresh empty_session)
           (snd (fst uploading)) (snd uploading)).
  vm_compute; reflexivity.
Defined.

(** A good upload, then the download page, then the download. *)
Lemma upload_then_download_witness :
  exists name,
    output_file (session (snd (fst uploading))) = Some name
    /\ download_page (snd (fst uploading))
       = (Ok (Render "index.html" (Some name)), snd (fst uploading), [])
    /\ forall stamp,
         int_of_float (clock (world (snd (fst uploading)))) = Ok stamp ->
         send_file plain_site (path_join OUTPUT_FOLDER name)
                   ("merged_video_" ++ str_of_Z stamp ++ ".mp4")
                   (world (snd (fst uploading)))
         = Ok tt ->
         download_file plain_site name (snd (fst uploading))
         = (Ok (SendFile (path_join OUTPUT_FOLDER name)
                         ("merged_video_" ++ str_of_Z stamp ++ ".mp4")),
            with_session (snd (fst uploading))
              {| output_file := None;
                 flashes := flashes (session (snd (fst uploading))) |},
            []).
Proof.
  apply (upload_then_download (scripted happy) plain_site good_upload
           (site_state fresh empty_session)
           (snd (fst uploading)) (snd uploading)).
  vm_compute; reflexivity.
Defined.

(** The cover was read to its end before it is saved. *)
Lemma get_file_size_then_save_witness :
  fst (get_file_size cover) = 52000
  /\ lookup "uploads/7f3a0_cover.JPG"
       (stored "uploads/7f3a0_cover.JPG" 52000 fresh)
     = Some {| st_isdir := false; st_size := 52000;
               st_ctime := clock fresh |}
  /\ (forall q,
         q <> "uploads/7f3a0_cover.JPG" ->
         lookup q (stored "uploads/7f3a0_cover.JPG" 52000 fresh)
         = lookup q fresh)
  /\ empty_session = empty_session
  /\ @nil event = [].
Proof.
  apply (get_file_size_then_save cover "uploads/7f3a0_cover.JPG"
           (site_state fresh empty_session)
           (site_state (stored "uploads/7f3a0_cover.JPG" 52000 fresh)
                       empty_session)
           []).
  - vm_compute. discriminate.
  - vm_compute; reflexivity.
Defined.

(** The image is fetched, the audio URL names an Ogg file. *)
Lemma generate_from_urls_leaves_image_witness :
  generate_from_urls (scripted happy) plain_site
    (url_request "http://h/a.png?v=1" "http://h/b.ogg")
    (site_state fresh empty_session)
  = (Ok (Redirect "index"),
     {| world := stored "uploads/7f3a0.png" 2048 fresh;
        session :=
          flashed empty_session
            "An unexpected error occurred during processing." "error";
        rng := sample_rng; draws := 1 |}, [])
  /\ lookup "uploads/7f3a0.png" (stored "uploads/7f3a0.png" 2048 fresh)
     = Some {| st_isdir := false; st_size := 2048; st_ctime := clock fresh |}.
Proof.
  apply (generate_from_urls_leaves_image (scripted happy) plain_site
           (url_request "http://h/a.png?v=1" "http://h/b.ogg")
           (site_state fresh empty_session)
           "http://h/a.png?v=1" "http://h/b.ogg" 2048
           (stored "uploads/7f3a0.png" 2048 fresh));
    vm_compute; reflexivity.
Defined.

(** Two good URLs. *)
Lemma generate_from_urls_success_witness :
  exists image_url audio_url,
    url_pair (url_request "http://h/a.png?v=1" "http://h/b.MP3")
    = Some (image_url, audio_url)
    /\ set_mem (url_extension image_url) ALLOWED_IMAGE_EXTENSIONS = true
    /\ set_mem (url_extension audio_url) ALLOWED_AUDIO_EXTENSIONS = true
    /\ draws (snd (fst generating)) = 3%nat
    /\ output_file (session (snd (fst generating))) = Some "7f3a2_video.mp4"
    /\ output_nonempty "output/7f3a2_video.mp4"
         (world (snd (fst generating))) = true
    /\ existsb transcode_exit_zero (snd generating) = true.
Proof.
  apply (generate_from_urls_success (scripted happy) plain_site
           (url_request "http://h/a.png?v=1" "http://h/b.MP3")
           (site_state fresh empty_session)
           (snd (fst generating)) (snd generating)).
  vm_compute; reflexivity.
Defined.

(** Both uploads are a second old. *)
Lemma cleanup_route_nothing_stale_witness :
  cleanup_route (site_state uploaded empty_session)
  = (Ok (Json "success" "Cleanup completed"),
     site_state uploaded empty_session, []).
Proof.
  apply (cleanup_route_nothing_stale (site_state uploaded empty_session));
    vm_compute; reflexivity.
Defined.
